(** * rename_images: batch renaming and copying of image files

    A shallow embedding of [rename_images.py] (the command-line program; the
    GUI file carries the same two functions with [logger.log] in place of
    [print], and without the check for files left after the last batch) and
    the properties of its two renaming modes.

    Modelling conventions.
    - A Python [str] is a Rocq [string]: the sequence of its characters for
      ASCII text, its UTF-8 bytes otherwise.  [str.lower], the character
      classes of the guide pattern and [str.isdigit] are the ASCII ones, so
      the embedding is exact for ASCII file names.
    - A Python [int] is a [Z]; [//] and [%] are [Z.div] and [Z.modulo] (both
      floor, as in Python) with the division by zero raised explicitly.
    - A path is the list of its components on a POSIX system;
      [os.path.join p name] is [p ++ [name]], which is exact when [name] is
      one component (no separator), and two normalised paths are equal when
      their component lists are.  The properties that say in which directory
      a file lies carry the absence of separators as a hypothesis.
    - The effects of a run are a trace of events in program order: the lines
      printed, the directory created and the calls of [shutil.copy2], each
      with its outcome.  Whether a copy succeeds is decided by the file
      system, a parameter [copy2] of the model.
    - [os.makedirs] is taken to succeed and [print] to write its line.  A
      line cannot be written when it holds a surrogate character, and a label
      is one from [angle_num = 55232] on; the properties of the runs that
      rename files are stated up to [max_encodable_angle_num].
    - A run ends by returning or by an exception that nothing catches. *)

From Stdlib Require Import ZArith String Ascii Bool Lia Arith List.
From Stdlib Require Import Sorting.Mergesort Sorting.Sorted Sorting.Permutation Orders.
From Stdlib Require Import DecimalString.
Import ListNotations.

Local Open Scope string_scope.
Local Open Scope list_scope.

(** ** Python built-ins used by the program *)

Module Py.

(** [str.lower] on one character. *)
Definition lower_ascii (c : ascii) : ascii :=
  let n := nat_of_ascii c in
  if (65 <=? n)%nat && (n <=? 90)%nat then ascii_of_nat (n + 32) else c.

(** [s.lower()] *)
Fixpoint lower (s : string) : string :=
  match s with
  | EmptyString => EmptyString
  | String c t => String (lower_ascii c) (lower t)
  end.

(** [s[a:]] for [0 <= a]. *)
Fixpoint drop (a : nat) (s : string) : string :=
  match a, s with
  | O, _ => s
  | S a', String _ t => drop a' t
  | S _, EmptyString => EmptyString
  end.

(** [s[:b]] for [0 <= b]. *)
Fixpoint take (b : nat) (s : string) : string :=
  match b, s with
  | S b', String c t => String c (take b' t)
  | _, _ => EmptyString
  end.

(** [s.endswith(suffix)] *)
Definition endswith (s suffix : string) : bool :=
  (String.length suffix <=? String.length s)%nat
  && String.eqb (drop (String.length s - String.length suffix) s) suffix.

(** [s.endswith(suffixes)] with a tuple of suffixes. *)
Definition endswith_any (s : string) (suffixes : list string) : bool :=
  existsb (endswith s) suffixes.

(** [s.rfind(c)] for a one-character [c]: the highest index, or [-1]. *)
Fixpoint rfind_from (i : Z) (acc : Z) (s : string) (c : ascii) : Z :=
  match s with
  | EmptyString => acc
  | String a t => rfind_from (i + 1) (if Ascii.eqb a c then i else acc) t c
  end.

Definition rfind (s : string) (c : ascii) : Z := rfind_from 0 (-1) s c.

(** [s.lstrip('.')] *)
Fixpoint lstrip_dot (s : string) : string :=
  match s with
  | String "." t => lstrip_dot t
  | _ => s
  end.

Definition is_digit (c : ascii) : bool :=
  let n := nat_of_ascii c in (48 <=? n)%nat && (n <=? 57)%nat.

Fixpoint all_digits (s : string) : bool :=
  match s with
  | EmptyString => true
  | String c t => is_digit c && all_digits t
  end.

(** [s.isdigit()]: non-empty and every character a digit. *)
Definition isdigit (s : string) : bool :=
  match s with
  | EmptyString => false
  | _ => all_digits s
  end.

(** [str(n)] for an integer. *)
Definition str_of_int (n : Z) : string := NilZero.string_of_int (Z.to_int n).

(** [f"{n:02d}"]: zero-padded to a width of two (a sign counts in the
    width). *)
Definition format_02d (n : Z) : string :=
  let s := str_of_int n in
  if (String.length s <? 2)%nat then "0" ++ s else s.

(** UTF-8 bytes of the one-character string of code point [n]. *)
Definition byte (n : Z) : ascii := ascii_of_N (Z.to_N n).

Definition utf8 (n : Z) : string :=
  if (n <? 128)%Z then String (byte n) ""
  else if (n <? 2048)%Z then
    String (byte (192 + n / 64)) (String (byte (128 + n mod 64)) "")
  else if (n <? 65536)%Z then
    String (byte (224 + n / 4096))
      (String (byte (128 + (n / 64) mod 64)) (String (byte (128 + n mod 64)) ""))
  else
    String (byte (240 + n / 262144))
      (String (byte (128 + (n / 4096) mod 64))
         (String (byte (128 + (n / 64) mod 64)) (String (byte (128 + n mod 64)) ""))).

(** [ord('A')] *)
Definition ord_A : Z := 65.

(** Highest code point [chr] accepts, [0x10FFFF]. *)
Definition max_code_point : Z := 1114111.

(** [range(n)] *)
Definition range (n : Z) : list Z := map Z.of_nat (seq 0 (Z.to_nat n)).

(** [enumerate(l)] *)
Definition enumerate {A : Type} (l : list A) : list (nat * A) :=
  combine (seq 0 (length l)) l.

(** [l[a:b]] for [0 <= a] and [0 <= b]. *)
Definition slice {A : Type} (l : list A) (a b : nat) : list A :=
  firstn (b - a) (skipn a l).

(** [sorted(l)] on strings: ascending in the order of [str], which compares
    character by character, a proper prefix first. *)
Module StringOrder <: TotalLeBool.
Definition t := string.
Definition leb := String.leb.
Theorem leb_total : forall a1 a2, leb a1 a2 = true \/ leb a2 a1 = true.
Proof. exact String.leb_total. Qed.
End StringOrder.

Module StringSort := Sort StringOrder.

Definition sorted (l : list string) : list string := StringSort.sort l.

End Py.

(** ** [os.path] *)

Definition path := list string.

Module OsPath.

(** [os.path.join(p, name)] for a plain name. *)
Definition join (p : path) (name : string) : path := p ++ [name].

(** [os.path.basename(p)] *)
Definition basename (p : path) : string := last p "".

(** The loop of [genericpath._splitext] that skips the leading dots of the
    file name: [true] when a character other than the dot stands somewhere
    in [p[filenameIndex:dotIndex]]. *)
Fixpoint has_non_dot (steps : nat) (p : string) (filenameIndex : nat) : bool :=
  match steps with
  | O => false
  | S k =>
      match String.get filenameIndex p with
      | Some "."%char => has_non_dot k p (S filenameIndex)
      | _ => true
      end
  end.

(** [os.path.splitext(p)] of [posixpath]: separator ["/"], no alternative
    separator, extension separator ["."]. *)
Definition splitext (p : string) : string * string :=
  let sepIndex := Py.rfind p "/" in
  let dotIndex := Py.rfind p "." in
  if (sepIndex <? dotIndex)%Z
     && has_non_dot (Z.to_nat (dotIndex - (sepIndex + 1))) p (Z.to_nat (sepIndex + 1))
  then (Py.take (Z.to_nat dotIndex) p, Py.drop (Z.to_nat dotIndex) p)
  else (p, "").

End OsPath.

(** ** Effects: printed lines, copies, exceptions *)

(** One constructor per [print] of the source, with the values the line
    interpolates; the comment gives the line of [rename_images.py]. *)
Inductive msg : Type :=
| MsgRenamedDir (renamed_dir_path : path)                       (* 47 *)
| MsgSkipFolder (root : path) (sample_number : string)          (* 67 *)
| WarnFolderNoImages (root : path)                              (* 72 *)
| MsgProcessingFolder (root : path)                             (* 75 *)
| NoteExtraImages (root : path) (limit : nat)                   (* 78 *)
| MsgCopiedRenamed (original_filename new_filename : string)    (* 89, 203 *)
| ErrCopyFailed (src dst : path)                                (* 91, 206 *)
| MsgSubfolderDone                                              (* 93 *)
| ErrNotADirectory (single_folder_path : path)                  (* 103 *)
| WarnNoImages (single_folder_path : path)                      (* 110 *)
| ErrNoGuidePhoto (single_folder_path : path)                   (* 134 *)
| ErrInconsistentBatches                                        (* 156 *)
| MsgGuideFollowedBy (guide_file : string) (count : nat)        (* 158 *)
| WarnNothingToProcess                                          (* 163 *)
| ErrNotMultiple (num_files_per_batch : nat) (angle_num : Z)    (* 165 *)
| MsgCheckAngleNum                                              (* 166 *)
| MsgProcessingSingle (single_folder_path : path)               (* 170 *)
| MsgDetected (batches : nat) (num_files_per_batch : nat) (angle_num : Z) (* 171 *)
| MsgBatch (number : nat) (guide_file batch_id : string)        (* 179 *)
| MsgGuideCopied (guide_file : string)                          (* 184 *)
| ErrGuideCopyFailed (guide_file : string)                      (* 186 *)
| WarnRemaining (count : nat)                                   (* 216 *)
| MsgRemainingFiles (remaining_files : list string)             (* 217 *)
| MsgSingleDone (total_renamed_count : nat).                    (* 219 *)

Inductive event : Type :=
| Print (m : msg)
| Makedirs (p : path)
| Copy2 (src dst : path) (ok : bool).

Inductive exn : Type := ZeroDivisionError | IndexError | ValueError.

Inductive result (A : Type) : Type :=
| Ok (a : A)
| Raise (e : exn).

Arguments Ok {A} a.
Arguments Raise {A} e.

(** A computation: the events it performs, then its value or the exception
    that ends it. *)
Definition M (A : Type) : Type := (list event * result A)%type.

Definition ret {A : Type} (a : A) : M A := ([], Ok a).

Definition bind {A B : Type} (m : M A) (k : A -> M B) : M B :=
  match m with
  | (t, Ok a) => let (t', r) := k a in (t ++ t', r)
  | (t, Raise e) => (t, Raise e)
  end.

Definition raise {A : Type} (e : exn) : M A := ([], Raise e).

Definition emit (e : event) : M unit := ([e], Ok tt).

Definition print (m : msg) : M unit := emit (Print m).

Notation "x <- m ;; k" := (bind m (fun x => k))
  (at level 61, m at next level, right associativity).
Notation "m ;; k" := (bind m (fun _ => k))
  (at level 61, right associativity).

Definition trace {A : Type} (m : M A) : list event := fst m.
Definition outcome {A : Type} (m : M A) : result A := snd m.

(** [for x in l: body(x)] *)
Fixpoint for_each {A : Type} (l : list A) (body : A -> M unit) : M unit :=
  match l with
  | [] => ret tt
  | x :: rest => body x ;; for_each rest body
  end.

(** A loop that carries one variable. *)
Fixpoint for_fold {A S : Type} (l : list A) (s : S) (body : S -> A -> M S) : M S :=
  match l with
  | [] => ret s
  | x :: rest => s' <- body s x ;; for_fold rest s' body
  end.

(** [[f(x) for x in l]] *)
Fixpoint comprehension {A B : Type} (f : A -> M B) (l : list A) : M (list B) :=
  match l with
  | [] => ret []
  | x :: rest => y <- f x ;; ys <- comprehension f rest ;; ret (y :: ys)
  end.

(** [l[i]]: a negative index counts from the end, an index out of range
    raises. *)
Definition getitem {A : Type} (l : list A) (i : Z) : M A :=
  let n := Z.of_nat (length l) in
  let k := if (i <? 0)%Z then (i + n)%Z else i in
  if (0 <=? k)%Z && (k <? n)%Z then
    match nth_error l (Z.to_nat k) with
    | Some a => ret a
    | None => raise IndexError
    end
  else raise IndexError.

(** [a // b] and [a % b] *)
Definition floordiv (a b : Z) : M Z :=
  if (b =? 0)%Z then raise ZeroDivisionError else ret (a / b)%Z.

Definition modulo (a b : Z) : M Z :=
  if (b =? 0)%Z then raise ZeroDivisionError else ret (a mod b)%Z.

(** [chr(n)] *)
Definition chr (n : Z) : M string :=
  if (0 <=? n)%Z && (n <=? Py.max_code_point)%Z then ret (Py.utf8 n)
  else raise ValueError.

(** ** The program *)

Definition RENAMED_FOLDER_NAME : string := "renamed".

Definition SUPPORTED_IMAGE_EXTENSIONS : list string :=
  [".jpg"; ".jpeg"; ".png"; ".gif"; ".bmp"; ".tiff"].

(** [f.lower().endswith(SUPPORTED_IMAGE_EXTENSIONS)] *)
Definition is_supported (f : string) : bool :=
  Py.endswith_any (Py.lower f) SUPPORTED_IMAGE_EXTENSIONS.

Definition create_renamed_directory (base_dir : path) : M path :=
  let renamed_dir_path := OsPath.join base_dir RENAMED_FOLDER_NAME in
  emit (Makedirs renamed_dir_path) ;;
  print (MsgRenamedDir renamed_dir_path) ;;
  ret renamed_dir_path.

(** [os.path.normpath(p) == os.path.normpath(q)] *)
Fixpoint path_eqb (p q : path) : bool :=
  match p, q with
  | [], [] => true
  | a :: p', b :: q' => String.eqb a b && path_eqb p' q'
  | _, _ => false
  end.

(** A directory as [os.walk] finds it: its name, the names of its files, and
    its subdirectories in the order of the directory scan. *)
#[warnings="-register-all"]
Inductive tree : Type :=
| Dir (name : string) (files : list string) (dirs : list tree).

Definition dir_name (t : tree) : string :=
  match t with Dir name _ _ => name end.

(** [os.walk(top)], top-down, where [t] is the directory at [top]: the
    directory itself, then its subdirectories in turn, each with everything
    below it. *)
Fixpoint walk (top : path) (t : tree) : list (path * list string * list string) :=
  match t with
  | Dir _ files dirs =>
      (top, map dir_name dirs, files)
      :: flat_map (fun d => walk (OsPath.join top (dir_name d)) d) dirs
  end.

(** The guide pattern
    [-([a-zA-Z0-9]{2})\.(jpg|jpeg|png|gif|bmp|tiff)$] under [re.IGNORECASE]. *)
Module GuidePattern.

Definition is_alnum (c : ascii) : bool :=
  let n := nat_of_ascii c in
  ((97 <=? n)%nat && (n <=? 122)%nat)
  || ((65 <=? n)%nat && (n <=? 90)%nat)
  || ((48 <=? n)%nat && (n <=? 57)%nat).

(** The alternatives, [ext.lstrip('.')] of each supported extension. *)
Definition alternatives : list string :=
  map Py.lstrip_dot SUPPORTED_IMAGE_EXTENSIONS.

(** A literal matched at the head of [s] without regard to case: what is
    left of [s]. *)
Fixpoint literal (lit s : string) : option string :=
  match lit, s with
  | EmptyString, _ => Some s
  | String a lit', String b s' =>
      if Ascii.eqb (Py.lower_ascii a) (Py.lower_ascii b) then literal lit' s' else None
  | String _ _, EmptyString => None
  end.

(** [$]: the end of the string, or just before a newline that ends it. *)
Definition at_end (s : string) : bool :=
  match s with
  | EmptyString => true
  | String "010"%char EmptyString => true
  | _ => false
  end.

(** The pattern matched at the head of [s]: group 1. *)
Definition match_here (s : string) : option string :=
  match s with
  | String "-"%char (String a (String b (String "."%char rest))) =>
      if is_alnum a && is_alnum b
         && existsb (fun alt => match literal alt rest with
                                | Some r => at_end r
                                | None => false
                                end) alternatives
      then Some (String a (String b EmptyString))
      else None
  | _ => None
  end.

(** [guide_photo_pattern.search(s)]: the leftmost match, as group 1. *)
Fixpoint search (s : string) : option string :=
  match match_here s with
  | Some g => Some g
  | None =>
      match s with
      | EmptyString => None
      | String _ t => search t
      end
  end.

End GuidePattern.

(** An entry of [guide_photos_info]; [gi_batch_id] is its key ['batch_id']. *)
Record guide_info : Type := {
  filename : string;
  index : nat;
  gi_batch_id : string
}.

(** An entry of [batches]. *)
Record batch : Type := {
  guide_file : string;
  batch_id : string;
  files_to_rename : list string
}.

(** Lines 125-131: the body of the loop that collects the guide photos. *)
Definition guide_of (p : nat * string) : list guide_info :=
  let '(i, f) := p in
  match GuidePattern.search f with
  | Some g => [ {| filename := f; index := i; gi_batch_id := g |} ]
  | None => []
  end.

(** Lines 123-131: the guide photos of the sorted list with their positions. *)
Definition find_guide_photos (all_files : list string) : list guide_info :=
  flat_map guide_of (Py.enumerate all_files).

(** Lines 140-149: the batch of the guide photo at position [i] of the list of
    guide photos: from its place in the list of files to the next guide
    photo's, or to the end of the list. *)
Definition batch_at (all_files : list string) (guide_photos_info : list guide_info)
    (i : nat) (guide : guide_info) : batch :=
  let start_index := index guide in
  let end_index :=
    match nth_error guide_photos_info (i + 1) with
    | Some next => index next
    | None => length all_files
    end in
  let batch_files := Py.slice all_files start_index end_index in
  {| guide_file := filename guide;
     batch_id := gi_batch_id guide;
     files_to_rename := skipn 1 batch_files |}.

(** Lines 138-149: one batch per guide photo. *)
Definition build_batches (all_files : list string) (guide_photos_info : list guide_info)
  : list batch :=
  map (fun '(i, guide) => batch_at all_files guide_photos_info i guide)
      (Py.enumerate guide_photos_info).

Section Program.

(** The file system's answer to [shutil.copy2(src, dst)]: [true] when the
    copy is made, [false] when it raises. *)
Variable copy2 : path -> path -> bool.

(** A [try: shutil.copy2 ... except Exception] block with its two lines;
    [true] when the copy was made. *)
Definition try_copy (src dst : path) (done failed : msg) : M bool :=
  if copy2 src dst
  then emit (Copy2 src dst true) ;; print done ;; ret true
  else emit (Copy2 src dst false) ;; print failed ;; ret false.

Variables (base_work_dir : path) (region_code date_code : string).

(** *** Mode 1: one sample per subfolder *)

Definition angle_suffixes : list string := ["A"; "B"; "C"; "D"].

(** Lines 76-91: the loop over the images of one sample folder; the [break]
    ends it. *)
Fixpoint copy_sample_images (renamed_dir_path root : path) (sample_number : string)
    (images : list (nat * string)) : M unit :=
  match images with
  | [] => ret tt
  | (i, original_filename) :: rest =>
      if (length angle_suffixes <=? i)%nat then
        print (NoteExtraImages root (length angle_suffixes))
      else
        angle_suffix <- getitem angle_suffixes (Z.of_nat i) ;;
        let file_extension := Py.lower (snd (OsPath.splitext original_filename)) in
        let new_filename :=
          (region_code ++ "-" ++ date_code ++ "-" ++ sample_number ++ "-"
             ++ angle_suffix ++ file_extension)%string in
        let original_filepath := OsPath.join root original_filename in
        let new_filepath := OsPath.join renamed_dir_path new_filename in
        try_copy original_filepath new_filepath
          (MsgCopiedRenamed original_filename new_filename)
          (ErrCopyFailed original_filepath new_filepath) ;;
        copy_sample_images renamed_dir_path root sample_number rest
  end.

(** Lines 60-91: the body of the loop over [os.walk]. *)
Definition visit (renamed_dir_path : path) (entry : path * list string * list string)
  : M unit :=
  let '(root, dirs, files) := entry in
  if path_eqb root renamed_dir_path then ret tt
  else if path_eqb root base_work_dir then ret tt
  else
    let sample_number := OsPath.basename root in
    if negb (Py.isdigit sample_number) || negb (String.length sample_number =? 4)%nat then
      print (MsgSkipFolder root sample_number)
    else
      let image_files := Py.sorted (filter is_supported files) in
      match image_files with
      | [] => print (WarnFolderNoImages root)
      | _ :: _ =>
          print (MsgProcessingFolder root) ;;
          copy_sample_images renamed_dir_path root sample_number (Py.enumerate image_files)
      end.

Definition rename_and_copy_subfolder_mode (base : tree) : M unit :=
  renamed_dir_path <- create_renamed_directory base_work_dir ;;
  for_each (walk base_work_dir base) (visit renamed_dir_path) ;;
  print MsgSubfolderDone.

(** *** Mode 2: one folder, batches delimited by guide photos *)

Variables (single_folder_path : path) (angle_num : Z).

(** Line 174: [[chr(ord('A') + i) for i in range(angle_num)]] *)
Definition make_group_labels : M (list string) :=
  comprehension (fun i => chr (Py.ord_A + i)) (Py.range angle_num).

(** Lines 189-206: one file of a batch; the count of renamed files goes
    up when the copy is made. *)
Definition rename_one (renamed_dir_path : path) (group_labels : list string)
    (batch_id : string) (total_renamed_count : nat) (jf : nat * string) : M nat :=
  let '(j, filename_to_rename) := jf in
  q <- floordiv (Z.of_nat j) angle_num ;;
  let group_id := (q + 1)%Z in
  r <- modulo (Z.of_nat j) angle_num ;;
  angle_suffix <- getitem group_labels r ;;
  let file_extension := Py.lower (snd (OsPath.splitext filename_to_rename)) in
  let new_filename :=
    (region_code ++ "-" ++ date_code ++ "-" ++ batch_id ++ Py.format_02d group_id
       ++ "-" ++ angle_suffix ++ file_extension)%string in
  let src_path := OsPath.join single_folder_path filename_to_rename in
  let dst_path := OsPath.join renamed_dir_path new_filename in
  copied <- try_copy src_path dst_path
              (MsgCopiedRenamed filename_to_rename new_filename)
              (ErrCopyFailed src_path dst_path) ;;
  ret (if copied then total_renamed_count + 1 else total_renamed_count)%nat.

(** Lines 177-206: one batch: its guide photo under its own name, then its
    files under their new names. *)
Definition process_batch (renamed_dir_path : path) (group_labels : list string)
    (total_renamed_count : nat) (ib : nat * batch) : M nat :=
  let '(i, b) := ib in
  print (MsgBatch (i + 1) (guide_file b) (batch_id b)) ;;
  try_copy (OsPath.join single_folder_path (guide_file b))
           (OsPath.join renamed_dir_path (guide_file b))
           (MsgGuideCopied (guide_file b))
           (ErrGuideCopyFailed (guide_file b)) ;;
  for_fold (Py.enumerate (files_to_rename b)) total_renamed_count
    (rename_one renamed_dir_path group_labels (batch_id b)).

(** Lines 209-217: the check for files after the last batch. *)
Definition check_remaining (all_files : list string)
    (guide_photos_info : list guide_info) (batches : list batch) : M unit :=
  match guide_photos_info with
  | [] => ret tt
  | _ :: _ =>
      last_guide <- getitem guide_photos_info (-1) ;;
      let last_guide_photo_index := index last_guide in
      last_batch <- getitem batches (-1) ;;
      let last_processed_index :=
        (last_guide_photo_index + length (files_to_rename last_batch))%nat in
      if (Z.of_nat last_processed_index <? Z.of_nat (length all_files) - 1)%Z then
        let remaining_files := skipn (last_processed_index + 1) all_files in
        match remaining_files with
        | [] => ret tt
        | _ :: _ =>
            print (WarnRemaining (length remaining_files)) ;;
            print (MsgRemainingFiles remaining_files)
        end
      else ret tt
  end.

(** Lines 170-219: everything after the checks. *)
Definition copy_phase (renamed_dir_path : path) (all_files : list string)
    (guide_photos_info : list guide_info) (batches : list batch)
    (num_files_per_batch : nat) : M unit :=
  print (MsgProcessingSingle single_folder_path) ;;
  print (MsgDetected (length batches) num_files_per_batch angle_num) ;;
  group_labels <- make_group_labels ;;
  total_renamed_count <-
    for_fold (Py.enumerate batches) 0%nat (process_batch renamed_dir_path group_labels) ;;
  check_remaining all_files guide_photos_info batches ;;
  print (MsgSingleDone total_renamed_count).

(** Lines 152-155: [true] when there are several batches and their counts
    of files to rename differ. *)
Definition inconsistent (batches : list batch) : M bool :=
  if (1 <? length batches)%nat then
    first_batch <- getitem batches 0 ;;
    let num_files_in_first_batch := length (files_to_rename first_batch) in
    let is_consistent :=
      forallb (fun b => (length (files_to_rename b) =? num_files_in_first_batch)%nat)
              batches in
    ret (negb is_consistent)
  else ret false.

(** Lines 161-167: [true] when the run goes on to the copies. *)
Definition divisible (num_files_per_batch : nat) : M bool :=
  if (num_files_per_batch =? 0)%nat then
    print WarnNothingToProcess ;; ret true
  else
    r <- modulo (Z.of_nat num_files_per_batch) angle_num ;;
    if negb (r =? 0)%Z then
      print (ErrNotMultiple num_files_per_batch angle_num) ;;
      print MsgCheckAngleNum ;;
      ret false
    else ret true.

(** Lines 113-219, on the sorted list of supported files. *)
Definition group_and_copy (renamed_dir_path : path) (all_files : list string) : M unit :=
  let guide_photos_info := find_guide_photos all_files in
  match guide_photos_info with
  | [] => print (ErrNoGuidePhoto single_folder_path)
  | _ :: _ =>
      let batches := build_batches all_files guide_photos_info in
      bad <- inconsistent batches ;;
      if bad : bool then
        print ErrInconsistentBatches ;;
        for_each batches
          (fun b => print (MsgGuideFollowedBy (guide_file b) (length (files_to_rename b))))
      else
        first_batch <- getitem batches 0 ;;
        let num_files_per_batch := length (files_to_rename first_batch) in
        go <- divisible num_files_per_batch ;;
        if go : bool then
          copy_phase renamed_dir_path all_files guide_photos_info batches
                     num_files_per_batch
        else ret tt
  end.

(** [isdir] is [os.path.isdir(single_folder_path)] and [listing] is
    [os.listdir(single_folder_path)]. *)
Definition rename_and_copy_single_folder_mode (isdir : bool) (listing : list string)
  : M unit :=
  if negb isdir then print (ErrNotADirectory single_folder_path)
  else
    renamed_dir_path <- create_renamed_directory base_work_dir ;;
    let all_files := Py.sorted (filter is_supported listing) in
    match all_files with
    | [] => print (WarnNoImages single_folder_path)
    | _ :: _ => group_and_copy renamed_dir_path all_files
    end.

End Program.

(** ** Vocabulary of the properties *)

(** The calls of [shutil.copy2] in a trace, in order, each with its outcome. *)
Definition copy_calls (t : list event) : list (path * path * bool) :=
  flat_map (fun e => match e with Copy2 src dst ok => [(src, dst, ok)] | _ => [] end) t.

(** The greatest [angle_num] whose labels [chr] can all make:
    [0x10FFFF - ord('A') + 1]. *)
Definition max_angle_num : Z := 1114047.

(** The greatest [angle_num] none of whose labels is a surrogate
    ([U+D800] to [U+DFFF]), a character that neither a file name nor a
    printed line can hold: [0xD800 - ord('A')]. *)
Definition max_encodable_angle_num : Z := 55231.

(** The character [i] places after 'A', [chr(ord('A') + i)]. *)
Definition label (i : Z) : string := Py.utf8 (Py.ord_A + i).

Section Expected.

Variables (copy2 : path -> path -> bool) (base_work_dir : path)
          (region_code date_code : string) (single_folder_path : path)
          (angle_num : Z) (renamed_dir_path : path).

(** The name given to file [j] of a batch. *)
Definition new_name (batch_id : string) (j : nat) (f : string) : string :=
  (region_code ++ "-" ++ date_code ++ "-" ++ batch_id
     ++ Py.format_02d (Z.of_nat j / angle_num + 1)
     ++ "-" ++ label (Z.of_nat j mod angle_num)
     ++ Py.lower (snd (OsPath.splitext f)))%string.

(** The events of file [j] of a batch: the copy and its line. *)
Definition file_events (batch_id : string) (jf : nat * string) : list event :=
  let '(j, f) := jf in
  let src := OsPath.join single_folder_path f in
  let dst := OsPath.join renamed_dir_path (new_name batch_id j f) in
  [Copy2 src dst (copy2 src dst);
   Print (if copy2 src dst then MsgCopiedRenamed f (new_name batch_id j f)
          else ErrCopyFailed src dst)].

(** The events of a batch: its line, its guide photo, its files. *)
Definition batch_events (ib : nat * batch) : list event :=
  let '(i, b) := ib in
  let src := OsPath.join single_folder_path (guide_file b) in
  let dst := OsPath.join renamed_dir_path (guide_file b) in
  Print (MsgBatch (i + 1) (guide_file b) (batch_id b))
  :: Copy2 src dst (copy2 src dst)
  :: Print (if copy2 src dst then MsgGuideCopied (guide_file b)
            else ErrGuideCopyFailed (guide_file b))
  :: flat_map (file_events (batch_id b)) (Py.enumerate (files_to_rename b)).

(** The name given to image [i] of a sample folder. *)
Definition sample_name (sample_number : string) (i : nat) (f : string) : string :=
  (region_code ++ "-" ++ date_code ++ "-" ++ sample_number ++ "-"
     ++ nth i angle_suffixes "" ++ Py.lower (snd (OsPath.splitext f)))%string.

(** The copies made from a sample folder: its first four images in sorted
    order. *)
Definition sample_copies (root : path) (files : list string)
  : list (path * path * bool) :=
  map (fun '(i, f) =>
         let src := OsPath.join root f in
         let dst := OsPath.join (OsPath.join base_work_dir RENAMED_FOLDER_NAME)
                      (sample_name (OsPath.basename root) i f) in
         (src, dst, copy2 src dst))
      (Py.enumerate (firstn 4 (Py.sorted (filter is_supported files)))).

(** The folders the walk takes for samples: any folder but the base and
    the output folder whose name is four digits. *)
Definition is_sample_folder (root : path) : bool :=
  negb (path_eqb root (OsPath.join base_work_dir RENAMED_FOLDER_NAME))
  && negb (path_eqb root base_work_dir)
  && Py.isdigit (OsPath.basename root)
  && (String.length (OsPath.basename root) =? 4)%nat.

End Expected.

(** The lines that name no file. *)
Definition plain_message (m : msg) : bool :=
  match m with
  | MsgRenamedDir _ | ErrNotADirectory _ | WarnNoImages _ | ErrNoGuidePhoto _
  | ErrInconsistentBatches | WarnNothingToProcess | ErrNotMultiple _ _
  | MsgCheckAngleNum | MsgProcessingSingle _ | MsgDetected _ _ _
  | MsgSingleDone _ => true
  | _ => false
  end.

Section Events.

Variables (region_code date_code : string) (single_folder_path : path)
          (angle_num : Z) (renamed_dir_path : path) (batches : list batch).

(** Everything a run of mode 2 can do, whatever its end. *)
Inductive single_folder_event : event -> Prop :=
| ev_makedirs :
    single_folder_event (Makedirs renamed_dir_path)
| ev_plain m :
    plain_message m = true -> single_folder_event (Print m)
| ev_followed b :
    In b batches ->
    single_folder_event
      (Print (MsgGuideFollowedBy (guide_file b) (length (files_to_rename b))))
| ev_batch i b :
    In b batches ->
    single_folder_event (Print (MsgBatch i (guide_file b) (batch_id b)))
| ev_guide_copy b ok :
    In b batches ->
    single_folder_event
      (Copy2 (OsPath.join single_folder_path (guide_file b))
             (OsPath.join renamed_dir_path (guide_file b)) ok)
| ev_guide_copied b :
    In b batches -> single_folder_event (Print (MsgGuideCopied (guide_file b)))
| ev_guide_failed b :
    In b batches -> single_folder_event (Print (ErrGuideCopyFailed (guide_file b)))
| ev_file_copy b j f ok :
    In b batches -> nth_error (files_to_rename b) j = Some f -> (0 < angle_num)%Z ->
    single_folder_event
      (Copy2 (OsPath.join single_folder_path f)
             (OsPath.join renamed_dir_path (new_name region_code date_code angle_num (batch_id b) j f)) ok)
| ev_file_copied b j f :
    In b batches -> nth_error (files_to_rename b) j = Some f -> (0 < angle_num)%Z ->
    single_folder_event (Print (MsgCopiedRenamed f (new_name region_code date_code angle_num (batch_id b) j f)))
| ev_file_failed b j f :
    In b batches -> nth_error (files_to_rename b) j = Some f -> (0 < angle_num)%Z ->
    single_folder_event
      (Print (ErrCopyFailed (OsPath.join single_folder_path f)
                            (OsPath.join renamed_dir_path (new_name region_code date_code angle_num (batch_id b) j f)))).

End Events.

(** The two lines of the check for files after the last batch. *)
Definition remaining_warning (e : event) : bool :=
  match e with
  | Print (WarnRemaining _) | Print (MsgRemainingFiles _) => true
  | _ => false
  end.

(** The input files an event names: the source of a copy, the files a line
    is about. *)
Definition named_files (e : event) : list string :=
  match e with
  | Copy2 src _ _ => [OsPath.basename src]
  | Print (MsgGuideFollowedBy g _) => [g]
  | Print (MsgBatch _ g _) => [g]
  | Print (MsgGuideCopied g) => [g]
  | Print (ErrGuideCopyFailed g) => [g]
  | Print (MsgCopiedRenamed f _) => [f]
  | Print (ErrCopyFailed src _) => [OsPath.basename src]
  | Print (MsgRemainingFiles l) => l
  | _ => []
  end.

(** [c in s] *)
Fixpoint contains (c : ascii) (s : string) : bool :=
  match s with
  | EmptyString => false
  | String a t => Ascii.eqb a c || contains c t
  end.

(** No upper-case letter. *)
Definition is_lower (s : string) : bool := String.eqb (Py.lower s) s.

(** Folder [d'] lies below folder [t], along the names [rel]. *)
Inductive below : tree -> path -> tree -> Prop :=
| below_here t : below t [] t
| below_step name files dirs d rel d' :
    In d dirs -> below d rel d' -> below (Dir name files dirs) (dir_name d :: rel) d'.

(** ** Concrete inputs *)

Definition always_copied : path -> path -> bool := fun _ _ => true.

Definition ten_files : list string :=
  ["a0.jpg"; "a1.jpg"; "b-01.jpg"; "b1.jpg"; "b2.jpg"; "b3.jpg"; "b4.jpg";
   "c-02.jpg"; "c1.jpg"; "c2.jpg"].

Definition one_batch : list string := ["g-AB.JPG"; "x1.JPEG"; "x2.Tiff"].

Definition early_file : list string := ["c.jpg"; "b-01.jpg"; "a.jpg"].

Definition nested_samples : tree :=
  Dir "w" []
    [Dir "0001" ["a.jpg"] [Dir "0002" ["deep.jpg"] []];
     Dir "renamed" [] []].

Definition eight_after_guide : list string :=
  ["s-7K.jpg"; "t1.jpg"; "t2.jpg"; "t3.jpg"; "t4.jpg"; "t5.jpg"; "t6.jpg"; "t7.jpg";
   "t8.jpg"].

Definition five_images : list string :=
  ["e.jpg"; "b.JPG"; "a.png"; "notes.txt"; "d.bmp"; "c.gif"].

(** A base directory with two sample folders and the output folder of an
    earlier run. *)
Definition two_samples : tree :=
  Dir "w" ["readme.txt"]
    [Dir "0001" five_images [];
     Dir "0002" ["z.PNG"] [];
     Dir "renamed" ["old.jpg"] []].

Definition three_digits (i : nat) : string :=
  let digit (k : nat) := ascii_of_nat (48 + k mod 10) in
  String (digit (i / 100)) (String (digit (i / 10)) (String (digit i) "")).

(** [x000.JPG], [x001.JPG], ... *)
Definition numbered_images (n : nat) : list string :=
  map (fun i => ("x" ++ three_digits i ++ ".JPG")%string) (seq 0 n).

(** Two hundred images and, listed last, the guide photo that sorts before
    them: with two angles, one hundred groups. *)
Definition long_batch : list string := numbered_images 200 ++ ["g-AB.jpg"].

(** ** Vocabulary of the further properties *)

(** The files of a batch in the order of the list: the guide photo, then the
    files to rename. *)
Definition batch_files (b : batch) : list string :=
  guide_file b :: files_to_rename b.

(** A name that [os.path.join] puts directly in the directory it is joined
    to: one component, as [os.listdir] gives them. *)
Definition plain_name (name : string) : Prop :=
  contains "/" name = false /\ name <> "" /\ name <> "." /\ name <> "..".

(** The sources of the calls of [shutil.copy2], as file names. *)
Definition copied_sources (t : list event) : list string :=
  map (fun c => OsPath.basename (fst (fst c))) (copy_calls t).

(** The batches of a list of guide photos, by recursion on the list. *)
Fixpoint batches_from (all_files : list string) (gs : list guide_info) : list batch :=
  match gs with
  | [] => []
  | g :: rest =>
      {| guide_file := filename g;
         batch_id := gi_batch_id g;
         files_to_rename :=
           skipn 1 (Py.slice all_files (index g)
                      match rest with
                      | next :: _ => index next
                      | [] => length all_files
                      end) |}
      :: batches_from all_files rest
  end.

Section Counting.

Variables (copy2 : path -> path -> bool) (region_code date_code : string)
          (single_folder_path : path) (angle_num : Z) (renamed_dir_path : path).

(** The files of a batch whose copy under the new name is made. *)
Definition renamed_in_batch (b : batch) : nat :=
  length (filter (fun '(j, f) =>
                    copy2 (OsPath.join single_folder_path f)
                          (OsPath.join renamed_dir_path
                             (new_name region_code date_code angle_num (batch_id b) j f)))
                 (Py.enumerate (files_to_rename b))).

End Counting.

(** A name that ends in ['-'], two alphanumeric characters [g], a dot and one
    of the extensions in any case, with at most a newline after it. *)
Definition guide_shape (s g : string) : Prop :=
  exists pre a b e tail,
    s = (pre ++ String "-" (String a (String b (String "." (e ++ tail)))))%string
    /\ g = String a (String b "")
    /\ GuidePattern.is_alnum a = true /\ GuidePattern.is_alnum b = true
    /\ In (Py.lower e) GuidePattern.alternatives
    /\ (tail = "" \/ tail = String "010" "").

(** ** The callers: [main] and the GUI *)

(** [str.upper] on one character, and [s.upper()]. *)
Definition upper_ascii (c : ascii) : ascii :=
  let n := nat_of_ascii c in
  if (97 <=? n)%nat && (n <=? 122)%nat then ascii_of_nat (n - 32) else c.

Fixpoint upper (s : string) : string :=
  match s with
  | EmptyString => EmptyString
  | String c t => String (upper_ascii c) (upper t)
  end.

Definition is_upper_letter (c : ascii) : bool :=
  let n := nat_of_ascii c in (65 <=? n)%nat && (n <=? 90)%nat.

Definition is_letter (c : ascii) : bool :=
  let n := nat_of_ascii c in
  ((97 <=? n)%nat && (n <=? 122)%nat) || ((65 <=? n)%nat && (n <=? 90)%nat).

(** [re.match(r'^[A-Za-z]{2}$', s)] *)
Definition two_letters (s : string) : bool :=
  match s with
  | String a (String b rest) => is_letter a && is_letter b && GuidePattern.at_end rest
  | _ => false
  end.

(** [re.match(r'^\d{6}$', s)] *)
Definition six_digits (s : string) : bool :=
  match s with
  | String a (String b (String c (String d (String e (String f rest))))) =>
      Py.is_digit a && Py.is_digit b && Py.is_digit c && Py.is_digit d
      && Py.is_digit e && Py.is_digit f && GuidePattern.at_end rest
  | _ => false
  end.

(** The value of [--mode], of the GUI's radio buttons. *)
Inductive mode : Type := subfolder | single_folder.

(** What the callers ask of the file system: [os.path.isdir], the tree
    [os.walk] finds at a path, [os.listdir], and the answer to
    [shutil.copy2]. *)
Record filesystem : Type := {
  fs_isdir : path -> bool;
  fs_walk : path -> tree;
  fs_listdir : path -> list string;
  fs_copy2 : path -> path -> bool
}.

Section GuiCore.

Variables (copy2 : path -> path -> bool) (base_work_dir : path)
          (region_code date_code : string) (single_folder_path : path)
          (angle_num : Z).

(** [rename_images_gui.py], lines 131-161: the copy phase of the GUI's
    [rename_and_copy_single_folder_mode], which ends after the loop over the
    batches. *)
Definition gui_copy_phase (renamed_dir_path : path) (batches : list batch)
    (num_files_per_batch : nat) : M unit :=
  print (MsgProcessingSingle single_folder_path) ;;
  print (MsgDetected (length batches) num_files_per_batch angle_num) ;;
  group_labels <- make_group_labels angle_num ;;
  total_renamed_count <-
    for_fold (Py.enumerate batches) 0%nat
      (process_batch copy2 region_code date_code single_folder_path angle_num
         renamed_dir_path group_labels) ;;
  print (MsgSingleDone total_renamed_count).

(** [rename_images_gui.py], lines 94-161; the lines are those of the command
    line program, sent to [logger.log]. *)
Definition gui_group_and_copy (renamed_dir_path : path) (all_files : list string)
  : M unit :=
  let guide_photos_info := find_guide_photos all_files in
  match guide_photos_info with
  | [] => print (ErrNoGuidePhoto single_folder_path)
  | _ :: _ =>
      let batches := build_batches all_files guide_photos_info in
      bad <- inconsistent batches ;;
      if bad : bool then
        print ErrInconsistentBatches ;;
        for_each batches
          (fun b => print (MsgGuideFollowedBy (guide_file b) (length (files_to_rename b))))
      else
        first_batch <- getitem batches 0 ;;
        let num_files_per_batch := length (files_to_rename first_batch) in
        go <- divisible angle_num num_files_per_batch ;;
        if go : bool then gui_copy_phase renamed_dir_path batches num_files_per_batch
        else ret tt
  end.

(** [rename_images_gui.py], lines 79-161. *)
Definition gui_rename_and_copy_single_folder_mode (isdir : bool) (listing : list string)
  : M unit :=
  if negb isdir then print (ErrNotADirectory single_folder_path)
  else
    renamed_dir_path <- create_renamed_directory base_work_dir ;;
    let all_files := Py.sorted (filter is_supported listing) in
    match all_files with
    | [] => print (WarnNoImages single_folder_path)
    | _ :: _ => gui_group_and_copy renamed_dir_path all_files
    end.

End GuiCore.

(** The lines of [App.run_rename_logic]; the comment gives the line of
    [rename_images_gui.py]. *)
Inductive gui_line : Type :=
| GuiErrSourceDir                          (* 310 *)
| GuiErrRegion                             (* 313 *)
| GuiErrDate                               (* 316 *)
| GuiStart (base_work_dir : path) (m : mode) (* 319 *)
| GuiErrAngleNum                           (* 330 *)
| GuiErrImageFolder                        (* 334 *)
| GuiDone                                  (* 340 *)
| GuiUnexpected (e : exn).                 (* 343 *)

(** What [run_rename_logic] does: its own lines, the events of the mode it
    calls (whose lines go to the same log), and the button set back. *)
Inductive gui_event : Type :=
| Logged (l : gui_line)
| Core (e : event)
| ButtonRestored.

(** A mode called from the [try] block, with the line that follows it when it
    returns. *)
Definition called (m : M unit) (after : list gui_event) : list gui_event * result unit :=
  (map Core (trace m) ++ match outcome m with Ok _ => after | Raise _ => [] end,
   outcome m).

Section Gui.

Variable fs : filesystem.

(** [rename_images_gui.py], lines 301-340: the [try] block of
    [run_rename_logic].  [source_dir] is the text of the source entry as a path
    (the empty text is the empty path); [angle_num_entry] is
    [int(self.angle_num_entry.get())], [None] when it raises [ValueError]. *)
Definition run_rename_logic_try (source_dir : path) (region_entry date_entry : string)
    (m : mode) (image_folder_entry : string) (angle_num_entry : option Z)
  : list gui_event * result unit :=
  let base_work_dir := source_dir in
  let region_code := upper region_entry in
  let date_code := date_entry in
  if match base_work_dir with [] => true | _ => false end
     || negb (fs_isdir fs base_work_dir)
  then ([Logged GuiErrSourceDir], Ok tt)
  else if negb (two_letters region_code) then ([Logged GuiErrRegion], Ok tt)
  else if negb (six_digits date_code) then ([Logged GuiErrDate], Ok tt)
  else
    let (t, r) :=
      match m with
      | subfolder =>
          called (rename_and_copy_subfolder_mode (fs_copy2 fs) base_work_dir
                    region_code date_code (fs_walk fs base_work_dir))
                 [Logged GuiDone]
      | single_folder =>
          let image_folder := image_folder_entry in
          match angle_num_entry with
          | None => ([Logged GuiErrAngleNum], Ok tt)
          | Some angle_num =>
              if String.eqb image_folder "" then ([Logged GuiErrImageFolder], Ok tt)
              else
                let single_folder_path := OsPath.join base_work_dir image_folder in
                called (gui_rename_and_copy_single_folder_mode (fs_copy2 fs)
                          base_work_dir region_code date_code single_folder_path
                          angle_num (fs_isdir fs single_folder_path)
                          (fs_listdir fs single_folder_path))
                       [Logged GuiDone]
          end
      end in
    (Logged (GuiStart base_work_dir m) :: t, r).

(** [rename_images_gui.py], lines 299-346: [except Exception] logs what the
    [try] block raises, [finally] sets the button back. *)
Definition run_rename_logic (source_dir : path) (region_entry date_entry : string)
    (m : mode) (image_folder_entry : string) (angle_num_entry : option Z)
  : list gui_event :=
  let (t, r) := run_rename_logic_try source_dir region_entry date_entry m
                  image_folder_entry angle_num_entry in
  t ++ match r with
       | Raise e => [Logged (GuiUnexpected e)]
       | Ok _ => []
       end
    ++ [ButtonRestored].

End Gui.





(** The entries are ASCII text: there [str.upper] and the classes [\d] and
    [[A-Za-z]] are the ones above. *)
Definition is_ascii (s : string) : bool :=
  forallb (fun c => (nat_of_ascii c <? 128)%nat) (list_ascii_of_string s).

(** The three entries that [browse_source_directory] writes. *)
Record entries : Type := {
  en_source_dir : path;
  en_region : string;
  en_date : string
}.

(** [re.match(r'([A-Za-z]{2})(\d{6})', folder_name)] and [match.groups()],
    with the ASCII digits for [\d]. *)
Definition folder_code (folder_name : string) : option (string * string) :=
  match folder_name with
  | String a (String b (String c (String d (String e (String f (String g (String h _))))))) =>
      if is_letter a && is_letter b
         && Py.is_digit c && Py.is_digit d && Py.is_digit e
         && Py.is_digit f && Py.is_digit g && Py.is_digit h
      then Some (String a (String b ""),
                 String c (String d (String e (String f (String g (String h ""))))))
      else None
  | _ => None
  end.

(** [rename_images_gui.py], lines 259-277: [dir_path] is the answer of the
    folder dialog, the empty path when it is cancelled. *)
Definition browse_source_directory (dir_path : path) (en : entries) : entries :=
  match dir_path with
  | [] => en
  | _ :: _ =>
      let folder_name := OsPath.basename dir_path in
      match folder_code folder_name with
      | Some (region, date) =>
          {| en_source_dir := dir_path; en_region := upper region; en_date := date |}
      | None =>
          {| en_source_dir := dir_path; en_region := en_region en; en_date := en_date en |}
      end
  end.

(** ** Concrete inputs of the callers *)

Definition guides_only : list string := ["p-01.jpg"; "q-02.jpg"].

Definition copied_but_x2 : path -> path -> bool :=
  fun src _ => negb (path_eqb src ["w"; "phone_image"; "x2.Tiff"]).

Definition sample_fs : filesystem := {|
  fs_isdir := fun p =>
    existsb (path_eqb p)
      [["w"]; ["w"; "phone_image"]; ["."; "HR250701"]; ["."; "HR250701"; "phone_image"]];
  fs_walk := fun _ => nested_samples;
  fs_listdir := fun p => if String.eqb (OsPath.basename p) "phone_image" then one_batch else [];
  fs_copy2 := always_copied
|}.



Definition two_batches_one_id : list string :=
  ["a-01.jpg"; "a1.jpg"; "b-01.jpg"; "b1.jpg"].

(** What the list of guide photos is known to satisfy. *)
Definition well_placed (all_files : list string) (g : guide_info) : Prop :=
  nth_error all_files (index g) = Some (filename g).

(** * Properties *)

(** ** The built-ins on examples *)

Example lower_mixed : Py.lower "IMG-0a.JpG" = "img-0a.jpg".
Proof. reflexivity. Qed.

Example endswith_jpg : Py.endswith "x.jpg" ".jpg" = true /\ Py.endswith "jpg" ".jpg" = false.
Proof. split; reflexivity. Qed.

Example rfind_dot : Py.rfind "a.b.c" "." = 3%Z /\ Py.rfind "abc" "." = (-1)%Z.
Proof. split; reflexivity. Qed.

Example format_02d_values :
  Py.format_02d 1 = "01" /\ Py.format_02d 12 = "12" /\ Py.format_02d 123 = "123"
  /\ Py.format_02d 0 = "00" /\ Py.format_02d (-5) = "-5".
Proof. repeat split; reflexivity. Qed.

Example utf8_values :
  Py.utf8 65 = "A" /\ Py.utf8 91 = "[" /\ Py.utf8 233 = String "195" (String "169" "").
Proof. repeat split; reflexivity. Qed.

Example splitext_values :
  OsPath.splitext "x.tar.GZ" = ("x.tar", ".GZ")
  /\ OsPath.splitext ".jpg" = (".jpg", "")
  /\ OsPath.splitext "noext" = ("noext", "").
Proof. repeat split; reflexivity. Qed.

Example guide_pattern_values :
  GuidePattern.search "IMG-0a.JPEG" = Some "0a"
  /\ GuidePattern.search "IMG-0.jpg" = None
  /\ GuidePattern.search "IMG-01.jpg.txt" = None
  /\ GuidePattern.search "IMG_01.jpg" = None.
Proof. repeat split; reflexivity. Qed.

Example label_values :
  label 0 = "A" /\ label 1 = "B" /\ label 25 = "Z" /\ label 26 = "[".
Proof. repeat split; reflexivity. Qed.

Example sorted_names : Py.sorted ["b.jpg"; "a.png"; "B.jpg"; "a.jpg"] = ["B.jpg"; "a.jpg"; "a.png"; "b.jpg"].
Proof. reflexivity. Qed.

(** ** Computations *)

Section Computations.

Context {A B : Type}.

Lemma bind_ok (m : M A) (k : A -> M B) (t : list event) (a : A) :
  m = (t, Ok a) -> bind m k = (t ++ trace (k a), outcome (k a)).
Proof. intros ->. unfold bind, trace, outcome. now destruct (k a). Qed.

Lemma bind_ret (a : A) (k : A -> M B) : bind (ret a) k = k a.
Proof. unfold bind, ret. now destruct (k a). Qed.

Lemma trace_bind (m : M A) (k : A -> M B) :
  trace (bind m k)
  = trace m ++ match outcome m with Ok a => trace (k a) | Raise _ => [] end.
Proof.
  destruct m as [t [a | e]]; unfold bind, trace, outcome; simpl.
  - now destruct (k a).
  - now rewrite app_nil_r.
Qed.

Lemma Forall_trace_bind (P : event -> Prop) (m : M A) (k : A -> M B) :
  Forall P (trace m) ->
  (forall a, outcome m = Ok a -> Forall P (trace (k a))) ->
  Forall P (trace (bind m k)).
Proof.
  intros Hm Hk. rewrite trace_bind. apply Forall_app. split; [exact Hm|].
  destruct (outcome m) as [a | e]; [now apply Hk | constructor].
Qed.

End Computations.

Lemma bind_print {B : Type} (m : msg) (k : unit -> M B) :
  bind (print m) k = (Print m :: trace (k tt), outcome (k tt)).
Proof. unfold print, emit, bind, trace, outcome. now destruct (k tt). Qed.

Lemma surjective_run {A : Type} (m : M A) : m = (trace m, outcome m).
Proof. now destruct m. Qed.

Lemma Forall_trace_for_each {A : Type} (P : event -> Prop) (body : A -> M unit) (l : list A) :
  (forall x, In x l -> Forall P (trace (body x))) ->
  Forall P (trace (for_each l body)).
Proof.
  induction l as [| x l IH]; intros H; simpl.
  - constructor.
  - apply Forall_trace_bind.
    + apply H. now left.
    + intros _ _. apply IH. intros y Hy. apply H. now right.
Qed.

Lemma Forall_trace_for_fold {A S : Type} (P : event -> Prop) (body : S -> A -> M S)
    (l : list A) :
  (forall s x, In x l -> Forall P (trace (body s x))) ->
  forall s, Forall P (trace (for_fold l s body)).
Proof.
  induction l as [| x l IH]; intros H s; simpl.
  - constructor.
  - apply Forall_trace_bind.
    + apply H. now left.
    + intros s' _. apply IH. intros s'' y Hy. apply H. now right.
Qed.

(** The computations that perform no event. *)

Lemma trace_getitem {A : Type} (l : list A) (i : Z) : trace (getitem l i) = [].
Proof.
  unfold getitem.
  destruct (_ && _); [destruct (nth_error _ _)|]; reflexivity.
Qed.

Lemma trace_modulo (a b : Z) : trace (modulo a b) = [].
Proof. unfold modulo. now destruct (b =? 0)%Z. Qed.

Lemma trace_chr (n : Z) : trace (chr n) = [].
Proof. unfold chr. now destruct (_ && _). Qed.

Lemma trace_comprehension {A B : Type} (f : A -> M B) (l : list A) :
  (forall x, trace (f x) = []) -> trace (comprehension f l) = [].
Proof.
  intros Hf. induction l as [| x l IH]; simpl; [reflexivity|].
  rewrite trace_bind, Hf. simpl.
  destruct (outcome (f x)); [|reflexivity].
  rewrite trace_bind, IH. simpl.
  now destruct (outcome (comprehension f l)).
Qed.

(** ** Lists *)

Lemma getitem_nth {A : Type} (l : list A) (i : nat) (a : A) :
  nth_error l i = Some a -> getitem l (Z.of_nat i) = ret a.
Proof.
  intros H. unfold getitem.
  assert (Hlt : (i < length l)%nat) by (apply nth_error_Some; congruence).
  replace (Z.of_nat i <? 0)%Z with false by (symmetry; apply Z.ltb_ge; lia).
  replace ((0 <=? Z.of_nat i)%Z && (Z.of_nat i <? Z.of_nat (length l))%Z) with true
    by (symmetry; apply andb_true_iff; split; [apply Z.leb_le | apply Z.ltb_lt]; lia).
  now rewrite Nat2Z.id, H.
Qed.

Lemma getitem_last {A : Type} (l : list A) (a : A) :
  getitem (l ++ [a]) (-1) = ret a.
Proof.
  unfold getitem. rewrite length_app. simpl length.
  replace (-1 <? 0)%Z with true by reflexivity.
  replace (-1 + Z.of_nat (length l + 1))%Z with (Z.of_nat (length l)) by lia.
  replace ((0 <=? Z.of_nat (length l))%Z && (Z.of_nat (length l) <? Z.of_nat (length l + 1))%Z)
    with true
    by (symmetry; apply andb_true_iff; split; [apply Z.leb_le | apply Z.ltb_lt]; lia).
  rewrite Nat2Z.id, nth_error_app2 by lia.
  now rewrite Nat.sub_diag.
Qed.

Lemma enumerate_from_nth {A : Type} (l : list A) (k i : nat) (x : A) :
  In (i, x) (combine (seq k (length l)) l) <-> (k <= i)%nat /\ nth_error l (i - k) = Some x.
Proof.
  revert k. induction l as [| y l IH]; intros k; simpl.
  - split; [tauto|]. intros [_ H]. now destruct (i - k)%nat.
  - rewrite IH. split.
    + intros [H | [Hle H]].
      * inversion H; subst. split; [lia|]. now rewrite Nat.sub_diag.
      * split; [lia|]. replace (i - k)%nat with (S (i - S k)) by lia. exact H.
    + intros [Hle H]. destruct (Nat.eq_dec i k) as [-> | Hne].
      * left. rewrite Nat.sub_diag in H. simpl in H. congruence.
      * right. split; [lia|]. replace (i - k)%nat with (S (i - S k)) in H by lia. exact H.
Qed.

Lemma In_enumerate {A : Type} (l : list A) (i : nat) (x : A) :
  In (i, x) (Py.enumerate l) <-> nth_error l i = Some x.
Proof.
  unfold Py.enumerate. rewrite enumerate_from_nth, Nat.sub_0_r.
  split; [tauto | intros H; split; [lia | exact H]].
Qed.

Lemma In_enumerate_In {A : Type} (l : list A) (i : nat) (x : A) :
  In (i, x) (Py.enumerate l) -> In x l.
Proof. rewrite In_enumerate. apply nth_error_In. Qed.

(** ** Guide photos and batches *)

Lemma guide_photos_from_In (k : nat) (l : list string) (g : guide_info) :
  In g (flat_map guide_of (combine (seq k (length l)) l)) <->
  (k <= index g)%nat /\ nth_error l (index g - k) = Some (filename g)
  /\ GuidePattern.search (filename g) = Some (gi_batch_id g).
Proof.
  rewrite in_flat_map. split.
  - intros [[i f] [Hin Hg]]. apply enumerate_from_nth in Hin. unfold guide_of in Hg.
    destruct (GuidePattern.search f) eqn:Hs; [|contradiction].
    destruct Hg as [<- | []]. simpl. now rewrite Hs.
  - intros (Hle & Hnth & Hs). exists (index g, filename g). split.
    + now apply enumerate_from_nth.
    + unfold guide_of. rewrite Hs. left. now destruct g.
Qed.

Lemma find_guide_photos_In (l : list string) (g : guide_info) :
  In g (find_guide_photos l) <->
  nth_error l (index g) = Some (filename g)
  /\ GuidePattern.search (filename g) = Some (gi_batch_id g).
Proof.
  unfold find_guide_photos, Py.enumerate.
  rewrite guide_photos_from_In, Nat.sub_0_r.
  split; [tauto | intros H; split; [lia | exact H]].
Qed.

Lemma guide_photos_from_sorted (k : nat) (l : list string) :
  StronglySorted (fun g g' => (index g < index g')%nat)
                 (flat_map guide_of (combine (seq k (length l)) l)).
Proof.
  revert k. induction l as [| f l IH]; intros k; simpl.
  - constructor.
  - destruct (GuidePattern.search f); simpl; [|apply IH].
    constructor; [apply IH|].
    apply Forall_forall. intros g Hg. apply guide_photos_from_In in Hg. simpl. lia.
Qed.

Lemma find_guide_photos_sorted (l : list string) :
  StronglySorted (fun g g' => (index g < index g')%nat) (find_guide_photos l).
Proof. apply guide_photos_from_sorted. Qed.

(** The first guide photo has the lowest position. *)
Lemma first_guide_lowest (l : list string) (g0 g : guide_info) :
  nth_error (find_guide_photos l) 0 = Some g0 ->
  In g (find_guide_photos l) -> (index g0 <= index g)%nat.
Proof.
  intros H0 Hg. pose proof (find_guide_photos_sorted l) as Hs.
  destruct (find_guide_photos l) as [| g1 gs]; [discriminate|].
  simpl in H0. injection H0 as ->.
  destruct Hg as [-> | Hg]; [lia|].
  apply StronglySorted_inv in Hs. destruct Hs as [_ Hall].
  rewrite Forall_forall in Hall. specialize (Hall g Hg). lia.
Qed.

Lemma enumerate_from_app {A : Type} (l : list A) (x : A) (k : nat) :
  combine (seq k (length (l ++ [x]))) (l ++ [x])
  = combine (seq k (length l)) l ++ [((k + length l)%nat, x)].
Proof.
  revert k. induction l as [| y l IH]; intros k; simpl.
  - now rewrite Nat.add_0_r.
  - rewrite IH. now rewrite Nat.add_succ_r.
Qed.

Lemma enumerate_app {A : Type} (l : list A) (x : A) :
  Py.enumerate (l ++ [x]) = Py.enumerate l ++ [(length l, x)].
Proof. unfold Py.enumerate. now rewrite enumerate_from_app. Qed.

Lemma length_enumerate {A : Type} (l : list A) : length (Py.enumerate l) = length l.
Proof. unfold Py.enumerate. rewrite length_combine, length_seq. lia. Qed.

Lemma In_build_batches (all_files : list string) (gs : list guide_info) (b : batch) :
  In b (build_batches all_files gs) <->
  exists k g, nth_error gs k = Some g /\ b = batch_at all_files gs k g.
Proof.
  unfold build_batches. rewrite in_map_iff. split.
  - intros [[k g] [<- Hin]]. exists k, g. split; [now apply In_enumerate | reflexivity].
  - intros (k & g & Hnth & ->). exists (k, g). split; [reflexivity | now apply In_enumerate].
Qed.

Lemma build_batches_last (all_files : list string) (gs : list guide_info) (g : guide_info) :
  exists bs,
    build_batches all_files (gs ++ [g])
    = bs ++ [ {| guide_file := filename g;
                 batch_id := gi_batch_id g;
                 files_to_rename :=
                   skipn 1 (Py.slice all_files (index g) (length all_files)) |} ].
Proof.
  unfold build_batches. rewrite enumerate_app, map_app. eexists. f_equal.
  cbn [map]. unfold batch_at.
  replace (nth_error (gs ++ [g]) (length gs + 1)) with (@None guide_info); [reflexivity|].
  symmetry. apply nth_error_None. rewrite length_app. simpl. lia.
Qed.

Lemma length_slice_to_end {A : Type} (l : list A) (i : nat) :
  (i < length l)%nat ->
  length (skipn 1 (Py.slice l i (length l))) = (length l - i - 1)%nat.
Proof.
  intros H. unfold Py.slice. rewrite length_skipn, length_firstn, length_skipn. lia.
Qed.

Lemma In_firstn_In {A : Type} (n : nat) (l : list A) (x : A) :
  In x (firstn n l) -> In x l.
Proof. intros H. rewrite <- (firstn_skipn n l). apply in_or_app. now left. Qed.

Lemma In_skipn_In {A : Type} (n : nat) (l : list A) (x : A) :
  In x (skipn n l) -> In x l.
Proof. intros H. rewrite <- (firstn_skipn n l). apply in_or_app. now right. Qed.

Lemma In_slice {A : Type} (l : list A) (a b : nat) (x : A) :
  In x (Py.slice l a b) -> exists p, (a <= p)%nat /\ nth_error l p = Some x.
Proof.
  unfold Py.slice. intros H. apply In_firstn_In in H.
  apply In_nth_error in H. destruct H as [n Hn].
  exists (a + n)%nat. split; [lia|]. now rewrite <- nth_error_skipn.
Qed.

(** Every file of a batch stands at or after the batch's guide photo. *)
Lemma batch_files_position (all_files : list string) (b : batch) (f : string) :
  In b (build_batches all_files (find_guide_photos all_files)) ->
  f = guide_file b \/ In f (files_to_rename b) ->
  exists g p, In g (find_guide_photos all_files)
              /\ (index g <= p)%nat /\ nth_error all_files p = Some f.
Proof.
  intros Hb Hf. apply In_build_batches in Hb. destruct Hb as (k & g & Hk & ->).
  assert (Hg : In g (find_guide_photos all_files)) by (eapply nth_error_In; eauto).
  exists g. unfold batch_at in Hf. cbn [guide_file files_to_rename] in Hf.
  destruct Hf as [-> | Hf].
  - exists (index g). split; [exact Hg|]. split; [lia|]. now apply find_guide_photos_In.
  - apply In_skipn_In in Hf. apply In_slice in Hf. destruct Hf as (p & Hp & Hnth).
    exists p. auto.
Qed.

(** ** Mode 2: the shape of a run *)

Lemma for_each_print {A : Type} (f : A -> msg) (l : list A) :
  for_each l (fun x => print (f x)) = (map (fun x => Print (f x)) l, Ok tt).
Proof.
  induction l as [| x l IH]; simpl; [reflexivity|].
  now rewrite IH.
Qed.

Section SingleFolderRun.

Variables (copy2 : path -> path -> bool) (base_work_dir : path)
          (region_code date_code : string) (single_folder_path : path)
          (angle_num : Z).

Let renamed_dir_path : path := OsPath.join base_work_dir RENAMED_FOLDER_NAME.

Let group_and_copy' :=
  group_and_copy copy2 region_code date_code single_folder_path angle_num.

Lemma run_group_and_copy (listing : list string) :
  Py.sorted (filter is_supported listing) <> [] ->
  rename_and_copy_single_folder_mode copy2 base_work_dir region_code date_code
    single_folder_path angle_num true listing
  = ([Makedirs renamed_dir_path; Print (MsgRenamedDir renamed_dir_path)]
       ++ trace (group_and_copy' renamed_dir_path (Py.sorted (filter is_supported listing))),
     outcome (group_and_copy' renamed_dir_path (Py.sorted (filter is_supported listing)))).
Proof.
  intros Hne. unfold rename_and_copy_single_folder_mode. cbn [negb].
  unfold create_renamed_directory. fold renamed_dir_path.
  destruct (Py.sorted (filter is_supported listing)) as [| f l] eqn:E; [congruence|].
  unfold emit, print, emit, ret, bind. cbn [app]. fold group_and_copy'.
  now destruct (group_and_copy' renamed_dir_path (f :: l)).
Qed.

Lemma guides_nonempty_files_nonempty (all_files : list string) :
  find_guide_photos all_files <> [] -> all_files <> [].
Proof. intros H ->. now apply H. Qed.

Lemma batches_nonempty_guides_nonempty (all_files : list string) :
  build_batches all_files (find_guide_photos all_files) <> [] ->
  find_guide_photos all_files <> [].
Proof. intros H E. apply H. now rewrite E. Qed.

Lemma inconsistent_eq (b0 : batch) (bs : list batch) :
  inconsistent (b0 :: bs)
  = ret ((1 <? length (b0 :: bs))%nat
         && negb (forallb (fun b => (length (files_to_rename b)
                                     =? length (files_to_rename b0))%nat)
                          (b0 :: bs))).
Proof.
  unfold inconsistent. destruct (1 <? length (b0 :: bs))%nat; [|reflexivity].
  change 0%Z with (Z.of_nat 0). rewrite (getitem_nth (b0 :: bs) 0 b0) by reflexivity.
  now rewrite bind_ret.
Qed.

Lemma group_and_copy_steps (all_files : list string) (b0 : batch) (bs : list batch) :
  build_batches all_files (find_guide_photos all_files) = b0 :: bs ->
  group_and_copy' renamed_dir_path all_files
  = if (1 <? length (b0 :: bs))%nat
       && negb (forallb (fun b => (length (files_to_rename b)
                                   =? length (files_to_rename b0))%nat)
                        (b0 :: bs))
    then (Print ErrInconsistentBatches
            :: map (fun b => Print (MsgGuideFollowedBy (guide_file b)
                                      (length (files_to_rename b))))
                   (b0 :: bs),
          Ok tt)
    else
      go <- divisible angle_num (length (files_to_rename b0)) ;;
      if go : bool then
        copy_phase copy2 region_code date_code single_folder_path angle_num
          renamed_dir_path all_files (find_guide_photos all_files) (b0 :: bs)
          (length (files_to_rename b0))
      else ret tt.
Proof.
  intros Hb. unfold group_and_copy', group_and_copy.
  destruct (find_guide_photos all_files) as [| g gs] eqn:Eg; [discriminate|].
  rewrite Hb, inconsistent_eq, bind_ret.
  destruct (_ && _).
  - rewrite for_each_print. reflexivity.
  - change 0%Z with (Z.of_nat 0). rewrite (getitem_nth (b0 :: bs) 0 b0) by reflexivity.
    now rewrite bind_ret.
Qed.

End SingleFolderRun.

(** ** C4, C9: the checks before the copies *)

Lemma unequal_counts_detected (b0 : batch) (bs : list batch) (b1 b2 : batch) :
  In b1 (b0 :: bs) -> In b2 (b0 :: bs) ->
  length (files_to_rename b1) <> length (files_to_rename b2) ->
  (1 <? length (b0 :: bs))%nat
  && negb (forallb (fun b => (length (files_to_rename b)
                              =? length (files_to_rename b0))%nat) (b0 :: bs)) = true.
Proof.
  intros H1 H2 Hne. apply andb_true_iff. split.
  - apply Nat.ltb_lt. destruct bs as [| b bs]; [|simpl; lia].
    destruct H1 as [<- | []], H2 as [<- | []]. congruence.
  - apply negb_true_iff. apply not_true_is_false. intros Hall.
    rewrite forallb_forall in Hall.
    apply Hall in H1, H2. apply Nat.eqb_eq in H1, H2. congruence.
Qed.

Lemma copy_calls_app (t1 t2 : list event) :
  copy_calls (t1 ++ t2) = copy_calls t1 ++ copy_calls t2.
Proof. apply flat_map_app. Qed.

Lemma copy_calls_prints {A : Type} (f : A -> msg) (pre : list event) (l : list A) :
  copy_calls pre = [] ->
  copy_calls (pre ++ map (fun x => Print (f x)) l) = [].
Proof.
  intros Hpre. rewrite copy_calls_app, Hpre. simpl.
  induction l as [| x l IH]; [reflexivity | exact IH].
Qed.

(** C4. When two batches differ in their number of files to rename, the run
    creates the output directory, prints the error line and one line per
    batch with the batch's guide photo and its number of files to rename, and
    returns: [shutil.copy2] is never called. *)
Theorem unequal_batches_abort_before_any_copy
    (copy2 : path -> path -> bool) (base_work_dir : path)
    (region_code date_code : string) (single_folder_path : path) (angle_num : Z)
    (listing : list string) (b1 b2 : batch) :
  let all_files := Py.sorted (filter is_supported listing) in
  let batches := build_batches all_files (find_guide_photos all_files) in
  let renamed_dir_path := OsPath.join base_work_dir RENAMED_FOLDER_NAME in
  let run := rename_and_copy_single_folder_mode copy2 base_work_dir region_code date_code
               single_folder_path angle_num true listing in
  In b1 batches -> In b2 batches ->
  length (files_to_rename b1) <> length (files_to_rename b2) ->
  (1 < length batches)%nat
  /\ run = ([Makedirs renamed_dir_path;
             Print (MsgRenamedDir renamed_dir_path);
             Print ErrInconsistentBatches]
              ++ map (fun b => Print (MsgGuideFollowedBy (guide_file b)
                                        (length (files_to_rename b))))
                     batches,
            Ok tt)
  /\ copy_calls (trace run) = [].
Proof.
  intros all_files batches renamed_dir_path run H1 H2 Hne.
  destruct batches as [| b0 bs] eqn:Eb; [contradiction|].
  pose proof (unequal_counts_detected b0 bs b1 b2 H1 H2 Hne) as Hbad.
  assert (Hrun : run = ([Makedirs renamed_dir_path;
             Print (MsgRenamedDir renamed_dir_path);
             Print ErrInconsistentBatches]
              ++ map (fun b => Print (MsgGuideFollowedBy (guide_file b)
                                        (length (files_to_rename b))))
                     (b0 :: bs),
            Ok tt)).
  { unfold run, renamed_dir_path. rewrite run_group_and_copy.
    - fold all_files.
      rewrite (group_and_copy_steps _ _ _ _ _ _ all_files b0 bs Eb), Hbad.
      reflexivity.
    - fold all_files. apply guides_nonempty_files_nonempty.
      apply batches_nonempty_guides_nonempty. fold batches. now rewrite Eb. }
  split; [|split].
  - apply andb_true_iff in Hbad. destruct Hbad as [Hlen _]. now apply Nat.ltb_lt in Hlen.
  - exact Hrun.
  - rewrite Hrun. unfold trace. cbn [fst app]. apply (copy_calls_prints _ [_; _; _]). reflexivity.
Qed.

(** C9. With [angle_num = 0] and batches that all hold the same positive
    number of files to rename, the run ends in [ZeroDivisionError], raised by
    the divisibility check: the output directory has been created, and no
    diagnostic is printed and nothing is copied. *)
Theorem zero_angle_num_raises
    (copy2 : path -> path -> bool) (base_work_dir : path)
    (region_code date_code : string) (single_folder_path : path)
    (listing : list string) (b0 : batch) :
  let all_files := Py.sorted (filter is_supported listing) in
  let batches := build_batches all_files (find_guide_photos all_files) in
  let renamed_dir_path := OsPath.join base_work_dir RENAMED_FOLDER_NAME in
  nth_error batches 0 = Some b0 ->
  (forall b, In b batches -> length (files_to_rename b) = length (files_to_rename b0)) ->
  (0 < length (files_to_rename b0))%nat ->
  rename_and_copy_single_folder_mode copy2 base_work_dir region_code date_code
    single_folder_path 0 true listing
  = ([Makedirs renamed_dir_path; Print (MsgRenamedDir renamed_dir_path)],
     Raise ZeroDivisionError).
Proof.
  intros all_files batches renamed_dir_path H0 Hall Hpos.
  destruct batches as [| b bs] eqn:Eb; [discriminate|].
  simpl in H0. injection H0 as ->.
  unfold renamed_dir_path. rewrite run_group_and_copy.
  - fold all_files.
    rewrite (group_and_copy_steps _ _ _ _ _ _ all_files b0 bs Eb).
    replace (forallb _ (b0 :: bs)) with true.
    + rewrite andb_false_r. unfold divisible.
      destruct (length (files_to_rename b0)) as [| n] eqn:En; [lia|].
      reflexivity.
    + symmetry. apply forallb_forall. intros b Hb. apply Nat.eqb_eq. now apply Hall.
  - fold all_files. apply guides_nonempty_files_nonempty.
    apply batches_nonempty_guides_nonempty. fold batches. now rewrite Eb.
Qed.

(** ** C5: the check for files after the last batch *)

Lemma guide_index_in_range (all_files : list string) (g : guide_info) :
  In g (find_guide_photos all_files) -> (index g < length all_files)%nat.
Proof.
  intros H. apply find_guide_photos_In in H. destruct H as [H _].
  apply nth_error_Some. congruence.
Qed.

(** The position the check computes is the last position of the list. *)
Lemma last_processed_index_is_last (all_files : list string) :
  find_guide_photos all_files = []
  \/ exists last_guide last_batch,
       getitem (find_guide_photos all_files) (-1) = ret last_guide
       /\ getitem (build_batches all_files (find_guide_photos all_files)) (-1) = ret last_batch
       /\ (index last_guide + length (files_to_rename last_batch) + 1 = length all_files)%nat.
Proof.
  destruct (find_guide_photos all_files) as [| g0 gs0] eqn:E; [now left | right].
  destruct (exists_last (l := g0 :: gs0)) as (gs & g & Hlast); [discriminate|].
  assert (Hin : In g (find_guide_photos all_files)).
  { rewrite E, Hlast. apply in_or_app. right. now left. }
  apply guide_index_in_range in Hin.
  rewrite Hlast. destruct (build_batches_last all_files gs g) as [bs Hbs].
  rewrite Hbs. eexists. eexists. split; [apply getitem_last|]. split; [apply getitem_last|].
  cbn [files_to_rename]. rewrite length_slice_to_end by exact Hin. lia.
Qed.

Lemma check_remaining_returns (all_files : list string) :
  check_remaining all_files (find_guide_photos all_files)
    (build_batches all_files (find_guide_photos all_files)) = ret tt.
Proof.
  destruct (last_processed_index_is_last all_files) as [E | (g & b & Hg & Hb & Hidx)].
  - now rewrite E.
  - unfold check_remaining.
    destruct (find_guide_photos all_files) as [| g0 gs0]; [reflexivity|].
    rewrite Hg, bind_ret, Hb, bind_ret.
    replace (Z.of_nat (index g + length (files_to_rename b))
             <? Z.of_nat (length all_files) - 1)%Z with false; [reflexivity|].
    symmetry. apply Z.ltb_ge. lia.
Qed.

(** ** C7: the angle labels *)

Lemma comprehension_ok {A B : Type} (f : A -> M B) (g : A -> B) (l : list A) :
  (forall x, In x l -> f x = ret (g x)) -> comprehension f l = ret (map g l).
Proof.
  induction l as [| x l IH]; intros H; simpl; [reflexivity|].
  rewrite (H x) by now left. rewrite bind_ret, IH, bind_ret; [reflexivity|].
  intros y Hy. apply H. now right.
Qed.

Lemma comprehension_raise {A B : Type} (f : A -> M B) (g : A -> B) (e : exn)
    (l1 l2 : list A) (x : A) :
  (forall y, In y l1 -> f y = ret (g y)) -> f x = raise e ->
  comprehension f (l1 ++ x :: l2) = raise e.
Proof.
  induction l1 as [| y l1 IH]; intros H Hx; simpl.
  - now rewrite Hx.
  - rewrite (H y) by now left. rewrite bind_ret, IH; [reflexivity | | exact Hx].
    intros z Hz. apply H. now right.
Qed.

Lemma chr_label (i : Z) :
  (0 <= i < max_angle_num)%Z -> chr (Py.ord_A + i) = ret (label i).
Proof.
  intros H. unfold chr, Py.ord_A, Py.max_code_point, max_angle_num in *.
  replace ((0 <=? 65 + i)%Z && (65 + i <=? 1114111)%Z) with true; [reflexivity|].
  symmetry. apply andb_true_iff. split; apply Z.leb_le; lia.
Qed.

Lemma chr_out_of_range : chr (Py.ord_A + max_angle_num) = raise ValueError.
Proof. reflexivity. Qed.

Lemma In_range (n i : Z) : In i (Py.range n) <-> (0 <= i < n)%Z.
Proof.
  unfold Py.range. rewrite in_map_iff. split.
  - intros (k & <- & Hk). apply in_seq in Hk. lia.
  - intros H. exists (Z.to_nat i). split; [lia|]. apply in_seq. lia.
Qed.

Lemma make_group_labels_ok (angle_num : Z) :
  (angle_num <= max_angle_num)%Z ->
  make_group_labels angle_num = ret (map label (Py.range angle_num)).
Proof.
  intros H. unfold make_group_labels. apply comprehension_ok.
  intros i Hi. apply In_range in Hi. apply chr_label. lia.
Qed.

Lemma make_group_labels_raises (angle_num : Z) :
  (max_angle_num < angle_num)%Z ->
  make_group_labels angle_num = raise ValueError.
Proof.
  intros H. unfold make_group_labels, Py.range.
  assert (Hsplit : Z.to_nat angle_num
                   = (Z.to_nat max_angle_num + S (Z.to_nat (angle_num - max_angle_num - 1)))%nat).
  { unfold max_angle_num in *. lia. }
  rewrite Hsplit, seq_app, map_app. cbn [seq map]. rewrite Nat.add_0_l.
  apply comprehension_raise with (g := label).
  - intros i Hi. apply in_map_iff in Hi. destruct Hi as (k & <- & Hk).
    apply in_seq in Hk. apply chr_label. unfold max_angle_num in *. lia.
  - rewrite Z2Nat.id by (unfold max_angle_num; lia). exact chr_out_of_range.
Qed.

(** C7 (as the code has it). The list of angle labels is made for every
    [angle_num] up to 1114047: label [i] is the character of code point
    [ord('A') + i], which for [i >= 26] is a character after 'Z'.  Only from
    1114048 on does [chr] raise, with [ValueError]. *)
Theorem group_labels_made_up_to_max_code_point (angle_num : Z) :
  make_group_labels angle_num
  = if (angle_num <=? max_angle_num)%Z
    then ret (map label (Py.range angle_num))
    else raise ValueError.
Proof.
  destruct (Z.leb_spec angle_num max_angle_num) as [Hle | Hgt].
  - now apply make_group_labels_ok.
  - now apply make_group_labels_raises.
Qed.

Lemma nth_error_range (n i : Z) :
  (0 <= i < n)%Z -> nth_error (Py.range n) (Z.to_nat i) = Some i.
Proof.
  intros H. unfold Py.range. rewrite nth_error_map.
  rewrite nth_error_seq.
  replace (Z.to_nat i <? Z.to_nat n)%nat with true by (symmetry; apply Nat.ltb_lt; lia).
  simpl. f_equal. lia.
Qed.

Lemma getitem_label (n i : Z) :
  (0 <= i < n)%Z -> getitem (map label (Py.range n)) i = ret (label i).
Proof.
  intros H. rewrite <- (Z2Nat.id i) at 1 by lia. apply getitem_nth.
  rewrite nth_error_map, nth_error_range by lia. reflexivity.
Qed.

Lemma getitem_nil {A : Type} (i : Z) : getitem (@nil A) i = raise IndexError.
Proof.
  unfold getitem. simpl. destruct (i <? 0)%Z eqn:E.
  - replace ((0 <=? i + 0)%Z && (i + 0 <? 0)%Z) with false; [reflexivity|].
    symmetry. apply andb_false_iff. left. apply Z.leb_gt. apply Z.ltb_lt in E. lia.
  - replace ((0 <=? i)%Z && (i <? 0)%Z) with false; [reflexivity|].
    symmetry. apply andb_false_iff. now right.
Qed.

(** ** C3: the copies of a run that passes the checks *)

Lemma for_fold_events {A S : Type} (ev : A -> list event) (body : S -> A -> M S)
    (l : list A) :
  (forall s x, In x l -> exists s', body s x = (ev x, Ok s')) ->
  forall s, exists s', for_fold l s body = (flat_map ev l, Ok s').
Proof.
  induction l as [| x l IH]; intros H s; simpl.
  - now exists s.
  - destruct (H s x) as [s1 H1]; [now left|].
    destruct (IH (fun s y Hy => H s y (or_intror Hy)) s1) as [s2 H2].
    exists s2. rewrite (bind_ok _ _ _ _ H1), H2. reflexivity.
Qed.

Section CopyPhase.

Variables (copy2 : path -> path -> bool) (region_code date_code : string)
          (single_folder_path : path) (angle_num : Z) (renamed_dir_path : path).

Lemma try_copy_eq (src dst : path) (done failed : msg) :
  try_copy copy2 src dst done failed
  = ([Copy2 src dst (copy2 src dst); Print (if copy2 src dst then done else failed)],
     Ok (copy2 src dst)).
Proof. unfold try_copy. now destruct (copy2 src dst). Qed.

Hypothesis angle_num_positive : (0 < angle_num)%Z.

Lemma rename_one_eq (bid : string) (total : nat) (jf : nat * string) :
  exists total',
    rename_one copy2 region_code date_code single_folder_path angle_num
      renamed_dir_path (map label (Py.range angle_num)) bid total jf
    = (file_events copy2 region_code date_code single_folder_path angle_num
         renamed_dir_path bid jf, Ok total').
Proof.
  destruct jf as [j f]. unfold rename_one, floordiv, modulo.
  replace (angle_num =? 0)%Z with false by (symmetry; apply Z.eqb_neq; lia).
  rewrite !bind_ret.
  rewrite getitem_label by (apply Z.mod_pos_bound; lia).
  rewrite bind_ret. fold (new_name region_code date_code angle_num bid j f).
  rewrite (bind_ok _ _ _ _ (try_copy_eq _ _ _ _)).
  eexists. reflexivity.
Qed.

Lemma process_batch_eq (total : nat) (ib : nat * batch) :
  exists total',
    process_batch copy2 region_code date_code single_folder_path angle_num
      renamed_dir_path (map label (Py.range angle_num)) total ib
    = (batch_events copy2 region_code date_code single_folder_path angle_num
         renamed_dir_path ib, Ok total').
Proof.
  destruct ib as [i b]. unfold process_batch, print, emit.
  destruct (for_fold_events (file_events copy2 region_code date_code single_folder_path
                                angle_num renamed_dir_path (batch_id b))
              (rename_one copy2 region_code date_code single_folder_path angle_num
                 renamed_dir_path (map label (Py.range angle_num)) (batch_id b))
              (Py.enumerate (files_to_rename b))
              (fun s x _ => rename_one_eq (batch_id b) s x) total) as [total' Ht].
  exists total'. rewrite try_copy_eq, Ht. reflexivity.
Qed.

End CopyPhase.

Section PassingRun.

Variables (copy2 : path -> path -> bool) (base_work_dir : path)
          (region_code date_code : string) (single_folder_path : path)
          (angle_num : Z).

Let renamed_dir_path : path := OsPath.join base_work_dir RENAMED_FOLDER_NAME.

Hypothesis angle_num_in_range : (0 < angle_num <= max_angle_num)%Z.

Lemma copy_phase_eq (all_files : list string) (n : nat) :
  exists total,
    copy_phase copy2 region_code date_code single_folder_path angle_num
      renamed_dir_path all_files (find_guide_photos all_files)
      (build_batches all_files (find_guide_photos all_files)) n
    = ([Print (MsgProcessingSingle single_folder_path);
        Print (MsgDetected
                 (length (build_batches all_files (find_guide_photos all_files)))
                 n angle_num)]
         ++ flat_map (batch_events copy2 region_code date_code single_folder_path
                        angle_num renamed_dir_path)
                     (Py.enumerate (build_batches all_files (find_guide_photos all_files)))
         ++ [Print (MsgSingleDone total)],
       Ok tt).
Proof.
  unfold copy_phase. rewrite !bind_print. cbv beta.
  rewrite make_group_labels_ok by lia.
  destruct (for_fold_events
              (batch_events copy2 region_code date_code single_folder_path angle_num
                 renamed_dir_path)
              (process_batch copy2 region_code date_code single_folder_path angle_num
                 renamed_dir_path (map label (Py.range angle_num)))
              (Py.enumerate (build_batches all_files (find_guide_photos all_files)))
              (fun s x _ => process_batch_eq copy2 region_code date_code
                              single_folder_path angle_num renamed_dir_path
                              (proj1 angle_num_in_range) s x) 0%nat) as [total Ht].
  exists total. rewrite bind_ret, (bind_ok _ _ _ _ Ht), check_remaining_returns, bind_ret.
  reflexivity.
Qed.

Lemma divisible_passes (n : nat) :
  (Z.of_nat n mod angle_num = 0)%Z ->
  divisible angle_num n
  = ((if (n =? 0)%nat then [Print WarnNothingToProcess] else []), Ok true).
Proof.
  intros H. unfold divisible. destruct (n =? 0)%nat; [reflexivity|].
  unfold modulo.
  replace (angle_num =? 0)%Z with false by (symmetry; apply Z.eqb_neq; lia).
  rewrite bind_ret, H. reflexivity.
Qed.

(** The run of a list of files whose batches pass both checks. *)
Lemma passing_run_eq (listing : list string) (b0 : batch) :
  let all_files := Py.sorted (filter is_supported listing) in
  let batches := build_batches all_files (find_guide_photos all_files) in
  nth_error batches 0 = Some b0 ->
  (forall b, In b batches -> length (files_to_rename b) = length (files_to_rename b0)) ->
  (Z.of_nat (length (files_to_rename b0)) mod angle_num = 0)%Z ->
  exists total,
    rename_and_copy_single_folder_mode copy2 base_work_dir region_code date_code
      single_folder_path angle_num true listing
    = ([Makedirs renamed_dir_path; Print (MsgRenamedDir renamed_dir_path)]
         ++ (if (length (files_to_rename b0) =? 0)%nat
             then [Print WarnNothingToProcess] else [])
         ++ [Print (MsgProcessingSingle single_folder_path);
             Print (MsgDetected (length batches) (length (files_to_rename b0)) angle_num)]
         ++ flat_map (batch_events copy2 region_code date_code single_folder_path
                        angle_num renamed_dir_path)
                     (Py.enumerate batches)
         ++ [Print (MsgSingleDone total)],
       Ok tt).
Proof.
  intros all_files batches H0 Hall Hdiv.
  destruct (copy_phase_eq all_files (length (files_to_rename b0))) as [total Hcp].
  exists total.
  destruct batches as [| b bs] eqn:Eb; [discriminate|].
  simpl in H0. injection H0 as ->.
  unfold renamed_dir_path. rewrite run_group_and_copy.
  - fold all_files.
    rewrite (group_and_copy_steps _ _ _ _ _ _ all_files b0 bs Eb).
    replace (forallb _ (b0 :: bs)) with true
      by (symmetry; apply forallb_forall; intros b Hb; apply Nat.eqb_eq; now apply Hall).
    rewrite andb_false_r.
    rewrite (bind_ok _ _ _ _ (divisible_passes _ Hdiv)).
    fold batches in Hcp. rewrite Eb in Hcp. fold renamed_dir_path.
    rewrite Hcp. unfold trace, outcome. cbn [fst snd].
    reflexivity.
  - fold all_files. apply guides_nonempty_files_nonempty.
    apply batches_nonempty_guides_nonempty. fold batches. now rewrite Eb.
Qed.

End PassingRun.

Lemma copy_calls_file_events (copy2 : path -> path -> bool)
    (region_code date_code : string) (single_folder_path : path) (angle_num : Z)
    (renamed_dir_path : path) (bid : string) (l : list (nat * string)) :
  copy_calls (flat_map (file_events copy2 region_code date_code single_folder_path
                          angle_num renamed_dir_path bid) l)
  = map (fun '(j, f) =>
           let src := OsPath.join single_folder_path f in
           let dst := OsPath.join renamed_dir_path
                        (new_name region_code date_code angle_num bid j f) in
           (src, dst, copy2 src dst)) l.
Proof.
  induction l as [| [j f] l IH]; [reflexivity|].
  cbn [flat_map map]. rewrite copy_calls_app, IH. reflexivity.
Qed.

Lemma copy_calls_batch_events (copy2 : path -> path -> bool)
    (region_code date_code : string) (single_folder_path : path) (angle_num : Z)
    (renamed_dir_path : path) (l : list (nat * batch)) :
  copy_calls (flat_map (batch_events copy2 region_code date_code single_folder_path
                          angle_num renamed_dir_path) l)
  = flat_map
      (fun b =>
         let src := OsPath.join single_folder_path (guide_file b) in
         let dst := OsPath.join renamed_dir_path (guide_file b) in
         (src, dst, copy2 src dst)
         :: map (fun '(j, f) =>
                   let src := OsPath.join single_folder_path f in
                   let dst := OsPath.join renamed_dir_path
                                (new_name region_code date_code angle_num (batch_id b) j f) in
                   (src, dst, copy2 src dst))
                (Py.enumerate (files_to_rename b)))
      (map snd l).
Proof.
  induction l as [| [i b] l IH]; [reflexivity|].
  cbn [flat_map map snd]. rewrite copy_calls_app, IH. f_equal.
  unfold batch_events. cbn [copy_calls flat_map app].
  fold (copy_calls (flat_map (file_events copy2 region_code date_code single_folder_path
                                angle_num renamed_dir_path (batch_id b))
                             (Py.enumerate (files_to_rename b)))).
  now rewrite copy_calls_file_events.
Qed.

Lemma map_snd_enumerate {A : Type} (l : list A) : map snd (Py.enumerate l) = l.
Proof.
  unfold Py.enumerate. generalize 0%nat. induction l as [| x l IH]; intros k; simpl.
  - reflexivity.
  - now rewrite IH.
Qed.

Lemma encodable_labels_exist (angle_num : Z) :
  (0 < angle_num <= max_encodable_angle_num)%Z -> (0 < angle_num <= max_angle_num)%Z.
Proof. unfold max_encodable_angle_num, max_angle_num. lia. Qed.

(** C3 (as the code has it). In a run whose batches pass both checks, with
    [angle_num] from 1 to 55231, the calls of [shutil.copy2] are, batch by
    batch, the guide photo under its own name, then the file at position [j]
    of the batch under [REGION-DATE-BATCHID GROUPID-ANGLE ext] with
    [GROUPID = j // angle_num + 1] on two digits at least, [ANGLE] the
    character [j % angle_num] places after 'A', and [ext] the lower-cased
    extension of the file; and the run returns.  The bounds are needed: a
    negative [angle_num] that divides the count passes both checks too, and
    the run then ends at the first file, as an example below shows. *)
Theorem batch_files_copied_under_new_names
    (copy2 : path -> path -> bool) (base_work_dir : path)
    (region_code date_code : string) (single_folder_path : path) (angle_num : Z)
    (listing : list string) (b0 : batch) :
  let all_files := Py.sorted (filter is_supported listing) in
  let batches := build_batches all_files (find_guide_photos all_files) in
  let renamed_dir_path := OsPath.join base_work_dir RENAMED_FOLDER_NAME in
  let run := rename_and_copy_single_folder_mode copy2 base_work_dir region_code date_code
               single_folder_path angle_num true listing in
  let new_filename (b : batch) (j : nat) (f : string) : string :=
    let group_id := (Z.of_nat j / angle_num + 1)%Z in
    let angle := Py.utf8 (Py.ord_A + Z.of_nat j mod angle_num) in
    let ext := Py.lower (snd (OsPath.splitext f)) in
    (region_code ++ "-" ++ date_code ++ "-" ++ batch_id b ++ Py.format_02d group_id
       ++ "-" ++ angle ++ ext)%string in
  (0 < angle_num <= max_encodable_angle_num)%Z ->
  nth_error batches 0 = Some b0 ->
  (forall b, In b batches -> length (files_to_rename b) = length (files_to_rename b0)) ->
  (Z.of_nat (length (files_to_rename b0)) mod angle_num = 0)%Z ->
  outcome run = Ok tt
  /\ copy_calls (trace run)
     = flat_map
         (fun b =>
            let src := OsPath.join single_folder_path (guide_file b) in
            let dst := OsPath.join renamed_dir_path (guide_file b) in
            (src, dst, copy2 src dst)
            :: map (fun '(j, f) =>
                      let src := OsPath.join single_folder_path f in
                      let dst := OsPath.join renamed_dir_path (new_filename b j f) in
                      (src, dst, copy2 src dst))
                   (Py.enumerate (files_to_rename b)))
         batches.
Proof.
  intros all_files batches renamed_dir_path run new_filename Hrange H0 Hall Hdiv.
  apply encodable_labels_exist in Hrange.
  destruct (passing_run_eq copy2 base_work_dir region_code date_code single_folder_path
              angle_num Hrange listing b0 H0 Hall Hdiv) as [total Hrun].
  unfold run. rewrite Hrun. split; [reflexivity|].
  unfold trace. cbn [fst]. rewrite !copy_calls_app.
  rewrite copy_calls_batch_events, map_snd_enumerate.
  fold all_files. fold batches.
  replace (copy_calls (if (length (files_to_rename b0) =? 0)%nat
                       then [Print WarnNothingToProcess] else [])) with (@nil (path * path * bool))
    by now destruct (length (files_to_rename b0) =? 0)%nat.
  cbn [copy_calls flat_map app]. rewrite app_nil_r. reflexivity.
Qed.

(** ** The events of any run of mode 2 *)

Section EventsOfRun.

Variables (copy2 : path -> path -> bool) (base_work_dir : path)
          (region_code date_code : string) (single_folder_path : path)
          (angle_num : Z).

Let renamed_dir_path : path := OsPath.join base_work_dir RENAMED_FOLDER_NAME.

Variable batches : list batch.

Let family : event -> Prop :=
  single_folder_event region_code date_code single_folder_path angle_num
    renamed_dir_path batches.

Lemma family_print (m : msg) : plain_message m = true -> Forall family (trace (print m)).
Proof. intros H. repeat constructor. exact H. Qed.

Lemma family_rename_one (labels : list string) (b : batch) (total : nat)
    (jf : nat * string) :
  In b batches -> In jf (Py.enumerate (files_to_rename b)) ->
  (angle_num <= max_angle_num)%Z ->
  labels = map label (Py.range angle_num) ->
  Forall family
    (trace (rename_one copy2 region_code date_code single_folder_path angle_num
              renamed_dir_path labels (batch_id b) total jf)).
Proof.
  intros Hb Hjf Hmax ->. destruct jf as [j f]. apply In_enumerate in Hjf.
  destruct (Z.ltb_spec 0 angle_num) as [Hpos | Hneg].
  - destruct (rename_one_eq copy2 region_code date_code single_folder_path angle_num
                renamed_dir_path Hpos (batch_id b) total (j, f)) as [total' ->].
    unfold trace, file_events. cbn [fst].
    constructor; [now apply ev_file_copy|].
    constructor; [|constructor].
    destruct (copy2 _ _); [now apply ev_file_copied | now apply ev_file_failed].
  - replace (trace _) with (@nil event); [constructor|].
    unfold rename_one, floordiv, modulo.
    destruct (angle_num =? 0)%Z eqn:E; [reflexivity|].
    apply Z.eqb_neq in E. rewrite !bind_ret.
    replace (Py.range angle_num) with (@nil Z).
    + cbn [map]. now rewrite getitem_nil.
    + unfold Py.range. now replace (Z.to_nat angle_num) with 0%nat by lia.
Qed.

Lemma family_process_batch (labels : list string) (total : nat) (ib : nat * batch) :
  In ib (Py.enumerate batches) ->
  (angle_num <= max_angle_num)%Z ->
  labels = map label (Py.range angle_num) ->
  Forall family
    (trace (process_batch copy2 region_code date_code single_folder_path angle_num
              renamed_dir_path labels total ib)).
Proof.
  intros Hib Hmax Hlabels. destruct ib as [i b]. apply In_enumerate_In in Hib.
  unfold process_batch. apply Forall_trace_bind.
  - constructor; [now apply ev_batch | constructor].
  - intros _ _. apply Forall_trace_bind.
    + rewrite try_copy_eq. unfold trace. cbn [fst].
      constructor; [now apply ev_guide_copy|].
      constructor; [|constructor].
      destruct (copy2 _ _); [now apply ev_guide_copied | now apply ev_guide_failed].
    + intros _ _. apply Forall_trace_for_fold.
      intros s x Hx. now apply family_rename_one.
Qed.

Lemma outcome_make_group_labels (labels : list string) :
  outcome (make_group_labels angle_num) = Ok labels ->
  (angle_num <= max_angle_num)%Z /\ labels = map label (Py.range angle_num).
Proof.
  destruct (Z.leb_spec angle_num max_angle_num) as [H | H].
  - rewrite make_group_labels_ok by exact H.
    unfold outcome, ret. cbn [snd]. intros E. injection E as <-. now split.
  - rewrite make_group_labels_raises by exact H. discriminate.
Qed.

Lemma family_copy_phase (all_files : list string) (n : nat) :
  batches = build_batches all_files (find_guide_photos all_files) ->
  Forall family
    (trace (copy_phase copy2 region_code date_code single_folder_path angle_num
              renamed_dir_path all_files (find_guide_photos all_files) batches n)).
Proof.
  intros Hb. unfold copy_phase.
  apply Forall_trace_bind; [now apply family_print | intros _ _].
  apply Forall_trace_bind; [now apply family_print | intros _ _].
  apply Forall_trace_bind.
  { unfold make_group_labels. rewrite trace_comprehension; [constructor|].
    intros i. apply trace_chr. }
  intros labels Hl. apply outcome_make_group_labels in Hl. destruct Hl as [Hmax Hl].
  apply Forall_trace_bind.
  { apply Forall_trace_for_fold. intros s x Hx. now apply family_process_batch. }
  intros total _.
  apply Forall_trace_bind.
  { rewrite Hb, check_remaining_returns. constructor. }
  intros _ _. now apply family_print.
Qed.

Lemma trace_inconsistent : trace (inconsistent batches) = [].
Proof.
  unfold inconsistent. destruct (1 <? length batches)%nat; [|reflexivity].
  rewrite trace_bind, trace_getitem. now destruct (outcome (getitem batches 0)).
Qed.

Lemma family_divisible (n : nat) : Forall family (trace (divisible angle_num n)).
Proof.
  unfold divisible. destruct (n =? 0)%nat.
  - apply Forall_trace_bind; [now apply family_print | intros; constructor].
  - apply Forall_trace_bind; [rewrite trace_modulo; constructor|].
    intros r _. destruct (negb (r =? 0)%Z); [|constructor].
    apply Forall_trace_bind; [now apply family_print | intros _ _].
    apply Forall_trace_bind; [now apply family_print | intros; constructor].
Qed.

Lemma family_group_and_copy (all_files : list string) :
  batches = build_batches all_files (find_guide_photos all_files) ->
  Forall family
    (trace (group_and_copy copy2 region_code date_code single_folder_path angle_num
              renamed_dir_path all_files)).
Proof.
  intros Hb. unfold group_and_copy.
  destruct (find_guide_photos all_files) as [| g gs] eqn:Eg; [now apply family_print|].
  rewrite <- Hb.
  apply Forall_trace_bind; [rewrite trace_inconsistent; constructor|].
  intros bad _. destruct bad.
  - apply Forall_trace_bind; [now apply family_print | intros _ _].
    apply Forall_trace_for_each. intros b Hin.
    constructor; [now apply ev_followed | constructor].
  - apply Forall_trace_bind; [rewrite trace_getitem; constructor|].
    intros first_batch _.
    apply Forall_trace_bind; [apply family_divisible|].
    intros go _. destruct go; [|constructor].
    rewrite <- Eg in Hb |- *. now apply family_copy_phase.
Qed.

(** Every event of a run belongs to the family. *)
Lemma events_of_run (isdir : bool) (listing : list string) :
  batches = build_batches (Py.sorted (filter is_supported listing))
              (find_guide_photos (Py.sorted (filter is_supported listing))) ->
  Forall family
    (trace (rename_and_copy_single_folder_mode copy2 base_work_dir region_code date_code
              single_folder_path angle_num isdir listing)).
Proof.
  intros Hb. unfold rename_and_copy_single_folder_mode.
  destruct isdir; cbn [negb]; [|now apply family_print].
  apply Forall_trace_bind.
  - unfold create_renamed_directory. fold renamed_dir_path.
    repeat constructor.
  - intros rd Hrd. unfold create_renamed_directory in Hrd. cbn in Hrd.
    injection Hrd as <-. fold renamed_dir_path.
    destruct (Py.sorted (filter is_supported listing)) as [| f l] eqn:E;
      [now apply family_print|].
    now apply family_group_and_copy.
Qed.

End EventsOfRun.

(** ** C5, C6, C10: what no run does *)

Lemma append_assoc (a b c : string) : ((a ++ b) ++ c = a ++ (b ++ c))%string.
Proof. induction a as [| x a IH]; simpl; [reflexivity | now rewrite IH]. Qed.

Lemma basename_join (p : path) (name : string) : OsPath.basename (OsPath.join p name) = name.
Proof. unfold OsPath.basename, OsPath.join. apply last_last. Qed.

Lemma lower_ascii_idempotent (c : ascii) :
  Py.lower_ascii (Py.lower_ascii c) = Py.lower_ascii c.
Proof.
  unfold Py.lower_ascii.
  destruct ((65 <=? nat_of_ascii c)%nat && (nat_of_ascii c <=? 90)%nat) eqn:E.
  - apply andb_true_iff in E. destruct E as [E1 E2].
    apply Nat.leb_le in E1, E2.
    rewrite nat_ascii_embedding by lia.
    replace ((65 <=? nat_of_ascii c + 32)%nat && (nat_of_ascii c + 32 <=? 90)%nat) with false;
      [reflexivity|].
    symmetry. apply andb_false_iff. right. apply Nat.leb_gt. lia.
  - now rewrite E.
Qed.

Lemma lower_idempotent (s : string) : Py.lower (Py.lower s) = Py.lower s.
Proof.
  induction s as [| c s IH]; simpl; [reflexivity|].
  now rewrite lower_ascii_idempotent, IH.
Qed.

Lemma is_lower_lower (s : string) : is_lower (Py.lower s) = true.
Proof. unfold is_lower. rewrite lower_idempotent. apply String.eqb_refl. Qed.

(** ** The extension of a new name *)

Lemma rfind_from_absent (i acc : Z) (s : string) (c : ascii) :
  contains c s = false -> Py.rfind_from i acc s c = acc.
Proof.
  revert i acc. induction s as [| a s IH]; intros i acc H; simpl in *; [reflexivity|].
  apply orb_false_iff in H. destruct H as [Ha Hs]. now rewrite Ha, IH.
Qed.

Lemma rfind_from_bounds (i acc : Z) (s : string) (c : ascii) :
  Py.rfind_from i acc s c = acc
  \/ (i <= Py.rfind_from i acc s c < i + Z.of_nat (String.length s))%Z.
Proof.
  revert i acc. induction s as [| a s IH]; intros i acc; [now left|].
  cbn [Py.rfind_from String.length].
  destruct (IH (i + 1)%Z (if Ascii.eqb a c then i else acc)) as [E | B].
  - rewrite E. destruct (Ascii.eqb a c); [right; lia | now left].
  - right. lia.
Qed.

Lemma rfind_from_app (i acc : Z) (a b : string) (c : ascii) :
  Py.rfind_from i acc (a ++ b)%string c
  = Py.rfind_from (i + Z.of_nat (String.length a)) (Py.rfind_from i acc a c) b c.
Proof.
  revert i acc. induction a as [| x a IH]; intros i acc.
  - simpl. now rewrite Z.add_0_r.
  - cbn [append Py.rfind_from String.length]. rewrite IH. f_equal. lia.
Qed.

Lemma contains_drop (c : ascii) (n : nat) (s : string) :
  contains c s = false -> contains c (Py.drop n s) = false.
Proof.
  revert s. induction n as [| n IH]; intros s H; [exact H|].
  destruct s as [| a s]; [reflexivity|]. simpl in *.
  apply orb_false_iff in H. now apply IH.
Qed.

Lemma rfind_from_present (i acc : Z) (s : string) (c : ascii) :
  contains c s = true -> (i <= Py.rfind_from i acc s c)%Z.
Proof.
  revert i acc. induction s as [| a s IH]; intros i acc H; [discriminate|].
  cbn [Py.rfind_from contains] in *.
  destruct (Ascii.eqb a c) eqn:Ha.
  - destruct (rfind_from_bounds (i + 1) i s c) as [E | B]; lia.
  - simpl in H. specialize (IH (i + 1)%Z acc H). lia.
Qed.

(** Where [rfind] finds the character, the rest of the string starts with
    it and holds no other. *)
Lemma rfind_from_found (i acc : Z) (s : string) (c : ascii) :
  (acc < i)%Z -> (i <= Py.rfind_from i acc s c)%Z ->
  exists r, Py.drop (Z.to_nat (Py.rfind_from i acc s c - i)) s = String c r
            /\ contains c r = false.
Proof.
  revert i acc. induction s as [| a s IH]; intros i acc Hacc Hfound.
  - simpl in Hfound. lia.
  - cbn [Py.rfind_from] in *.
    destruct (contains c s) eqn:Hc.
    + pose proof (rfind_from_present (i + 1) (if Ascii.eqb a c then i else acc) s c Hc) as Hp.
      destruct (IH (i + 1)%Z (if Ascii.eqb a c then i else acc)) as (r & Hr & Hn);
        [destruct (Ascii.eqb a c); lia | lia |].
      exists r. split; [|exact Hn].
      replace (Z.to_nat (Py.rfind_from (i + 1) (if Ascii.eqb a c then i else acc) s c - i))
        with (S (Z.to_nat (Py.rfind_from (i + 1) (if Ascii.eqb a c then i else acc) s c
                           - (i + 1)))) by lia.
      exact Hr.
    + rewrite rfind_from_absent in * by exact Hc.
      destruct (Ascii.eqb_spec a c) as [-> | Hne]; [|lia].
      rewrite Z.sub_diag. now exists s.
Qed.

Lemma rfind_from_not_found (i acc : Z) (s : string) (c : ascii) :
  (acc < i)%Z -> (Py.rfind_from i acc s c < i)%Z -> contains c s = false.
Proof.
  revert i acc. induction s as [| a s IH]; intros i acc Hacc H; [reflexivity|].
  cbn [Py.rfind_from contains] in *.
  destruct (Ascii.eqb a c) eqn:Ha.
  - destruct (rfind_from_bounds (i + 1) i s c) as [E | B]; lia.
  - simpl. apply (IH (i + 1)%Z acc); lia.
Qed.

(** After the last occurrence of [c] there is none. *)
Lemma contains_after_rfind (s : string) (c : ascii) (n : nat) :
  (Py.rfind s c < Z.of_nat n)%Z -> contains c (Py.drop n s) = false.
Proof.
  intros H. unfold Py.rfind in H.
  destruct (Z.ltb_spec (Py.rfind_from 0 (-1) s c) 0) as [Hneg | Hpos].
  - apply contains_drop. apply (rfind_from_not_found 0 (-1)); lia.
  - destruct (rfind_from_found 0 (-1) s c) as (r & Hr & Hn); [lia | lia |].
    rewrite Z.sub_0_r in Hr.
    assert (Hd : forall a b t, Py.drop (a + b) t = Py.drop b (Py.drop a t)).
    { clear. induction a as [| a IHa]; intros b t; [reflexivity|].
      destruct t as [| x t]; simpl; [now destruct b | apply IHa]. }
    replace n with (Z.to_nat (Py.rfind_from 0 (-1) s c) + S (n - Z.to_nat (Py.rfind_from 0 (-1) s c) - 1))%nat
      by lia.
    rewrite Hd, Hr. simpl. now apply contains_drop.
Qed.

(** A non-empty extension is a dot followed by characters that are neither
    the dot nor the separator. *)
Lemma splitext_ext_shape (p : string) :
  snd (OsPath.splitext p) = ""
  \/ exists r, snd (OsPath.splitext p) = String "." r
               /\ contains "." r = false /\ contains "/" r = false.
Proof.
  unfold OsPath.splitext.
  destruct (Z.ltb_spec (Py.rfind p "/") (Py.rfind p ".")) as [Hlt | Hge]; [|now left].
  destruct (OsPath.has_non_dot _ _ _); [|now left].
  right. cbn [andb snd].
  pose proof (rfind_from_bounds 0 (-1) p "/") as Hsep. fold (Py.rfind p "/") in Hsep.
  destruct (rfind_from_found 0 (-1) p ".") as (r & Hr & Hn); [lia | fold (Py.rfind p "."); lia |].
  fold (Py.rfind p ".") in Hr. rewrite Z.sub_0_r in Hr.
  exists r. split; [exact Hr|]. split; [exact Hn|].
  assert (H : contains "/" (Py.drop (Z.to_nat (Py.rfind p ".")) p) = false).
  { apply contains_after_rfind. lia. }
  rewrite Hr in H. simpl in H. exact H.
Qed.

Lemma lower_ascii_dot (a : ascii) : Ascii.eqb (Py.lower_ascii a) "." = Ascii.eqb a ".".
Proof. destruct a as [[] [] [] [] [] [] [] []]; reflexivity. Qed.

Lemma lower_ascii_slash (a : ascii) : Ascii.eqb (Py.lower_ascii a) "/" = Ascii.eqb a "/".
Proof. destruct a as [[] [] [] [] [] [] [] []]; reflexivity. Qed.

Lemma contains_lower_dot (s : string) : contains "." (Py.lower s) = contains "." s.
Proof. induction s as [| a s IH]; simpl; [reflexivity | now rewrite lower_ascii_dot, IH]. Qed.

Lemma contains_lower_slash (s : string) : contains "/" (Py.lower s) = contains "/" s.
Proof. induction s as [| a s IH]; simpl; [reflexivity | now rewrite lower_ascii_slash, IH]. Qed.

Lemma has_non_dot_found (steps : nat) (p : string) (start i : nat) (x : ascii) :
  (start <= i < start + steps)%nat -> String.get i p = Some x -> x <> "."%char ->
  OsPath.has_non_dot steps p start = true.
Proof.
  revert start. induction steps as [| steps IH]; intros start Hi Hget Hx; [lia|].
  cbn [OsPath.has_non_dot].
  destruct (String.get start p) as [y |] eqn:Hy; [|reflexivity].
  destruct (Ascii.eqb_spec y "."%char) as [-> | Hne].
  - apply IH; [|exact Hget | exact Hx].
    destruct (Nat.eq_dec i start) as [-> | Hne]; [congruence | lia].
  - destruct y as [[] [] [] [] [] [] [] []]; try reflexivity. now contradiction Hne.
Qed.

Lemma get_app_last (s : string) (x : ascii) (t : string) :
  String.get (String.length s) (s ++ String x t)%string = Some x.
Proof. induction s as [| a s IH]; [reflexivity | exact IH]. Qed.

Lemma take_app (s t : string) : Py.take (String.length s) (s ++ t)%string = s.
Proof.
  induction s as [| a s IH]; simpl; [now destruct t | now rewrite IH].
Qed.

Lemma drop_app (s t : string) : Py.drop (String.length s) (s ++ t)%string = t.
Proof. induction s as [| a s IH]; simpl; [reflexivity | exact IH]. Qed.

Lemma length_append (s t : string) :
  String.length (s ++ t)%string = (String.length s + String.length t)%nat.
Proof. induction s as [| a s IH]; simpl; [reflexivity | now rewrite IH]. Qed.

(** The extension of a name that ends, after a character that is neither
    the dot nor the separator, in a dot and characters that are neither. *)
Lemma splitext_stem_ext (s : string) (x : ascii) (r : string) :
  x <> "."%char -> x <> "/"%char ->
  contains "." r = false -> contains "/" r = false ->
  OsPath.splitext ((s ++ String x "") ++ String "." r)%string
  = ((s ++ String x "")%string, String "." r).
Proof.
  intros Hxd Hxs Hrd Hrs. unfold OsPath.splitext.
  set (stem := (s ++ String x "")%string).
  assert (Hlen : String.length stem = (String.length s + 1)%nat).
  { unfold stem. rewrite length_append. reflexivity. }
  assert (Hdot : Py.rfind (stem ++ String "." r)%string "." = Z.of_nat (String.length stem)).
  { unfold Py.rfind. rewrite rfind_from_app. cbn [Py.rfind_from].
    rewrite Ascii.eqb_refl. now rewrite rfind_from_absent. }
  assert (Hsep : Py.rfind (stem ++ String "." r)%string "/" = Py.rfind s "/").
  { unfold Py.rfind, stem. rewrite !rfind_from_app. cbn [Py.rfind_from].
    replace (Ascii.eqb x "/") with false by (symmetry; now apply Ascii.eqb_neq).
    replace (Ascii.eqb "." "/") with false by reflexivity.
    now rewrite rfind_from_absent. }
  rewrite Hdot, Hsep.
  pose proof (rfind_from_bounds 0 (-1) s "/") as Hb. fold (Py.rfind s "/") in Hb.
  replace (Py.rfind s "/" <? Z.of_nat (String.length stem))%Z with true
    by (symmetry; apply Z.ltb_lt; lia).
  rewrite (has_non_dot_found _ _ _ (String.length s) x).
  - cbn [andb]. rewrite Nat2Z.id, take_app, drop_app. reflexivity.
  - lia.
  - unfold stem. rewrite append_assoc. apply get_app_last.
  - exact Hxd.
Qed.

(** A label ends in a character that is neither the dot nor the separator. *)
Lemma label_last (k : Z) :
  (0 <= k)%Z ->
  exists s x, label k = (s ++ String x "")%string /\ x <> "."%char /\ x <> "/"%char.
Proof.
  intros Hk. unfold label, Py.utf8, Py.ord_A.
  assert (Hbyte : forall n, (47 < n < 256)%Z ->
                            Py.byte n <> "."%char /\ Py.byte n <> "/"%char).
  { intros n Hn. unfold Py.byte.
    split; intros E; apply (f_equal N_of_ascii) in E;
      rewrite N_ascii_embedding in E by lia; simpl in E; lia. }
  assert (Hcont : forall n, (47 < 128 + n mod 64 < 256)%Z).
  { intros n. pose proof (Z.mod_pos_bound n 64). lia. }
  destruct (Z.ltb_spec (65 + k) 128).
  - exists "", (Py.byte (65 + k)). split; [reflexivity|]. apply Hbyte. lia.
  - destruct (65 + k <? 2048)%Z; [|destruct (65 + k <? 65536)%Z].
    + exists (String (Py.byte (192 + (65 + k) / 64)) ""), (Py.byte (128 + (65 + k) mod 64)).
      split; [reflexivity|]. apply Hbyte, Hcont.
    + eexists (String _ (String _ "")), (Py.byte (128 + (65 + k) mod 64)).
      split; [reflexivity|]. apply Hbyte, Hcont.
    + eexists (String _ (String _ (String _ ""))), (Py.byte (128 + (65 + k) mod 64)).
      split; [reflexivity|]. apply Hbyte, Hcont.
Qed.

(** The extension of a new name is the lower-cased extension of the file,
    when the file has one. *)
Lemma splitext_new_name (region_code date_code : string) (angle_num : Z)
    (batch_id : string) (j : nat) (f : string) :
  (0 < angle_num)%Z ->
  snd (OsPath.splitext f) <> "" ->
  snd (OsPath.splitext (new_name region_code date_code angle_num batch_id j f))
  = Py.lower (snd (OsPath.splitext f)).
Proof.
  intros Hpos Hext.
  destruct (splitext_ext_shape f) as [E | (r & Hr & Hd & Hs)]; [contradiction|].
  destruct (label_last (Z.of_nat j mod angle_num)) as (s & x & Hl & Hxd & Hxs).
  { apply Z.mod_pos_bound. lia. }
  unfold new_name. rewrite Hr, Hl. cbn [Py.lower].
  replace (Py.lower_ascii ".") with "."%char by reflexivity.
  rewrite <- !append_assoc.
  rewrite splitext_stem_ext; [reflexivity | exact Hxd | exact Hxs | |].
  - now rewrite contains_lower_dot.
  - now rewrite contains_lower_slash.
Qed.

Lemma sorted_NoDup (l : list string) : NoDup l -> NoDup (Py.sorted (filter is_supported l)).
Proof.
  intros H. unfold Py.sorted.
  eapply Permutation_NoDup; [apply Py.StringSort.Permuted_sort|].
  now apply NoDup_filter.
Qed.

(** A file before every guide photo is in no batch. *)
Lemma before_first_guide_in_no_batch (all_files : list string) (i : nat) (f : string)
    (g0 : guide_info) (b : batch) :
  NoDup all_files ->
  nth_error all_files i = Some f ->
  nth_error (find_guide_photos all_files) 0 = Some g0 ->
  (i < index g0)%nat ->
  In b (build_batches all_files (find_guide_photos all_files)) ->
  guide_file b <> f /\ ~ In f (files_to_rename b).
Proof.
  intros Hnd Hi Hg0 Hlt Hb.
  assert (Hno : ~ (f = guide_file b \/ In f (files_to_rename b))).
  { intros Hf. destruct (batch_files_position all_files b f Hb Hf) as (g & p & Hg & Hp & Hnth).
    pose proof (first_guide_lowest all_files g0 g Hg0 Hg) as Hlow.
    assert (Hip : i = p).
    { rewrite NoDup_nth_error in Hnd. apply Hnd; [|congruence].
      apply nth_error_Some. congruence. }
    lia. }
  split; [intros E; apply Hno; left; now symmetry | intros Hin; apply Hno; now right].
Qed.

(** C5. The check for files left after the last batch never fires: for every
    list of files with a guide photo, [last_processed_index] is
    [len(all_files) - 1], the check returns without a line, and no run, however
    it ends, prints either of the two lines of the warning. *)
Theorem remaining_files_warning_unreachable
    (copy2 : path -> path -> bool) (base_work_dir : path)
    (region_code date_code : string) (single_folder_path : path) (angle_num : Z)
    (isdir : bool) (listing : list string) :
  let all_files := Py.sorted (filter is_supported listing) in
  let guide_photos_info := find_guide_photos all_files in
  let batches := build_batches all_files guide_photos_info in
  (guide_photos_info = []
   \/ exists last_guide last_batch,
        getitem guide_photos_info (-1) = ret last_guide
        /\ getitem batches (-1) = ret last_batch
        /\ (Z.of_nat (index last_guide + length (files_to_rename last_batch))
            = Z.of_nat (length all_files) - 1)%Z)
  /\ check_remaining all_files guide_photos_info batches = ret tt
  /\ Forall (fun e => remaining_warning e = false)
            (trace (rename_and_copy_single_folder_mode copy2 base_work_dir region_code
                      date_code single_folder_path angle_num isdir listing)).
Proof.
  intros all_files guide_photos_info batches. split; [|split].
  - destruct (last_processed_index_is_last all_files) as [E | (g & b & Hg & Hb & Hidx)];
      [now left | right].
    exists g, b. repeat split; [exact Hg | exact Hb | lia].
  - apply check_remaining_returns.
  - eapply Forall_impl; [|apply events_of_run; reflexivity].
    intros e He. destruct He as [| m Hm | | | | | | | |]; try reflexivity.
    now destruct m.
Qed.

(** C6 (as the code has it). Every call of [shutil.copy2] in a run is either
    the copy of a batch's guide photo under its own name, whatever the case of
    its extension, or the copy of a file of a batch under a name that ends in
    the file's extension lower-cased, which is the extension of the new name
    when the file has one. *)
Theorem renamed_extension_lowered_guide_name_kept
    (copy2 : path -> path -> bool) (base_work_dir : path)
    (region_code date_code : string) (single_folder_path : path) (angle_num : Z)
    (isdir : bool) (listing : list string) :
  let all_files := Py.sorted (filter is_supported listing) in
  let batches := build_batches all_files (find_guide_photos all_files) in
  let renamed_dir_path := OsPath.join base_work_dir RENAMED_FOLDER_NAME in
  Forall
    (fun e =>
       match e with
       | Copy2 src dst _ =>
           exists b, In b batches
             /\ ((src = OsPath.join single_folder_path (guide_file b)
                  /\ dst = OsPath.join renamed_dir_path (guide_file b))
                 \/ exists f stem,
                      let ext := Py.lower (snd (OsPath.splitext f)) in
                      In f (files_to_rename b)
                      /\ src = OsPath.join single_folder_path f
                      /\ dst = OsPath.join renamed_dir_path (stem ++ ext)%string
                      /\ is_lower ext = true
                      /\ (snd (OsPath.splitext f) <> ""
                          -> snd (OsPath.splitext (stem ++ ext)%string) = ext))
       | _ => True
       end)
    (trace (rename_and_copy_single_folder_mode copy2 base_work_dir region_code
              date_code single_folder_path angle_num isdir listing)).
Proof.
  intros all_files batches renamed_dir_path.
  eapply Forall_impl; [|apply events_of_run; reflexivity].
  intros e He. fold all_files batches renamed_dir_path in He.
  destruct He as [| | | | b ok Hb | | | b j f ok Hb Hf Hpos | |]; try exact I.
  - exists b. split; [exact Hb|]. now left.
  - exists b. split; [exact Hb|]. right.
    exists f, (region_code ++ "-" ++ date_code ++ "-" ++ batch_id b
                 ++ Py.format_02d (Z.of_nat j / angle_num + 1)
                 ++ "-" ++ label (Z.of_nat j mod angle_num))%string.
    assert (Hname : new_name region_code date_code angle_num (batch_id b) j f
                    = ((region_code ++ "-" ++ date_code ++ "-" ++ batch_id b
                          ++ Py.format_02d (Z.of_nat j / angle_num + 1)
                          ++ "-" ++ label (Z.of_nat j mod angle_num))
                         ++ Py.lower (snd (OsPath.splitext f)))%string).
    { unfold new_name. now rewrite !append_assoc. }
    cbv zeta. rewrite <- Hname.
    split; [eapply nth_error_In; exact Hf|].
    split; [reflexivity|]. split; [reflexivity|]. split; [apply is_lower_lower|].
    now apply splitext_new_name.
Qed.

(** C10. A file that stands before the first guide photo in the sorted list
    is the guide photo of no batch and among the files to rename of no batch,
    and no event of the run names it: it is the source of no copy and no printed
    line is about it. *)
Theorem files_before_first_guide_ignored
    (copy2 : path -> path -> bool) (base_work_dir : path)
    (region_code date_code : string) (single_folder_path : path) (angle_num : Z)
    (isdir : bool) (listing : list string) (i : nat) (f : string) (g0 : guide_info) :
  let all_files := Py.sorted (filter is_supported listing) in
  let batches := build_batches all_files (find_guide_photos all_files) in
  NoDup listing ->
  nth_error all_files i = Some f ->
  nth_error (find_guide_photos all_files) 0 = Some g0 ->
  (i < index g0)%nat ->
  Forall (fun b => guide_file b <> f /\ ~ In f (files_to_rename b)) batches
  /\ Forall (fun e => ~ In f (named_files e))
            (trace (rename_and_copy_single_folder_mode copy2 base_work_dir region_code
                      date_code single_folder_path angle_num isdir listing)).
Proof.
  intros all_files batches Hnd Hi Hg0 Hlt.
  assert (Hbatch : forall b, In b batches -> guide_file b <> f /\ ~ In f (files_to_rename b)).
  { intros b Hb.
    apply (before_first_guide_in_no_batch all_files i f g0 b); trivial.
    now apply sorted_NoDup. }
  split; [now apply Forall_forall|].
  eapply Forall_impl; [|apply events_of_run; reflexivity].
  intros e He. fold all_files batches in He.
  destruct He as [| m Hm | b Hb | k b Hb | b ok Hb | b Hb | b Hb
                  | b j f' ok Hb Hf Hpos | b j f' Hb Hf Hpos | b j f' Hb Hf Hpos];
    cbn [named_files]; rewrite ?basename_join.
  - intros [].
  - destruct m; try discriminate; intros [].
  - intros [E | []]. now apply (proj1 (Hbatch b Hb)).
  - intros [E | []]. now apply (proj1 (Hbatch b Hb)).
  - intros [E | []]. now apply (proj1 (Hbatch b Hb)).
  - intros [E | []]. now apply (proj1 (Hbatch b Hb)).
  - intros [E | []]. now apply (proj1 (Hbatch b Hb)).
  - intros [E | []]. subst f'. apply (proj2 (Hbatch b Hb)). eapply nth_error_In; exact Hf.
  - intros [E | []]. subst f'. apply (proj2 (Hbatch b Hb)). eapply nth_error_In; exact Hf.
  - intros [E | []]. subst f'. apply (proj2 (Hbatch b Hb)). eapply nth_error_In; exact Hf.
Qed.

(** ** Mode 1 *)

Lemma for_each_ok {A : Type} (body : A -> M unit) (l : list A) :
  (forall x, In x l -> outcome (body x) = Ok tt) ->
  for_each l body = (flat_map (fun x => trace (body x)) l, Ok tt).
Proof.
  induction l as [| x l IH]; intros H; simpl; [reflexivity|].
  rewrite (bind_ok _ _ (trace (body x)) tt).
  - rewrite IH by (intros y Hy; apply H; now right). reflexivity.
  - rewrite (surjective_run (body x)) at 1. f_equal. apply H. now left.
Qed.

Lemma copy_calls_flat_map {A : Type} (f : A -> list event) (l : list A) :
  copy_calls (flat_map f l) = flat_map (fun x => copy_calls (f x)) l.
Proof.
  induction l as [| x l IH]; [reflexivity|].
  cbn [flat_map]. now rewrite copy_calls_app, IH.
Qed.

Lemma trace_pair {A : Type} (t : list event) (r : result A) : trace (t, r) = t.
Proof. reflexivity. Qed.

Lemma outcome_pair {A : Type} (t : list event) (r : result A) : outcome (t, r) = r.
Proof. reflexivity. Qed.

Lemma copy_calls_print (m : msg) (t : list event) :
  copy_calls (Print m :: t) = copy_calls t.
Proof. reflexivity. Qed.

Lemma copy_calls_makedirs (p : path) (t : list event) :
  copy_calls (Makedirs p :: t) = copy_calls t.
Proof. reflexivity. Qed.

Lemma copy_calls_copy (src dst : path) (ok : bool) (t : list event) :
  copy_calls (Copy2 src dst ok :: t) = (src, dst, ok) :: copy_calls t.
Proof. reflexivity. Qed.

Lemma create_renamed_directory_eq (base_dir : path) :
  create_renamed_directory base_dir
  = ([Makedirs (OsPath.join base_dir RENAMED_FOLDER_NAME);
      Print (MsgRenamedDir (OsPath.join base_dir RENAMED_FOLDER_NAME))],
     Ok (OsPath.join base_dir RENAMED_FOLDER_NAME)).
Proof. reflexivity. Qed.

Section Subfolder.

Variables (copy2 : path -> path -> bool) (base_work_dir : path)
          (region_code date_code : string).

Let renamed_dir_path : path := OsPath.join base_work_dir RENAMED_FOLDER_NAME.

Lemma getitem_angle_suffix (k : nat) :
  (k < 4)%nat -> getitem angle_suffixes (Z.of_nat k) = ret (nth k angle_suffixes "").
Proof.
  intros H. apply getitem_nth.
  do 4 (destruct k as [| k]; [reflexivity|]). lia.
Qed.

Lemma copy_sample_images_eq (root : path) (sample_number : string)
    (images : list string) (k : nat) :
  outcome (copy_sample_images copy2 region_code date_code renamed_dir_path root
             sample_number (combine (seq k (length images)) images)) = Ok tt
  /\ copy_calls (trace (copy_sample_images copy2 region_code date_code renamed_dir_path
                          root sample_number (combine (seq k (length images)) images)))
     = map (fun '(i, f) =>
              let src := OsPath.join root f in
              let dst := OsPath.join renamed_dir_path (sample_name region_code date_code sample_number i f) in
              (src, dst, copy2 src dst))
           (combine (seq k (length (firstn (4 - k) images))) (firstn (4 - k) images)).
Proof.
  revert k. induction images as [| f images IH]; intros k.
  - rewrite firstn_nil. simpl. now split.
  - cbn [length seq combine copy_sample_images].
    destruct (Nat.leb_spec (length angle_suffixes) k) as [Hge | Hlt].
    + change (length angle_suffixes) with 4%nat in Hge.
      replace (4 - k)%nat with 0%nat by lia. simpl. now split.
    + change (length angle_suffixes) with 4%nat in Hlt.
      rewrite getitem_angle_suffix by exact Hlt. rewrite bind_ret.
      fold (sample_name region_code date_code sample_number k f).
      rewrite (bind_ok _ _ _ _ (try_copy_eq copy2 _ _ _ _)).
      rewrite trace_pair, outcome_pair. cbn [app].
      rewrite copy_calls_copy, copy_calls_print.
      destruct (IH (S k)) as [IHo IHc].
      split; [exact IHo|].
      rewrite IHc.
      replace (4 - k)%nat with (S (4 - S k)) by lia.
      reflexivity.
Qed.

Lemma visit_eq (root : path) (dirs files : list string) :
  outcome (visit copy2 base_work_dir region_code date_code renamed_dir_path
             (root, dirs, files)) = Ok tt
  /\ copy_calls (trace (visit copy2 base_work_dir region_code date_code renamed_dir_path
                          (root, dirs, files)))
     = if is_sample_folder base_work_dir root
       then sample_copies copy2 base_work_dir region_code date_code root files
       else [].
Proof.
  unfold visit, is_sample_folder. fold renamed_dir_path.
  destruct (path_eqb root renamed_dir_path); [now split|].
  destruct (path_eqb root base_work_dir); [now split|].
  cbn [negb andb].
  destruct (Py.isdigit (OsPath.basename root)); [|now split].
  destruct (String.length (OsPath.basename root) =? 4)%nat; [|now split].
  cbn [negb orb andb]. unfold sample_copies. fold renamed_dir_path.
  destruct (Py.sorted (filter is_supported files)) as [| f l] eqn:E; [now split|].
  rewrite bind_print, trace_pair, outcome_pair, copy_calls_print.
  rewrite <- E. unfold Py.enumerate at 1 2.
  destruct (copy_sample_images_eq root (OsPath.basename root)
              (Py.sorted (filter is_supported files)) 0) as [Ho Hc].
  split; [exact Ho|].
  rewrite Hc. reflexivity.
Qed.

Lemma subfolder_run_eq (base : tree) :
  outcome (rename_and_copy_subfolder_mode copy2 base_work_dir region_code date_code base)
  = Ok tt
  /\ copy_calls (trace (rename_and_copy_subfolder_mode copy2 base_work_dir region_code
                          date_code base))
     = flat_map (fun '(root, _, files) =>
                   if is_sample_folder base_work_dir root
                   then sample_copies copy2 base_work_dir region_code date_code root files
                   else [])
                (walk base_work_dir base).
Proof.
  unfold rename_and_copy_subfolder_mode.
  rewrite (bind_ok _ _ _ _ (create_renamed_directory_eq base_work_dir)).
  fold renamed_dir_path.
  rewrite for_each_ok by (intros [[root dirs] files] _; apply visit_eq).
  rewrite (bind_ok _ _ _ tt eq_refl), !trace_pair, !outcome_pair.
  split; [reflexivity|].
  cbn [app]. rewrite copy_calls_makedirs, copy_calls_print.
  rewrite copy_calls_app, copy_calls_flat_map. cbn [copy_calls flat_map print emit fst].
  rewrite app_nil_r. apply flat_map_ext.
  intros [[root dirs] files]. apply visit_eq.
Qed.

End Subfolder.

Lemma walk_below (top : path) (t : tree) (rel : path) (name : string)
    (files : list string) (dirs : list tree) :
  below t rel (Dir name files dirs) ->
  In (top ++ rel, map dir_name dirs, files) (walk top t).
Proof.
  intros H. revert top.
  remember (Dir name files dirs) as d' eqn:Ed.
  induction H as [t | n fs ds d rel d' Hd Hbelow IH]; intros top; subst.
  - rewrite app_nil_r. simpl. now left.
  - simpl. right. apply in_flat_map. exists d. split; [exact Hd|].
    specialize (IH eq_refl (OsPath.join top (dir_name d))).
    unfold OsPath.join in IH. now rewrite <- app_assoc in IH.
Qed.

(** C2 (as the code has it). The walk visits every folder of the tree, at
    every depth, and the copies of mode 1 are those of every folder it visits
    whose name is four digits, other than the base and the output folder:
    depth plays no part. *)
Theorem subfolder_copies_at_every_depth
    (copy2 : path -> path -> bool) (base_work_dir : path)
    (region_code date_code : string) (base : tree) :
  let run := rename_and_copy_subfolder_mode copy2 base_work_dir region_code date_code base in
  outcome run = Ok tt
  /\ copy_calls (trace run)
     = flat_map (fun '(root, _, files) =>
                   if is_sample_folder base_work_dir root
                   then sample_copies copy2 base_work_dir region_code date_code root files
                   else [])
                (walk base_work_dir base)
  /\ forall rel name files dirs,
       below base rel (Dir name files dirs) ->
       In (base_work_dir ++ rel, map dir_name dirs, files) (walk base_work_dir base).
Proof.
  intros run. split; [|split].
  - apply subfolder_run_eq.
  - apply subfolder_run_eq.
  - intros rel name files dirs. apply walk_below.
Qed.

(** C8. In mode 1, from a sample folder of the walk, one named by four
    digits, the images are taken in sorted order and the first four of them,
    all of them when there are at most four, are copied, image [i] under the
    suffix [i] of A, B, C, D; the images after the fourth are not copied.  In
    the calls of [shutil.copy2] of the run these copies stand between those
    of the folders walked before and those of the folders walked after. *)
Theorem sample_folder_first_four_in_sorted_order
    (copy2 : path -> path -> bool) (base_work_dir : path)
    (region_code date_code : string) (base : tree)
    (before after : list (path * list string * list string))
    (root : path) (dirs files : list string) :
  let renamed_dir_path := OsPath.join base_work_dir RENAMED_FOLDER_NAME in
  let sample_number := OsPath.basename root in
  let image_files := Py.sorted (filter is_supported files) in
  let run := rename_and_copy_subfolder_mode copy2 base_work_dir region_code date_code base in
  let copies_of (entries : list (path * list string * list string)) :=
    flat_map (fun entry =>
                copy_calls (trace (visit copy2 base_work_dir region_code date_code
                                     renamed_dir_path entry)))
             entries in
  let copies_of_sample :=
    map (fun '(i, f) =>
           let src := OsPath.join root f in
           let dst := OsPath.join renamed_dir_path
                        (region_code ++ "-" ++ date_code ++ "-" ++ sample_number ++ "-"
                           ++ nth i ["A"; "B"; "C"; "D"] ""
                           ++ Py.lower (snd (OsPath.splitext f)))%string in
           (src, dst, copy2 src dst))
        (Py.enumerate (firstn 4 image_files)) in
  walk base_work_dir base = before ++ (root, dirs, files) :: after ->
  path_eqb root renamed_dir_path = false ->
  path_eqb root base_work_dir = false ->
  Py.isdigit sample_number = true ->
  String.length sample_number = 4%nat ->
  Sorted (fun a b => String.leb a b = true) image_files
  /\ Permutation (filter is_supported files) image_files
  /\ copy_calls (trace run) = copies_of before ++ copies_of_sample ++ copies_of after
  /\ length copies_of_sample = Nat.min 4 (length image_files).
Proof.
  intros renamed_dir_path sample_number image_files run copies_of copies_of_sample
         Hwalk Hrd Hbase Hdigit Hlen.
  assert (Hs : is_sample_folder base_work_dir root = true).
  { unfold is_sample_folder. fold renamed_dir_path sample_number.
    rewrite Hrd, Hbase, Hdigit, Hlen. reflexivity. }
  destruct (subfolder_run_eq copy2 base_work_dir region_code date_code base) as [_ Hc].
  fold run in Hc.
  assert (Hcopies : forall entries,
             copies_of entries
             = flat_map (fun '(root, _, files) =>
                           if is_sample_folder base_work_dir root
                           then sample_copies copy2 base_work_dir region_code date_code
                                  root files
                           else [])
                        entries).
  { intros entries. apply flat_map_ext. intros [[r d] f].
    apply (visit_eq copy2 base_work_dir region_code date_code r d f). }
  split; [apply Py.StringSort.Sorted_sort|].
  split; [apply Py.StringSort.Permuted_sort|].
  split.
  - rewrite Hc, Hwalk, flat_map_app, !Hcopies. cbn [flat_map]. rewrite Hs. reflexivity.
  - unfold copies_of_sample. rewrite length_map, length_enumerate, length_firstn. reflexivity.
Qed.

(** C1 (as the code has it). With ten files and guide photos at positions 2
    and 7 there are two batches: the first is the files at positions 2 to 6,
    five files, the guide photo and four files to rename; the second is the
    files at positions 7 to 9, three files, the guide photo and two files to
    rename. *)
Theorem batches_of_guides_at_2_and_7 (all_files : list string) :
  length all_files = 10%nat ->
  map index (find_guide_photos all_files) = [2; 7]%nat ->
  exists b1 b2,
    build_batches all_files (find_guide_photos all_files) = [b1; b2]
    /\ guide_file b1 :: files_to_rename b1 = Py.slice all_files 2 7
    /\ length (guide_file b1 :: files_to_rename b1) = 5%nat
    /\ length (files_to_rename b1) = 4%nat
    /\ guide_file b2 :: files_to_rename b2 = Py.slice all_files 7 10
    /\ length (guide_file b2 :: files_to_rename b2) = 3%nat
    /\ length (files_to_rename b2) = 2%nat.
Proof.
  intros Hlen Hidx.
  assert (Hin : forall g, In g (find_guide_photos all_files) ->
                          nth_error all_files (index g) = Some (filename g)).
  { intros g Hg. now apply find_guide_photos_In. }
  destruct (find_guide_photos all_files) as [| g1 [| g2 [| g3 gs]]]; try discriminate.
  injection Hidx as H1 H2.
  pose proof (Hin g1 (or_introl eq_refl)) as Hg1.
  pose proof (Hin g2 (or_intror (or_introl eq_refl))) as Hg2.
  rewrite H1 in Hg1. rewrite H2 in Hg2.
  do 10 (destruct all_files as [| ? all_files]; [discriminate|]).
  destruct all_files; [|discriminate].
  simpl in Hg1, Hg2. injection Hg1 as Hg1. injection Hg2 as Hg2.
  eexists. eexists. split; [reflexivity|].
  unfold batch_at. cbn [guide_file files_to_rename nth_error Nat.add].
  rewrite H1, H2, <- Hg1, <- Hg2.
  repeat split.
Qed.

(** ** Concrete runs *)

Ltac in_list := repeat (first [left; reflexivity | right]).

(** One guide photo followed by eight files, four angles: two groups, 01
    and 02, each with the angles A to D, under the guide photo's batch id. *)
Example eight_files_two_groups :
  map (fun c => snd (fst c))
      (copy_calls (trace (rename_and_copy_single_folder_mode always_copied ["w"] "HR"
                            "250701" ["w"; "phone_image"] 4 true eight_after_guide)))
  = map (OsPath.join ["w"; "renamed"])
        ["s-7K.jpg";
         "HR-250701-7K01-A.jpg"; "HR-250701-7K01-B.jpg"; "HR-250701-7K01-C.jpg";
         "HR-250701-7K01-D.jpg";
         "HR-250701-7K02-A.jpg"; "HR-250701-7K02-B.jpg"; "HR-250701-7K02-C.jpg";
         "HR-250701-7K02-D.jpg"].
Proof. reflexivity. Qed.

(** A negative [angle_num] that divides the count passes the checks; the
    label list is empty and the first file of the first batch ends the run
    in [IndexError], after the guide photo has been copied. *)
Example negative_angle_num_raises :
  rename_and_copy_single_folder_mode always_copied ["w"] "HR" "250701"
    ["w"; "phone_image"] (-2) true one_batch
  = ([Makedirs ["w"; "renamed"]; Print (MsgRenamedDir ["w"; "renamed"]);
      Print (MsgProcessingSingle ["w"; "phone_image"]);
      Print (MsgDetected 1 2 (-2));
      Print (MsgBatch 1 "g-AB.JPG" "AB");
      Copy2 ["w"; "phone_image"; "g-AB.JPG"] ["w"; "renamed"; "g-AB.JPG"] true;
      Print (MsgGuideCopied "g-AB.JPG")],
     Raise IndexError).
Proof. reflexivity. Qed.

Lemma ten_files_first_batch_has_four :
  length ten_files = 10%nat
  /\ Py.sorted (filter is_supported ten_files) = ten_files
  /\ map index (find_guide_photos ten_files) = [2; 7]%nat
  /\ map (fun b => length (files_to_rename b))
         (build_batches ten_files (find_guide_photos ten_files)) = [4; 2]%nat
  /\ map (fun b => length (files_to_rename b))
         (build_batches ten_files (find_guide_photos ten_files)) <> [5; 2]%nat
  /\ map (fun b => length (guide_file b :: files_to_rename b))
         (build_batches ten_files (find_guide_photos ten_files)) <> [6; 3]%nat.
Proof. repeat split; try reflexivity; discriminate. Qed.

Lemma batches_of_guides_at_2_and_7_witness :
  length ten_files = 10%nat
  /\ map index (find_guide_photos ten_files) = [2; 7]%nat
  /\ exists b1 b2,
       build_batches ten_files (find_guide_photos ten_files) = [b1; b2]
       /\ guide_file b1 :: files_to_rename b1 = Py.slice ten_files 2 7
       /\ length (guide_file b1 :: files_to_rename b1) = 5%nat
       /\ length (files_to_rename b1) = 4%nat
       /\ guide_file b2 :: files_to_rename b2 = Py.slice ten_files 7 10
       /\ length (guide_file b2 :: files_to_rename b2) = 3%nat
       /\ length (files_to_rename b2) = 2%nat.
Proof.
  split; [reflexivity|]. split; [reflexivity|].
  apply (batches_of_guides_at_2_and_7 ten_files); reflexivity.
Defined.

Lemma nested_sample_folder_is_copied :
  In (Copy2 ["w"; "0001"; "0002"; "deep.jpg"] ["w"; "renamed"; "HR-250701-0002-A.jpg"] true)
     (trace (rename_and_copy_subfolder_mode always_copied ["w"] "HR" "250701" nested_samples)).
Proof. vm_compute. in_list. Qed.

Lemma guide_photo_keeps_upper_case_extension :
  In (Copy2 ["w"; "phone_image"; "g-AB.JPG"] ["w"; "renamed"; "g-AB.JPG"] true)
     (trace (rename_and_copy_single_folder_mode always_copied ["w"] "HR" "250701"
               ["w"; "phone_image"] 2 true one_batch))
  /\ snd (OsPath.splitext "g-AB.JPG") = ".JPG"
  /\ is_lower (snd (OsPath.splitext "g-AB.JPG")) = false.
Proof. split; [vm_compute; in_list | split; reflexivity]. Qed.

Lemma twenty_seven_labels_made :
  make_group_labels 27
  = ret ["A"; "B"; "C"; "D"; "E"; "F"; "G"; "H"; "I"; "J"; "K"; "L"; "M"; "N"; "O";
         "P"; "Q"; "R"; "S"; "T"; "U"; "V"; "W"; "X"; "Y"; "Z"; "["].
Proof. reflexivity. Qed.

Lemma batch_files_copied_under_new_names_witness :
  let run := rename_and_copy_single_folder_mode always_copied ["w"] "HR" "250701"
               ["w"; "phone_image"] 2 true long_batch in
  let copy (f name : string) := (["w"; "phone_image"; f], ["w"; "renamed"; name], true) in
  outcome run = Ok tt
  /\ length (copy_calls (trace run)) = 201%nat
  /\ nth_error (copy_calls (trace run)) 0 = Some (copy "g-AB.jpg" "g-AB.jpg")
  /\ nth_error (copy_calls (trace run)) 1 = Some (copy "x000.JPG" "HR-250701-AB01-A.jpg")
  /\ nth_error (copy_calls (trace run)) 2 = Some (copy "x001.JPG" "HR-250701-AB01-B.jpg")
  /\ nth_error (copy_calls (trace run)) 3 = Some (copy "x002.JPG" "HR-250701-AB02-A.jpg")
  /\ nth_error (copy_calls (trace run)) 20 = Some (copy "x019.JPG" "HR-250701-AB10-B.jpg")
  /\ nth_error (copy_calls (trace run)) 200 = Some (copy "x199.JPG" "HR-250701-AB100-B.jpg").
Proof.
  intros run copy.
  destruct (batch_files_copied_under_new_names always_copied ["w"] "HR" "250701"
              ["w"; "phone_image"] 2 long_batch
              {| guide_file := "g-AB.jpg"; batch_id := "AB";
                 files_to_rename := numbered_images 200 |})
    as [Ho Hc].
  - unfold max_encodable_angle_num; lia.
  - vm_compute. reflexivity.
  - intros b Hb. vm_compute in Hb. destruct Hb as [<- | []]. reflexivity.
  - vm_compute. reflexivity.
  - split; [exact Ho|]. unfold run. rewrite Hc. vm_compute. repeat split; reflexivity.
Defined.

Lemma unequal_batches_abort_before_any_copy_witness :
  rename_and_copy_single_folder_mode always_copied ["w"] "HR" "250701"
    ["w"; "phone_image"] 4 true ten_files
  = ([Makedirs ["w"; "renamed"]; Print (MsgRenamedDir ["w"; "renamed"]);
      Print ErrInconsistentBatches;
      Print (MsgGuideFollowedBy "b-01.jpg" 4);
      Print (MsgGuideFollowedBy "c-02.jpg" 2)],
     Ok tt).
Proof.
  apply (unequal_batches_abort_before_any_copy always_copied ["w"] "HR" "250701"
           ["w"; "phone_image"] 4 ten_files
           {| guide_file := "b-01.jpg"; batch_id := "01";
              files_to_rename := ["b1.jpg"; "b2.jpg"; "b3.jpg"; "b4.jpg"] |}
           {| guide_file := "c-02.jpg"; batch_id := "02";
              files_to_rename := ["c1.jpg"; "c2.jpg"] |}).
  - left. reflexivity.
  - right. left. reflexivity.
  - simpl. lia.
Defined.

Lemma zero_angle_num_raises_witness :
  rename_and_copy_single_folder_mode always_copied ["w"] "HR" "250701"
    ["w"; "phone_image"] 0 true one_batch
  = ([Makedirs ["w"; "renamed"]; Print (MsgRenamedDir ["w"; "renamed"])],
     Raise ZeroDivisionError).
Proof.
  apply (zero_angle_num_raises always_copied ["w"] "HR" "250701" ["w"; "phone_image"]
           one_batch
           {| guide_file := "g-AB.JPG"; batch_id := "AB";
              files_to_rename := ["x1.JPEG"; "x2.Tiff"] |}).
  - reflexivity.
  - intros b [<- | []]. reflexivity.
  - simpl. lia.
Defined.

Lemma early_file_NoDup : NoDup early_file.
Proof.
  unfold early_file.
  repeat constructor; simpl; intros H;
    repeat (destruct H as [H | H]; [discriminate|]); exact H.
Defined.

Lemma files_before_first_guide_ignored_witness :
  Py.sorted (filter is_supported early_file) = ["a.jpg"; "b-01.jpg"; "c.jpg"]
  /\ Forall (fun b => guide_file b <> "a.jpg" /\ ~ In "a.jpg" (files_to_rename b))
            (build_batches (Py.sorted (filter is_supported early_file))
               (find_guide_photos (Py.sorted (filter is_supported early_file))))
  /\ Forall (fun e => ~ In "a.jpg" (named_files e))
            (trace (rename_and_copy_single_folder_mode always_copied ["w"] "HR" "250701"
                      ["w"; "phone_image"] 1 true early_file)).
Proof.
  split; [reflexivity|].
  apply (files_before_first_guide_ignored always_copied ["w"] "HR" "250701"
           ["w"; "phone_image"] 1 true early_file 0 "a.jpg"
           {| filename := "b-01.jpg"; index := 1; gi_batch_id := "01" |}).
  - exact early_file_NoDup.
  - reflexivity.
  - reflexivity.
  - simpl. lia.
Defined.

Lemma sample_folder_first_four_in_sorted_order_witness :
  Py.sorted (filter is_supported five_images) = ["a.png"; "b.JPG"; "c.gif"; "d.bmp"; "e.jpg"]
  /\ copy_calls (trace (rename_and_copy_subfolder_mode always_copied ["w"] "HR" "250701"
                          two_samples))
     = [(["w"; "0001"; "a.png"], ["w"; "renamed"; "HR-250701-0001-A.png"], true);
        (["w"; "0001"; "b.JPG"], ["w"; "renamed"; "HR-250701-0001-B.jpg"], true);
        (["w"; "0001"; "c.gif"], ["w"; "renamed"; "HR-250701-0001-C.gif"], true);
        (["w"; "0001"; "d.bmp"], ["w"; "renamed"; "HR-250701-0001-D.bmp"], true);
        (["w"; "0002"; "z.PNG"], ["w"; "renamed"; "HR-250701-0002-A.png"], true)].
Proof.
  split; [reflexivity|].
  apply (sample_folder_first_four_in_sorted_order always_copied ["w"] "HR" "250701"
           two_samples
           [(["w"], ["0001"; "0002"; "renamed"], ["readme.txt"])]
           [(["w"; "0002"], [], ["z.PNG"]); (["w"; "renamed"], [], ["old.jpg"])]
           ["w"; "0001"] [] five_images); reflexivity.
Defined.

(** * Further properties *)

(** ** The batches cover the list from the first guide photo on *)

Lemma build_batches_suffix (all_files : list string) (pre gs : list guide_info) :
  map (fun '(i, guide) => batch_at all_files (pre ++ gs) i guide)
      (combine (seq (length pre) (length gs)) gs)
  = batches_from all_files gs.
Proof.
  revert pre. induction gs as [| g rest IH]; intros pre; [reflexivity|].
  cbn [length seq combine map batches_from]. f_equal.
  - unfold batch_at. f_equal. f_equal. f_equal.
    rewrite nth_error_app2 by lia.
    replace (length pre + 1 - length pre)%nat with 1%nat by lia.
    now destruct rest.
  - specialize (IH (pre ++ [g])). rewrite <- app_assoc in IH. cbn [app] in IH.
    rewrite length_app in IH. cbn [length] in IH.
    replace (length pre + 1)%nat with (S (length pre)) in IH by lia. exact IH.
Qed.

Lemma build_batches_rec (all_files : list string) (gs : list guide_info) :
  build_batches all_files gs = batches_from all_files gs.
Proof. exact (build_batches_suffix all_files [] gs). Qed.

Lemma slice_to_end {A : Type} (l : list A) (a : nat) :
  Py.slice l a (length l) = skipn a l.
Proof.
  unfold Py.slice. apply firstn_all2. rewrite length_skipn. lia.
Qed.

Lemma slice_then_rest {A : Type} (l : list A) (a b : nat) :
  (a <= b)%nat -> Py.slice l a b ++ skipn b l = skipn a l.
Proof.
  intros H. unfold Py.slice.
  replace (skipn b l) with (skipn (b - a) (skipn a l)).
  - apply firstn_skipn.
  - rewrite skipn_skipn. f_equal. lia.
Qed.

Lemma slice_head {A : Type} (l : list A) (a b : nat) (x : A) :
  (a < b)%nat -> nth_error l a = Some x ->
  x :: skipn 1 (Py.slice l a b) = Py.slice l a b.
Proof.
  intros Hab Hx. unfold Py.slice.
  destruct (skipn a l) as [| y t] eqn:E.
  - assert (H : nth_error (skipn a l) 0 = Some x)
      by (rewrite nth_error_skipn, Nat.add_0_r; exact Hx).
    rewrite E in H. discriminate.
  - assert (H : nth_error (skipn a l) 0 = Some x)
      by (rewrite nth_error_skipn, Nat.add_0_r; exact Hx).
    rewrite E in H. simpl in H. injection H as ->.
    destruct (b - a)%nat as [| n] eqn:En; [lia|]. reflexivity.
Qed.

Lemma batches_from_cover (all_files : list string) (gs : list guide_info) :
  StronglySorted (fun g g' => (index g < index g')%nat) gs ->
  Forall (well_placed all_files) gs ->
  flat_map batch_files (batches_from all_files gs)
  = match gs with
    | [] => []
    | g0 :: _ => skipn (index g0) all_files
    end.
Proof.
  induction gs as [| g rest IH]; intros Hs Hw; [reflexivity|].
  apply StronglySorted_inv in Hs. destruct Hs as [Hs Hlt].
  apply Forall_cons_iff in Hw. destruct Hw as [Hg Hw].
  cbn [batches_from flat_map]. rewrite (IH Hs Hw).
  unfold batch_files at 1. cbn [guide_file files_to_rename].
  assert (Hi : (index g < length all_files)%nat)
    by (apply nth_error_Some; unfold well_placed in Hg; congruence).
  destruct rest as [| next rest'].
  - rewrite app_nil_r, (slice_head all_files (index g) (length all_files) (filename g) Hi Hg).
    apply slice_to_end.
  - apply Forall_cons_iff in Hlt. destruct Hlt as [Hnext _].
    rewrite (slice_head all_files (index g) (index next) (filename g) Hnext Hg).
    apply slice_then_rest. lia.
Qed.

Lemma find_guide_photos_well_placed (all_files : list string) :
  Forall (well_placed all_files) (find_guide_photos all_files).
Proof.
  apply Forall_forall. intros g Hg. now apply find_guide_photos_In in Hg.
Qed.

(** X1. The batches, each with its guide photo first, are the list of files
    from the first guide photo on, in order: every file from there on is
    in exactly one batch, once. *)
Theorem batches_cover_from_first_guide (all_files : list string) :
  flat_map batch_files (build_batches all_files (find_guide_photos all_files))
  = match find_guide_photos all_files with
    | [] => []
    | g0 :: _ => skipn (index g0) all_files
    end.
Proof.
  rewrite build_batches_rec. apply batches_from_cover.
  - apply find_guide_photos_sorted.
  - apply find_guide_photos_well_placed.
Qed.

(** ** The guide photos are the first files of the batches, and only they *)

Lemma StronglySorted_nth {A : Type} (R : A -> A -> Prop) (l : list A) (a b : nat) (x y : A) :
  StronglySorted R l -> (a < b)%nat ->
  nth_error l a = Some x -> nth_error l b = Some y -> R x y.
Proof.
  intros Hs. revert a b. induction Hs as [| z l Hs IH Hall]; intros a b Hab Ha Hb.
  - now destruct a.
  - destruct b as [| b]; [lia|]. simpl in Hb. destruct a as [| a].
    + simpl in Ha. injection Ha as ->. rewrite Forall_forall in Hall.
      apply Hall. eapply nth_error_In; exact Hb.
    + simpl in Ha. apply (IH a b); [lia | exact Ha | exact Hb].
Qed.

Lemma In_tail_slice {A : Type} (l : list A) (a b : nat) (x : A) :
  In x (skipn 1 (Py.slice l a b)) ->
  exists p, (a < p < b)%nat /\ nth_error l p = Some x.
Proof.
  unfold Py.slice. intros H. apply In_nth_error in H. destruct H as [n Hn].
  rewrite nth_error_skipn, nth_error_firstn in Hn.
  destruct (Nat.ltb_spec (1 + n) (b - a)) as [Hlt | Hge]; [|discriminate].
  rewrite nth_error_skipn in Hn. exists (a + (1 + n))%nat. split; [lia | exact Hn].
Qed.

(** No guide photo stands strictly between a guide photo and the next. *)
Lemma no_guide_between (all_files : list string) (k p : nat) (g : guide_info) (f bid : string) :
  nth_error (find_guide_photos all_files) k = Some g ->
  (index g < p)%nat ->
  (forall next, nth_error (find_guide_photos all_files) (k + 1) = Some next ->
                (p < index next)%nat) ->
  nth_error all_files p = Some f ->
  GuidePattern.search f = Some bid -> False.
Proof.
  intros Hk Hlo Hhi Hp Hs.
  assert (Hin : In {| filename := f; index := p; gi_batch_id := bid |}
                   (find_guide_photos all_files))
    by (apply find_guide_photos_In; now split).
  apply In_nth_error in Hin. destruct Hin as [m Hm].
  pose proof (find_guide_photos_sorted all_files) as Hsorted.
  destruct (Nat.lt_trichotomy m k) as [Hmk | [-> | Hmk]].
  - pose proof (StronglySorted_nth _ _ m k _ _ Hsorted Hmk Hm Hk) as H. simpl in H. lia.
  - rewrite Hk in Hm. injection Hm as ->. simpl in Hlo. lia.
  - destruct (nth_error (find_guide_photos all_files) (k + 1)) as [next |] eqn:Hn.
    + specialize (Hhi next eq_refl).
      destruct (Nat.eq_dec m (k + 1)) as [-> | Hne].
      * rewrite Hn in Hm. injection Hm as ->. simpl in Hhi. lia.
      * assert (Hlt : (k + 1 < m)%nat) by lia.
        pose proof (StronglySorted_nth _ _ (k + 1) m _ _ Hsorted Hlt Hn Hm) as H.
        simpl in H. lia.
    + apply nth_error_None in Hn.
      assert (m < length (find_guide_photos all_files))%nat
        by (apply nth_error_Some; congruence).
      assert (Hm' : m = k) by lia. lia.
Qed.

(** X2. In every batch the guide file matches the guide pattern, the batch id
    is the pattern's group, and none of the files to rename matches the
    pattern. *)
Theorem batch_guide_first_and_only (all_files : list string) :
  Forall (fun b => GuidePattern.search (guide_file b) = Some (batch_id b)
                   /\ Forall (fun f => GuidePattern.search f = None) (files_to_rename b))
         (build_batches all_files (find_guide_photos all_files)).
Proof.
  apply Forall_forall. intros b Hb. apply In_build_batches in Hb.
  destruct Hb as (k & g & Hk & ->).
  assert (Hg : In g (find_guide_photos all_files)) by (eapply nth_error_In; exact Hk).
  apply find_guide_photos_In in Hg. destruct Hg as [Hpos Hsearch].
  unfold batch_at. cbn [guide_file batch_id files_to_rename].
  split; [exact Hsearch|].
  apply Forall_forall. intros f Hf. apply In_tail_slice in Hf.
  destruct Hf as (p & [Hlo Hhi] & Hp).
  destruct (GuidePattern.search f) as [bid |] eqn:Hs; [exfalso | reflexivity].
  apply (no_guide_between all_files k p g f bid Hk Hlo); [| exact Hp | exact Hs].
  intros next Hnext. now rewrite Hnext in Hhi.
Qed.

(** ** The whole run of mode 2 when the checks pass *)

Lemma for_fold_sum {A : Type} (ev : A -> list event) (c : A -> nat)
    (body : nat -> A -> M nat) (l : list A) :
  (forall s x, In x l -> body s x = (ev x, Ok (s + c x)%nat)) ->
  forall s, for_fold l s body = (flat_map ev l, Ok (s + list_sum (map c l))%nat).
Proof.
  induction l as [| x l IH]; intros H s; simpl.
  - now rewrite Nat.add_0_r.
  - rewrite (bind_ok _ _ _ _ (H s x (or_introl eq_refl))).
    rewrite IH by (intros s' y Hy; apply H; now right).
    rewrite trace_pair, outcome_pair. f_equal. f_equal. lia.
Qed.

Lemma list_sum_indicator {A : Type} (p : A -> bool) (l : list A) :
  list_sum (map (fun x => if p x then 1 else 0)%nat l) = length (filter p l).
Proof.
  induction l as [| x l IH]; [reflexivity|].
  simpl. destruct (p x); simpl; now rewrite IH.
Qed.

Section CountedRun.

Variables (copy2 : path -> path -> bool) (base_work_dir : path)
          (region_code date_code : string) (single_folder_path : path)
          (angle_num : Z).

Let renamed_dir_path : path := OsPath.join base_work_dir RENAMED_FOLDER_NAME.

Lemma rename_one_counted (bid : string) (total : nat) (j : nat) (f : string) :
  (0 < angle_num)%Z ->
  rename_one copy2 region_code date_code single_folder_path angle_num
    renamed_dir_path (map label (Py.range angle_num)) bid total (j, f)
  = (file_events copy2 region_code date_code single_folder_path angle_num
       renamed_dir_path bid (j, f),
     Ok (total + (if copy2 (OsPath.join single_folder_path f)
                           (OsPath.join renamed_dir_path
                              (new_name region_code date_code angle_num bid j f))
                  then 1 else 0))%nat).
Proof.
  intros Hpos. unfold rename_one, floordiv, modulo.
  replace (angle_num =? 0)%Z with false by (symmetry; apply Z.eqb_neq; lia).
  rewrite !bind_ret.
  rewrite getitem_label by (apply Z.mod_pos_bound; lia).
  rewrite bind_ret. fold (new_name region_code date_code angle_num bid j f).
  rewrite (bind_ok _ _ _ _ (try_copy_eq copy2 _ _ _ _)).
  unfold file_events. cbn [trace outcome ret fst snd]. rewrite app_nil_r.
  destruct (copy2 _ _); [reflexivity | now rewrite Nat.add_0_r].
Qed.

Lemma process_batch_counted (total i : nat) (b : batch) :
  (0 < angle_num)%Z \/ files_to_rename b = [] ->
  process_batch copy2 region_code date_code single_folder_path angle_num
    renamed_dir_path (map label (Py.range angle_num)) total (i, b)
  = (batch_events copy2 region_code date_code single_folder_path angle_num
       renamed_dir_path (i, b),
     Ok (total + renamed_in_batch copy2 region_code date_code single_folder_path
                   angle_num renamed_dir_path b)%nat).
Proof.
  intros H. unfold process_batch, renamed_in_batch. rewrite bind_print. cbv beta.
  rewrite (bind_ok _ _ _ _ (try_copy_eq copy2 _ _ _ _)).
  rewrite (for_fold_sum
             (file_events copy2 region_code date_code single_folder_path angle_num
                renamed_dir_path (batch_id b))
             (fun '(j, f) =>
                if copy2 (OsPath.join single_folder_path f)
                         (OsPath.join renamed_dir_path
                            (new_name region_code date_code angle_num (batch_id b) j f))
                then 1 else 0)%nat).
  - rewrite !trace_pair, !outcome_pair.
    rewrite <- list_sum_indicator. unfold batch_events. cbn [app].
    f_equal. f_equal. f_equal. f_equal. apply map_ext. now intros [j f].
  - intros s [j f] Hin. destruct H as [Hpos | Hnil].
    + now apply rename_one_counted.
    + rewrite Hnil in Hin. contradiction.
Qed.

Lemma copy_phase_counted (all_files : list string) (n : nat) :
  (angle_num <= max_angle_num)%Z ->
  (0 < angle_num)%Z
  \/ Forall (fun b => files_to_rename b = [])
            (build_batches all_files (find_guide_photos all_files)) ->
  copy_phase copy2 region_code date_code single_folder_path angle_num
    renamed_dir_path all_files (find_guide_photos all_files)
    (build_batches all_files (find_guide_photos all_files)) n
  = ([Print (MsgProcessingSingle single_folder_path);
      Print (MsgDetected (length (build_batches all_files (find_guide_photos all_files)))
               n angle_num)]
       ++ flat_map (batch_events copy2 region_code date_code single_folder_path
                      angle_num renamed_dir_path)
                   (Py.enumerate (build_batches all_files (find_guide_photos all_files)))
       ++ [Print (MsgSingleDone
                    (list_sum (map (renamed_in_batch copy2 region_code date_code
                                      single_folder_path angle_num renamed_dir_path)
                                   (build_batches all_files (find_guide_photos all_files)))))],
     Ok tt).
Proof.
  intros Hmax H. unfold copy_phase. rewrite !bind_print. cbv beta.
  rewrite make_group_labels_ok by exact Hmax. rewrite bind_ret.
  rewrite (for_fold_sum
             (batch_events copy2 region_code date_code single_folder_path angle_num
                renamed_dir_path)
             (fun ib => renamed_in_batch copy2 region_code date_code single_folder_path
                          angle_num renamed_dir_path (snd ib))).
  - rewrite (bind_ok _ _ _ _ eq_refl), check_remaining_returns, bind_ret.
    rewrite <- (map_map snd), map_snd_enumerate. reflexivity.
  - intros s [i b] Hin. cbn [snd]. apply process_batch_counted.
    destruct H as [Hpos | Hnil]; [now left | right].
    rewrite Forall_forall in Hnil. apply Hnil. eapply In_enumerate_In; exact Hin.
Qed.

End CountedRun.

Section RunsOfModeTwo.

Variables (copy2 : path -> path -> bool) (base_work_dir : path)
          (region_code date_code : string) (single_folder_path : path)
          (angle_num : Z).

Let renamed_dir_path : path := OsPath.join base_work_dir RENAMED_FOLDER_NAME.

Let run := rename_and_copy_single_folder_mode copy2 base_work_dir region_code date_code
             single_folder_path angle_num true.

Lemma run_after_consistency (listing : list string) (b0 : batch) :
  let all_files := Py.sorted (filter is_supported listing) in
  let batches := build_batches all_files (find_guide_photos all_files) in
  nth_error batches 0 = Some b0 ->
  (forall b, In b batches -> length (files_to_rename b) = length (files_to_rename b0)) ->
  run listing
  = ([Makedirs renamed_dir_path; Print (MsgRenamedDir renamed_dir_path)]
       ++ trace (go <- divisible angle_num (length (files_to_rename b0)) ;;
                 if go : bool then
                   copy_phase copy2 region_code date_code single_folder_path angle_num
                     renamed_dir_path all_files (find_guide_photos all_files) batches
                     (length (files_to_rename b0))
                 else ret tt),
     outcome (go <- divisible angle_num (length (files_to_rename b0)) ;;
              if go : bool then
                copy_phase copy2 region_code date_code single_folder_path angle_num
                  renamed_dir_path all_files (find_guide_photos all_files) batches
                  (length (files_to_rename b0))
              else ret tt)).
Proof.
  intros all_files batches H0 Hall.
  destruct batches as [| b bs] eqn:Eb; [discriminate|].
  simpl in H0. injection H0 as ->.
  unfold run, renamed_dir_path. rewrite run_group_and_copy.
  - fold all_files.
    rewrite (group_and_copy_steps _ _ _ _ _ _ all_files b0 bs Eb).
    replace (forallb _ (b0 :: bs)) with true
      by (symmetry; apply forallb_forall; intros b Hb; apply Nat.eqb_eq; now apply Hall).
    rewrite andb_false_r. reflexivity.
  - fold all_files. apply guides_nonempty_files_nonempty.
    apply batches_nonempty_guides_nonempty. fold batches. now rewrite Eb.
Qed.

Lemma passing_run_counted (listing : list string) (b0 : batch) :
  let all_files := Py.sorted (filter is_supported listing) in
  let batches := build_batches all_files (find_guide_photos all_files) in
  (0 < angle_num <= max_angle_num)%Z ->
  nth_error batches 0 = Some b0 ->
  (forall b, In b batches -> length (files_to_rename b) = length (files_to_rename b0)) ->
  (Z.of_nat (length (files_to_rename b0)) mod angle_num = 0)%Z ->
  run listing
  = ([Makedirs renamed_dir_path; Print (MsgRenamedDir renamed_dir_path)]
       ++ (if (length (files_to_rename b0) =? 0)%nat
           then [Print WarnNothingToProcess] else [])
       ++ [Print (MsgProcessingSingle single_folder_path);
           Print (MsgDetected (length batches) (length (files_to_rename b0)) angle_num)]
       ++ flat_map (batch_events copy2 region_code date_code single_folder_path
                      angle_num renamed_dir_path)
                   (Py.enumerate batches)
       ++ [Print (MsgSingleDone
                    (list_sum (map (renamed_in_batch copy2 region_code date_code
                                      single_folder_path angle_num renamed_dir_path)
                                   batches)))],
     Ok tt).
Proof.
  intros all_files batches Hrange H0 Hall Hdiv.
  rewrite (run_after_consistency listing b0 H0 Hall).
  rewrite (bind_ok _ _ _ _ (divisible_passes angle_num Hrange _ Hdiv)).
  unfold batches, renamed_dir_path.
  rewrite copy_phase_counted; [| lia | left; lia].
  rewrite !trace_pair, !outcome_pair. reflexivity.
Qed.

End RunsOfModeTwo.

(** X3. The whole run when the checks pass, for [angle_num] from 1 to 55231:
    the lines and the copies, batch by batch, and at the end the count of the
    files whose copy under a new name was made; the copies of the guide
    photos are not counted. *)
Theorem passing_run_trace_and_count
    (copy2 : path -> path -> bool) (base_work_dir : path)
    (region_code date_code : string) (single_folder_path : path) (angle_num : Z)
    (listing : list string) (b0 : batch) :
  let all_files := Py.sorted (filter is_supported listing) in
  let batches := build_batches all_files (find_guide_photos all_files) in
  let renamed_dir_path := OsPath.join base_work_dir RENAMED_FOLDER_NAME in
  (0 < angle_num <= max_encodable_angle_num)%Z ->
  nth_error batches 0 = Some b0 ->
  (forall b, In b batches -> length (files_to_rename b) = length (files_to_rename b0)) ->
  (Z.of_nat (length (files_to_rename b0)) mod angle_num = 0)%Z ->
  rename_and_copy_single_folder_mode copy2 base_work_dir region_code date_code
    single_folder_path angle_num true listing
  = ([Makedirs renamed_dir_path; Print (MsgRenamedDir renamed_dir_path)]
       ++ (if (length (files_to_rename b0) =? 0)%nat
           then [Print WarnNothingToProcess] else [])
       ++ [Print (MsgProcessingSingle single_folder_path);
           Print (MsgDetected (length batches) (length (files_to_rename b0)) angle_num)]
       ++ flat_map (batch_events copy2 region_code date_code single_folder_path
                      angle_num renamed_dir_path)
                   (Py.enumerate batches)
       ++ [Print (MsgSingleDone
                    (list_sum (map (renamed_in_batch copy2 region_code date_code
                                      single_folder_path angle_num renamed_dir_path)
                                   batches)))],
     Ok tt).
Proof.
  intros all_files batches renamed_dir_path Hrange H0 Hall Hdiv.
  apply encodable_labels_exist in Hrange.
  now apply passing_run_counted.
Qed.

Lemma flat_map_step {A B : Type} (f : A -> list B) (x : A) (l : list A) :
  flat_map f (x :: l) = f x ++ flat_map f l.
Proof. reflexivity. Qed.

Lemma copied_sources_batch_events (copy2 : path -> path -> bool)
    (region_code date_code : string) (single_folder_path : path) (angle_num : Z)
    (renamed_dir_path : path) (batches : list batch) :
  copied_sources (flat_map (batch_events copy2 region_code date_code single_folder_path
                              angle_num renamed_dir_path) (Py.enumerate batches))
  = flat_map batch_files batches.
Proof.
  unfold copied_sources. rewrite copy_calls_batch_events, map_snd_enumerate.
  induction batches as [| b bs IH]; [reflexivity|].
  rewrite !flat_map_step, map_app, IH. f_equal.
  unfold batch_files. cbn [map fst]. rewrite basename_join. f_equal.
  rewrite map_map. rewrite <- (map_snd_enumerate (files_to_rename b)) at 2.
  apply map_ext. intros [j f]. cbn [fst snd]. apply basename_join.
Qed.

(** X4. When the checks pass, for [angle_num] from 1 to 55231, the files
    copied are, in the order of the copies, the sorted list from the first
    guide photo on: each of these files is copied once, no other file is. *)
Theorem passing_run_copies_each_file_once
    (copy2 : path -> path -> bool) (base_work_dir : path)
    (region_code date_code : string) (single_folder_path : path) (angle_num : Z)
    (listing : list string) (b0 : batch) (g0 : guide_info) :
  let all_files := Py.sorted (filter is_supported listing) in
  let batches := build_batches all_files (find_guide_photos all_files) in
  (0 < angle_num <= max_encodable_angle_num)%Z ->
  nth_error (find_guide_photos all_files) 0 = Some g0 ->
  nth_error batches 0 = Some b0 ->
  (forall b, In b batches -> length (files_to_rename b) = length (files_to_rename b0)) ->
  (Z.of_nat (length (files_to_rename b0)) mod angle_num = 0)%Z ->
  copied_sources
    (trace (rename_and_copy_single_folder_mode copy2 base_work_dir region_code date_code
              single_folder_path angle_num true listing))
  = skipn (index g0) all_files.
Proof.
  intros all_files batches Hrange Hg0 H0 Hall Hdiv.
  apply encodable_labels_exist in Hrange.
  rewrite (passing_run_counted copy2 base_work_dir region_code date_code
             single_folder_path angle_num listing b0 Hrange H0 Hall Hdiv).
  fold all_files. fold batches. rewrite trace_pair.
  unfold copied_sources. rewrite !copy_calls_app, !map_app.
  fold (copied_sources (flat_map (batch_events copy2 region_code date_code
                                    single_folder_path angle_num
                                    (OsPath.join base_work_dir RENAMED_FOLDER_NAME))
                                 (Py.enumerate batches))).
  rewrite copied_sources_batch_events.
  replace (copy_calls (if (length (files_to_rename b0) =? 0)%nat
                       then [Print WarnNothingToProcess] else []))
    with (@nil (path * path * bool))
    by now destruct (length (files_to_rename b0) =? 0)%nat.
  cbn [copy_calls flat_map map app]. rewrite app_nil_r.
  unfold batches.
  rewrite build_batches_rec,
    (batches_from_cover all_files _ (find_guide_photos_sorted all_files)
       (find_guide_photos_well_placed all_files)).
  destruct (find_guide_photos all_files) as [| g gs]; [discriminate|].
  simpl in Hg0. now injection Hg0 as ->.
Qed.

(** X5. When the batches agree on a count that is not a multiple of a
    non-zero [angle_num], the run prints the two lines of the error and
    returns; the output directory has been created and nothing is copied. *)
Theorem count_not_multiple_aborts
    (copy2 : path -> path -> bool) (base_work_dir : path)
    (region_code date_code : string) (single_folder_path : path) (angle_num : Z)
    (listing : list string) (b0 : batch) :
  let all_files := Py.sorted (filter is_supported listing) in
  let batches := build_batches all_files (find_guide_photos all_files) in
  let renamed_dir_path := OsPath.join base_work_dir RENAMED_FOLDER_NAME in
  angle_num <> 0%Z ->
  nth_error batches 0 = Some b0 ->
  (forall b, In b batches -> length (files_to_rename b) = length (files_to_rename b0)) ->
  (Z.of_nat (length (files_to_rename b0)) mod angle_num <> 0)%Z ->
  rename_and_copy_single_folder_mode copy2 base_work_dir region_code date_code
    single_folder_path angle_num true listing
  = ([Makedirs renamed_dir_path; Print (MsgRenamedDir renamed_dir_path);
      Print (ErrNotMultiple (length (files_to_rename b0)) angle_num);
      Print MsgCheckAngleNum],
     Ok tt).
Proof.
  intros all_files batches renamed_dir_path Hnz H0 Hall Hdiv.
  rewrite (run_after_consistency copy2 base_work_dir region_code date_code
             single_folder_path angle_num listing b0 H0 Hall).
  unfold divisible, modulo.
  destruct (length (files_to_rename b0)) as [| n] eqn:En.
  - exfalso. apply Hdiv. apply Z.mod_0_l. exact Hnz.
  - cbn [Nat.eqb].
    replace (angle_num =? 0)%Z with false by (symmetry; now apply Z.eqb_neq).
    rewrite bind_ret.
    replace (Z.of_nat (S n) mod angle_num =? 0)%Z with false
      by (symmetry; now apply Z.eqb_neq).
    reflexivity.
Qed.

Lemma no_guide_photo_found (all_files : list string) :
  (forall f, In f all_files -> GuidePattern.search f = None) ->
  find_guide_photos all_files = [].
Proof.
  intros H. destruct (find_guide_photos all_files) as [| g gs] eqn:E; [reflexivity|].
  assert (Hg : In g (find_guide_photos all_files)) by (rewrite E; now left).
  apply find_guide_photos_In in Hg. destruct Hg as [Hn Hs].
  apply nth_error_In in Hn. rewrite (H _ Hn) in Hs. discriminate.
Qed.

Lemma In_all_files (listing : list string) (f : string) :
  In f (Py.sorted (filter is_supported listing)) <-> In f listing /\ is_supported f = true.
Proof.
  rewrite <- filter_In. unfold Py.sorted. split; intros H.
  - eapply Permutation_in; [apply Permutation_sym, Py.StringSort.Permuted_sort | exact H].
  - eapply Permutation_in; [apply Py.StringSort.Permuted_sort | exact H].
Qed.

(** X6. When no supported file of the folder matches the guide pattern, the
    run creates the output directory, prints one line (no image found, or no
    guide photo found) and returns: nothing is copied. *)
Theorem no_guide_photo_aborts
    (copy2 : path -> path -> bool) (base_work_dir : path)
    (region_code date_code : string) (single_folder_path : path) (angle_num : Z)
    (listing : list string) :
  let renamed_dir_path := OsPath.join base_work_dir RENAMED_FOLDER_NAME in
  (forall f, In f listing -> is_supported f = true -> GuidePattern.search f = None) ->
  rename_and_copy_single_folder_mode copy2 base_work_dir region_code date_code
    single_folder_path angle_num true listing
  = ([Makedirs renamed_dir_path; Print (MsgRenamedDir renamed_dir_path);
      Print (if forallb (fun f => negb (is_supported f)) listing
             then WarnNoImages single_folder_path
             else ErrNoGuidePhoto single_folder_path)],
     Ok tt).
Proof.
  intros renamed_dir_path H.
  assert (Hg : find_guide_photos (Py.sorted (filter is_supported listing)) = []).
  { apply no_guide_photo_found. intros f Hf. apply In_all_files in Hf. now apply H. }
  unfold rename_and_copy_single_folder_mode. cbn [negb].
  rewrite (bind_ok _ _ _ _ (create_renamed_directory_eq base_work_dir)).
  fold renamed_dir_path.
  destruct (Py.sorted (filter is_supported listing)) as [| f0 l] eqn:E.
  - replace (forallb (fun f => negb (is_supported f)) listing) with true; [reflexivity|].
    symmetry. apply forallb_forall. intros f Hf.
    destruct (is_supported f) eqn:Hsup; [|reflexivity].
    assert (Hin : In f (Py.sorted (filter is_supported listing)))
      by (apply In_all_files; now split).
    rewrite E in Hin. contradiction.
  - replace (forallb (fun f => negb (is_supported f)) listing) with false.
    + unfold group_and_copy. rewrite Hg. reflexivity.
    + symmetry. apply not_true_is_false. intros Hall. rewrite forallb_forall in Hall.
      assert (Hin : In f0 (Py.sorted (filter is_supported listing)))
        by (rewrite E; now left).
      apply In_all_files in Hin. destruct Hin as [Hin Hsup].
      specialize (Hall f0 Hin). rewrite Hsup in Hall. discriminate.
Qed.

Lemma flat_map_agree {A B : Type} (f g : A -> list B) (l : list A) :
  (forall x, In x l -> f x = g x) -> flat_map f l = flat_map g l.
Proof.
  induction l as [| x l IH]; intros H; [reflexivity|].
  rewrite !flat_map_step, (H x (or_introl eq_refl)), IH; [reflexivity|].
  intros y Hy. apply H. now right.
Qed.

Lemma no_file_renamed (copy2 : path -> path -> bool)
    (region_code date_code : string) (single_folder_path : path) (angle_num : Z)
    (renamed_dir_path : path) (batches : list batch) :
  Forall (fun b => files_to_rename b = []) batches ->
  list_sum (map (renamed_in_batch copy2 region_code date_code single_folder_path
                   angle_num renamed_dir_path) batches) = 0%nat.
Proof.
  induction 1 as [| b bs Hb Hbs IH]; [reflexivity|].
  unfold list_sum in *. cbn [map fold_right]. rewrite IH.
  unfold renamed_in_batch. now rewrite Hb.
Qed.

(** X7. When every batch is a guide photo alone, the divisibility check is
    not made: for every [angle_num] whose labels exist, zero and the negative
    ones included, the run prints the warning, copies each guide photo under
    its own name, reports a count of zero and returns. *)
Theorem guide_photos_alone_are_copied
    (copy2 : path -> path -> bool) (base_work_dir : path)
    (region_code date_code : string) (single_folder_path : path) (angle_num : Z)
    (listing : list string) (b0 : batch) :
  let all_files := Py.sorted (filter is_supported listing) in
  let batches := build_batches all_files (find_guide_photos all_files) in
  let renamed_dir_path := OsPath.join base_work_dir RENAMED_FOLDER_NAME in
  (angle_num <= max_angle_num)%Z ->
  nth_error batches 0 = Some b0 ->
  Forall (fun b => files_to_rename b = []) batches ->
  rename_and_copy_single_folder_mode copy2 base_work_dir region_code date_code
    single_folder_path angle_num true listing
  = ([Makedirs renamed_dir_path; Print (MsgRenamedDir renamed_dir_path);
      Print WarnNothingToProcess;
      Print (MsgProcessingSingle single_folder_path);
      Print (MsgDetected (length batches) 0 angle_num)]
       ++ flat_map
            (fun '(i, b) =>
               let src := OsPath.join single_folder_path (guide_file b) in
               let dst := OsPath.join renamed_dir_path (guide_file b) in
               [Print (MsgBatch (i + 1) (guide_file b) (batch_id b));
                Copy2 src dst (copy2 src dst);
                Print (if copy2 src dst then MsgGuideCopied (guide_file b)
                       else ErrGuideCopyFailed (guide_file b))])
            (Py.enumerate batches)
       ++ [Print (MsgSingleDone 0)],
     Ok tt).
Proof.
  intros all_files batches renamed_dir_path Hmax H0 Hnil.
  pose proof Hnil as Hnil'. rewrite Forall_forall in Hnil'.
  assert (Hb0 : files_to_rename b0 = [])
    by (apply Hnil'; eapply nth_error_In; exact H0).
  rewrite (run_after_consistency copy2 base_work_dir region_code date_code
             single_folder_path angle_num listing b0 H0).
  - fold all_files. fold batches. rewrite Hb0. cbn [length].
    rewrite (bind_ok _ _ [Print WarnNothingToProcess] true eq_refl).
    unfold batches.
    rewrite copy_phase_counted; [| exact Hmax | right; exact Hnil].
    fold batches. rewrite !trace_pair, !outcome_pair.
    rewrite no_file_renamed by exact Hnil.
    cbn [app]. f_equal. f_equal. f_equal. f_equal. f_equal. f_equal. f_equal.
    apply flat_map_agree. intros [i b] Hin. apply In_enumerate_In in Hin.
    unfold batch_events. rewrite (Hnil' b Hin). reflexivity.
  - fold all_files. fold batches. intros b Hb. now rewrite (Hnil' b Hb), Hb0.
Qed.

(** ** What mode 2 reads and writes *)

Lemma Forall_copy_calls (P : path * path * bool -> Prop) (t : list event) :
  Forall (fun e => match e with Copy2 src dst ok => P (src, dst, ok) | _ => True end) t ->
  Forall P (copy_calls t).
Proof.
  induction 1 as [| e t He Ht IH]; [constructor|].
  destruct e as [m | p | src dst ok]; try exact IH.
  rewrite copy_calls_copy. now constructor.
Qed.

Lemma batch_file_listed (listing : list string) (b : batch) (f : string) :
  let all_files := Py.sorted (filter is_supported listing) in
  In b (build_batches all_files (find_guide_photos all_files)) ->
  f = guide_file b \/ In f (files_to_rename b) ->
  In f listing /\ is_supported f = true.
Proof.
  intros all_files Hb Hf.
  destruct (batch_files_position all_files b f Hb Hf) as (g & p & _ & _ & Hp).
  apply nth_error_In in Hp. now apply In_all_files.
Qed.

(** ** The extension of a supported file *)

Lemma length_lower (s : string) : String.length (Py.lower s) = String.length s.
Proof. induction s as [| c s IH]; simpl; [reflexivity | now rewrite IH]. Qed.

Lemma lower_drop (n : nat) (s : string) : Py.lower (Py.drop n s) = Py.drop n (Py.lower s).
Proof.
  revert s. induction n as [| n IH]; intros s; [reflexivity|].
  destruct s as [| c s]; [reflexivity | apply IH].
Qed.

Lemma lower_append (s t : string) : Py.lower (s ++ t) = (Py.lower s ++ Py.lower t)%string.
Proof. induction s as [| c s IH]; simpl; [reflexivity | now rewrite IH]. Qed.

Lemma take_drop (n : nat) (s : string) : (Py.take n s ++ Py.drop n s)%string = s.
Proof.
  revert s. induction n as [| n IH]; intros s; [now destruct s|].
  destruct s as [| c s]; [reflexivity|]. simpl. now rewrite IH.
Qed.

Lemma endswith_append (s suffix : string) : Py.endswith (s ++ suffix) suffix = true.
Proof.
  unfold Py.endswith. rewrite length_append. apply andb_true_iff. split.
  - apply Nat.leb_le. lia.
  - replace (String.length s + String.length suffix - String.length suffix)%nat
      with (String.length s) by lia.
    rewrite drop_app. apply String.eqb_refl.
Qed.

Lemma supported_extension_shape (alt : string) :
  In alt SUPPORTED_IMAGE_EXTENSIONS ->
  exists a, alt = String "." a /\ contains "." a = false /\ contains "/" a = false.
Proof.
  intros H. repeat (destruct H as [<- | H]; [eexists; repeat split|]). contradiction.
Qed.

Lemma lower_shape (e a : string) :
  Py.lower e = String "." a ->
  exists r, e = String "." r /\ Py.lower r = a.
Proof.
  destruct e as [| c r]; [discriminate|]. simpl. intros H. injection H as Hc Hr.
  exists r. split; [|exact Hr]. f_equal.
  apply Ascii.eqb_eq. rewrite <- lower_ascii_dot, Hc. reflexivity.
Qed.

(** What [splitext] gives for a name that ends in a dot and characters that
    are neither the dot nor the separator. *)
Lemma splitext_last_dot (pre r : string) :
  contains "." r = false -> contains "/" r = false ->
  OsPath.splitext (pre ++ String "." r) = (pre, String "." r)
  \/ OsPath.splitext (pre ++ String "." r) = ((pre ++ String "." r)%string, "").
Proof.
  intros Hd Hs. unfold OsPath.splitext.
  assert (Hdot : Py.rfind (pre ++ String "." r) "." = Z.of_nat (String.length pre)).
  { unfold Py.rfind. rewrite rfind_from_app. cbn [Py.rfind_from].
    rewrite Ascii.eqb_refl. now rewrite rfind_from_absent. }
  rewrite Hdot. destruct (_ && _); [left | now right].
  rewrite Nat2Z.id, take_app, drop_app. reflexivity.
Qed.

(** X9. The extension given to the copy of a supported file is one of the six
    supported extensions, in lower case, or empty (when [splitext] finds no
    extension, as for a name made of dots before the extension); and a name
    made of a stem that ends in a character other than the dot and the
    separator, followed by a supported extension in any case, is supported and
    has that extension. *)
Theorem supported_file_extension (f : string) :
  (is_supported f = true ->
   Py.lower (snd (OsPath.splitext f)) = ""
   \/ In (Py.lower (snd (OsPath.splitext f))) SUPPORTED_IMAGE_EXTENSIONS)
  /\ (forall s x ext,
        f = ((s ++ String x "") ++ ext)%string ->
        x <> "."%char -> x <> "/"%char ->
        In (Py.lower ext) SUPPORTED_IMAGE_EXTENSIONS ->
        is_supported f = true /\ OsPath.splitext f = ((s ++ String x "")%string, ext)).
Proof.
  split.
  - intros H. unfold is_supported, Py.endswith_any in H.
    apply existsb_exists in H. destruct H as (alt & Halt & Hend).
    destruct (supported_extension_shape alt Halt) as (a & -> & Had & Has).
    assert (Hlen : (String.length (String "." a) <= String.length f)%nat).
    { unfold Py.endswith in Hend. apply andb_true_iff in Hend.
      destruct Hend as [Hle _]. apply Nat.leb_le in Hle. now rewrite length_lower in Hle. }
    assert (He : Py.lower (Py.drop (String.length f - String.length (String "." a)) f)
                 = String "." a).
    { unfold Py.endswith in Hend. apply andb_true_iff in Hend. destruct Hend as [_ Heq].
      apply String.eqb_eq in Heq. rewrite length_lower in Heq. now rewrite lower_drop. }
    destruct (lower_shape _ _ He) as (r & Hr & Hlr).
    assert (Hf : f = (Py.take (String.length f - String.length (String "." a)) f
                        ++ String "." r)%string)
      by (rewrite <- Hr; symmetry; apply take_drop).
    assert (Hrd : contains "." r = false) by (now rewrite <- contains_lower_dot, Hlr).
    assert (Hrs : contains "/" r = false) by (now rewrite <- contains_lower_slash, Hlr).
    destruct (splitext_last_dot (Py.take (String.length f - String.length (String "." a)) f)
                r Hrd Hrs) as [E | E]; rewrite <- Hf in E; rewrite E; cbn [snd].
    + right. cbn [Py.lower]. rewrite Hlr.
      replace (Py.lower_ascii ".") with "."%char by reflexivity. exact Halt.
    + now left.
  - intros s x ext -> Hxd Hxs Hext.
    destruct (supported_extension_shape _ Hext) as (a & Ha & Had & Has).
    destruct (lower_shape _ _ Ha) as (r & -> & Hlr).
    split.
    + unfold is_supported, Py.endswith_any. apply existsb_exists.
      exists (Py.lower (String "." r)). split; [exact Hext|].
      rewrite lower_append. apply endswith_append.
    + apply splitext_stem_ext; [exact Hxd | exact Hxs | |].
      * now rewrite <- contains_lower_dot, Hlr.
      * now rewrite <- contains_lower_slash, Hlr.
Qed.

(** ** The guide pattern *)

Lemma literal_sound (lit r r' : string) :
  GuidePattern.literal lit r = Some r' ->
  exists e, r = (e ++ r')%string /\ Py.lower e = Py.lower lit.
Proof.
  revert r. induction lit as [| a lit IH]; intros r H.
  - simpl in H. injection H as <-. now exists "".
  - destruct r as [| b r]; [discriminate|]. simpl in H.
    destruct (Ascii.eqb_spec (Py.lower_ascii a) (Py.lower_ascii b)) as [E | E]; [|discriminate].
    destruct (IH r H) as (e & -> & He). exists (String b e). split; [reflexivity|].
    simpl. now rewrite He, E.
Qed.

Lemma literal_complete (lit e r' : string) :
  Py.lower e = Py.lower lit -> GuidePattern.literal lit (e ++ r') = Some r'.
Proof.
  revert e. induction lit as [| a lit IH]; intros e H.
  - destruct e; [reflexivity | discriminate].
  - destruct e as [| b e]; [discriminate|]. simpl in H. injection H as Hb He.
    simpl. rewrite Hb, Ascii.eqb_refl. now apply IH.
Qed.

Lemma at_end_iff (s : string) :
  GuidePattern.at_end s = true <-> s = "" \/ s = String "010" "".
Proof.
  split.
  - destruct s as [| c [| d s]]; simpl; [now left | | ].
    + destruct c as [[] [] [] [] [] [] [] []]; try discriminate. now right.
    + destruct c as [[] [] [] [] [] [] [] []]; discriminate.
  - intros [-> | ->]; reflexivity.
Qed.

Lemma alternative_lower_length (alt : string) :
  In alt GuidePattern.alternatives ->
  Py.lower alt = alt /\ (3 <= String.length alt <= 4)%nat.
Proof.
  intros H. repeat (destruct H as [<- | H]; [split; [reflexivity | simpl; lia]|]).
  contradiction.
Qed.

Lemma match_here_iff (s g : string) :
  GuidePattern.match_here s = Some g <->
  exists a b e tail,
    s = String "-" (String a (String b (String "." (e ++ tail))))
    /\ g = String a (String b "")
    /\ GuidePattern.is_alnum a = true /\ GuidePattern.is_alnum b = true
    /\ In (Py.lower e) GuidePattern.alternatives
    /\ (tail = "" \/ tail = String "010" "").
Proof.
  split.
  - intros H. unfold GuidePattern.match_here in H.
    destruct s as [| c0 [| a [| b [| c3 rest]]]]; try discriminate;
      try (destruct c0 as [[] [] [] [] [] [] [] []]; discriminate).
    destruct (Ascii.eqb_spec c0 "-") as [-> | Hc0];
      [| destruct c0 as [[] [] [] [] [] [] [] []]; try discriminate; now contradiction Hc0].
    destruct (Ascii.eqb_spec c3 ".") as [-> | Hc3];
      [| destruct c3 as [[] [] [] [] [] [] [] []]; try discriminate; now contradiction Hc3].
    destruct (GuidePattern.is_alnum a) eqn:Ha; [|discriminate].
    destruct (GuidePattern.is_alnum b) eqn:Hb; [|discriminate].
    cbn [andb] in H.
    destruct (existsb _ GuidePattern.alternatives) eqn:Hex; [|discriminate].
    injection H as <-. apply existsb_exists in Hex. destruct Hex as (alt & Halt & Hm).
    destruct (GuidePattern.literal alt rest) as [r |] eqn:Hl; [|discriminate].
    destruct (literal_sound _ _ _ Hl) as (e & -> & He).
    exists a, b, e, r. repeat split; trivial.
    + rewrite He. now rewrite (proj1 (alternative_lower_length alt Halt)).
    + now apply at_end_iff.
  - intros (a & b & e & tail & -> & -> & Ha & Hb & He & Ht).
    unfold GuidePattern.match_here. rewrite Ha, Hb. cbn [andb].
    replace (existsb _ GuidePattern.alternatives) with true; [reflexivity|].
    symmetry. apply existsb_exists. exists (Py.lower e). split; [exact He|].
    rewrite literal_complete by (symmetry; apply lower_idempotent).
    now apply at_end_iff.
Qed.

Lemma search_found (s g : string) :
  GuidePattern.search s = Some g ->
  exists pre rest, s = (pre ++ rest)%string /\ GuidePattern.match_here rest = Some g.
Proof.
  induction s as [| c s IH]; intros H.
  - discriminate H.
  - cbn [GuidePattern.search] in H.
    destruct (GuidePattern.match_here (String c s)) as [g' |] eqn:Hm.
    + injection H as ->. now exists "", (String c s).
    + destruct (IH H) as (pre & rest & -> & Hr). now exists (String c pre), rest.
Qed.

Lemma alnum_not_dash : GuidePattern.is_alnum "-" = false.
Proof. reflexivity. Qed.

(** The pattern matches at one place at most: not before a place where it
    matches. *)
Lemma no_earlier_match (c : ascii) (pre core g : string) :
  GuidePattern.match_here core = Some g ->
  GuidePattern.match_here (String c (pre ++ core)) = None.
Proof.
  intros Hcore.
  destruct (GuidePattern.match_here (String c (pre ++ core))) as [g' |] eqn:Hm;
    [exfalso | reflexivity].
  apply match_here_iff in Hcore, Hm.
  destruct Hcore as (a & b & e & tail & -> & _ & Ha & Hb & He & Ht).
  destruct Hm as (a' & b' & e' & tail' & Heq & _ & Ha' & Hb' & He' & Ht').
  destruct pre as [| x [| y [| z pre]]]; cbn [append] in Heq.
  - injection Heq as _ E _. subst a'. now rewrite alnum_not_dash in Ha'.
  - injection Heq as _ _ E _. subst b'. now rewrite alnum_not_dash in Hb'.
  - injection Heq as _ _ _ E. discriminate.
  - injection Heq as _ _ _ _ E. apply (f_equal String.length) in E.
    rewrite !length_append in E. cbn [String.length] in E. rewrite length_append in E.
    apply alternative_lower_length in He, He'.
    rewrite length_lower in He, He'.
    assert (String.length tail' <= 1)%nat by (destruct Ht' as [-> | ->]; simpl; lia).
    lia.
Qed.

Lemma search_at (pre core g : string) :
  GuidePattern.match_here core = Some g -> GuidePattern.search (pre ++ core) = Some g.
Proof.
  intros H. induction pre as [| c pre IH].
  - cbn [append]. destruct core as [| c core]; [discriminate H|].
    cbn [GuidePattern.search]. now rewrite H.
  - cbn [append GuidePattern.search]. now rewrite (no_earlier_match c pre core g H).
Qed.

(** X10. The guide pattern finds a batch id in an ASCII name exactly when the
    name ends in ['-'], two letters or digits, a dot and one of the six
    extensions in any case (a newline may follow); the batch id is these two
    characters, as they are written. *)
Theorem guide_pattern_matches_suffix (s g : string) :
  is_ascii s = true ->
  GuidePattern.search s = Some g <-> guide_shape s g.
Proof.
  intros _. unfold guide_shape. split.
  - intros H. destruct (search_found s g H) as (pre & rest & -> & Hm).
    apply match_here_iff in Hm.
    destruct Hm as (a & b & e & tail & -> & Hg & Ha & Hb & He & Ht).
    now exists pre, a, b, e, tail.
  - intros (pre & a & b & e & tail & -> & Hg & Ha & Hb & He & Ht).
    apply search_at. apply match_here_iff. now exists a, b, e, tail.
Qed.

(** ** Mode 1: the destinations, the note, the output folder *)

Lemma append_cancel_l (p x y : string) : (p ++ x = p ++ y)%string -> x = y.
Proof. induction p as [| c p IH]; simpl; intros H; [exact H | injection H as H; auto]. Qed.

Lemma sample_name_index (region_code date_code sample_number : string)
    (i j : nat) (f f' : string) :
  (i < 4)%nat -> (j < 4)%nat ->
  sample_name region_code date_code sample_number i f
  = sample_name region_code date_code sample_number j f' -> i = j.
Proof.
  intros Hi Hj H. unfold sample_name in H.
  apply append_cancel_l in H. cbn [append] in H. injection H as H.
  apply append_cancel_l in H. cbn [append] in H. injection H as H.
  apply append_cancel_l in H. cbn [append] in H. injection H as H.
  do 4 (destruct i as [| i]; [do 4 (destruct j as [| j]; [first [reflexivity | discriminate H]|]); lia|]).
  lia.
Qed.

Lemma NoDup_map_indexed {A B : Type} (h : nat * A -> B) (l : list A) (k : nat) :
  (forall i j x y, h (i, x) = h (j, y) ->
                   In (i, x) (combine (seq k (length l)) l) ->
                   In (j, y) (combine (seq k (length l)) l) -> i = j) ->
  NoDup (map h (combine (seq k (length l)) l)).
Proof.
  revert k. induction l as [| x l IH]; intros k H; [constructor|].
  cbn [length seq combine map]. constructor.
  - intros Hin. apply in_map_iff in Hin. destruct Hin as ([j y] & Heq & Hj).
    assert (E : j = k).
    { apply (H j k y x Heq); cbn [length seq combine]; [now right | now left]. }
    apply enumerate_from_nth in Hj. lia.
  - apply IH. intros i j a b Heq Hi Hj.
    apply (H i j a b Heq); cbn [length seq combine]; now right.
Qed.

(** X11. The copies made from one folder go to different files of the output
    directory: within a sample folder no copy overwrites another. *)
Theorem sample_folder_destinations_distinct
    (copy2 : path -> path -> bool) (base_work_dir : path)
    (region_code date_code : string) (root : path) (dirs files : list string) :
  NoDup (map (fun c => snd (fst c))
             (copy_calls (trace (visit copy2 base_work_dir region_code date_code
                                   (OsPath.join base_work_dir RENAMED_FOLDER_NAME)
                                   (root, dirs, files))))).
Proof.
  rewrite (proj2 (visit_eq copy2 base_work_dir region_code date_code root dirs files)).
  destruct (is_sample_folder base_work_dir root); [|constructor].
  unfold sample_copies. rewrite map_map. unfold Py.enumerate.
  apply NoDup_map_indexed. intros i j f f' Heq Hi Hj. cbn [fst snd] in Heq.
  apply enumerate_from_nth in Hi, Hj. destruct Hi as [_ Hi], Hj as [_ Hj].
  rewrite Nat.sub_0_r in Hi, Hj.
  assert (Hlen : (length (firstn 4 (Py.sorted (filter is_supported files))) <= 4)%nat)
    by apply firstn_le_length.
  assert (i < 4)%nat
    by (assert (i < length (firstn 4 (Py.sorted (filter is_supported files))))%nat
          by (apply nth_error_Some; congruence); lia).
  assert (j < 4)%nat
    by (assert (j < length (firstn 4 (Py.sorted (filter is_supported files))))%nat
          by (apply nth_error_Some; congruence); lia).
  unfold OsPath.join in Heq. apply app_inj_tail in Heq. destruct Heq as [_ Heq].
  now apply (sample_name_index region_code date_code (OsPath.basename root) i j f f').
Qed.

Lemma note_in_copy_sample_images
    (copy2 : path -> path -> bool) (region_code date_code : string)
    (renamed_dir_path root : path) (sample_number : string) (images : list string)
    (k : nat) :
  (k <= 4)%nat ->
  In (Print (NoteExtraImages root 4))
     (trace (copy_sample_images copy2 region_code date_code renamed_dir_path root
               sample_number (combine (seq k (length images)) images)))
  <-> (4 < k + length images)%nat.
Proof.
  revert k. induction images as [| f images IH]; intros k Hk.
  - simpl. split; [tauto | lia].
  - cbn [length seq combine copy_sample_images].
    change (length angle_suffixes) with 4%nat.
    destruct (Nat.leb_spec 4 k) as [Hge | Hlt].
    + split; [lia | intros _; now left].
    + rewrite getitem_angle_suffix by exact Hlt. rewrite bind_ret.
      rewrite (bind_ok _ _ _ _ (try_copy_eq copy2 _ _ _ _)), trace_pair. cbn [app].
      rewrite <- Nat.add_succ_comm, <- (IH (S k)) by lia.
      split.
      * intros [H | [H | H]]; [discriminate | | exact H].
        destruct (copy2 _ _); discriminate.
      * intros H. now do 2 right.
Qed.

(** X12. In a sample folder the note about extra images is printed exactly
    when the folder holds more than four supported images. *)
Theorem extra_images_note_iff_more_than_four
    (copy2 : path -> path -> bool) (base_work_dir : path)
    (region_code date_code : string) (root : path) (dirs files : list string) :
  is_sample_folder base_work_dir root = true ->
  In (Print (NoteExtraImages root 4))
     (trace (visit copy2 base_work_dir region_code date_code
               (OsPath.join base_work_dir RENAMED_FOLDER_NAME) (root, dirs, files)))
  <-> (4 < length (filter is_supported files))%nat.
Proof.
  intros Hs. unfold is_sample_folder in Hs.
  apply andb_true_iff in Hs. destruct Hs as [Hs Hlen].
  apply andb_true_iff in Hs. destruct Hs as [Hs Hdigit].
  apply andb_true_iff in Hs. destruct Hs as [Hrd Hbase].
  apply negb_true_iff in Hrd, Hbase.
  assert (Hperm : length (Py.sorted (filter is_supported files))
                  = length (filter is_supported files))
    by (symmetry; apply Permutation_length, Py.StringSort.Permuted_sort).
  unfold visit. rewrite Hrd, Hbase, Hdigit, Hlen. cbn [negb orb].
  rewrite <- Hperm.
  destruct (Py.sorted (filter is_supported files)) as [| f l] eqn:E.
  - simpl. split; [intros [H | []]; discriminate | lia].
  - rewrite <- E. rewrite bind_print, trace_pair. unfold Py.enumerate.
    rewrite <- (note_in_copy_sample_images copy2 region_code date_code
                  (OsPath.join base_work_dir RENAMED_FOLDER_NAME) root
                  (OsPath.basename root) (Py.sorted (filter is_supported files)) 0) by lia.
    split; [intros [H | H]; [discriminate | exact H] | intros H; now right].
Qed.

(** ** Mode 1 does not read the files of the output folder *)

Lemma for_each_map {A : Type} (body : A -> M unit) (l : list A) :
  for_each l body = for_each (map body l) (fun m => m).
Proof. induction l as [| x l IH]; simpl; [reflexivity | now rewrite IH]. Qed.

Lemma map_flat_map {A B C : Type} (f : B -> C) (g : A -> list B) (l : list A) :
  map f (flat_map g l) = flat_map (fun x => map f (g x)) l.
Proof.
  induction l as [| x l IH]; [reflexivity|].
  cbn [flat_map]. now rewrite map_app, IH.
Qed.

Lemma path_eqb_refl (p : path) : path_eqb p p = true.
Proof. induction p as [| a p IH]; simpl; [reflexivity | now rewrite String.eqb_refl]. Qed.

Lemma visits_outside_output_files
    (copy2 : path -> path -> bool) (base_work_dir : path)
    (region_code date_code : string) (name : string) (files : list string)
    (before after : list tree) (out_dirs : list tree) (out_files out_files' : list string) :
  map (visit copy2 base_work_dir region_code date_code
         (OsPath.join base_work_dir RENAMED_FOLDER_NAME))
      (walk base_work_dir
         (Dir name files (before ++ Dir RENAMED_FOLDER_NAME out_files out_dirs :: after)))
  = map (visit copy2 base_work_dir region_code date_code
           (OsPath.join base_work_dir RENAMED_FOLDER_NAME))
        (walk base_work_dir
           (Dir name files (before ++ Dir RENAMED_FOLDER_NAME out_files' out_dirs :: after))).
Proof.
  cbn [walk map]. rewrite !map_app. cbn [map dir_name]. f_equal.
  rewrite !map_flat_map, !flat_map_app. f_equal.
  rewrite !flat_map_step. f_equal.
  cbn [dir_name walk map]. f_equal.
  unfold visit. now rewrite path_eqb_refl.
Qed.

(** X13. Mode 1 does not read the files that lie directly in the output
    folder: two trees that differ only there give the same run, so the
    copies of an earlier run are not taken for images again. *)
Theorem output_folder_files_not_read
    (copy2 : path -> path -> bool) (base_work_dir : path)
    (region_code date_code : string) (name : string) (files : list string)
    (before after : list tree) (out_dirs : list tree) (out_files out_files' : list string) :
  rename_and_copy_subfolder_mode copy2 base_work_dir region_code date_code
    (Dir name files (before ++ Dir RENAMED_FOLDER_NAME out_files out_dirs :: after))
  = rename_and_copy_subfolder_mode copy2 base_work_dir region_code date_code
      (Dir name files (before ++ Dir RENAMED_FOLDER_NAME out_files' out_dirs :: after)).
Proof.
  unfold rename_and_copy_subfolder_mode.
  rewrite !(bind_ok _ _ _ _ (create_renamed_directory_eq base_work_dir)).
  rewrite (for_each_map _ (walk _ (Dir name files (before ++ Dir _ out_files _ :: _)))).
  rewrite (for_each_map _ (walk _ (Dir name files (before ++ Dir _ out_files' _ :: _)))).
  now rewrite (visits_outside_output_files copy2 base_work_dir region_code date_code name
                 files before after out_dirs out_files out_files').
Qed.

(** ** The GUI's mode 2 and the command line's *)

Lemma bind_congr {A B : Type} (m : M A) (k k' : A -> M B) :
  (forall a, k a = k' a) -> bind m k = bind m k'.
Proof. intros H. destruct m as [t [a | e]]; simpl; [now rewrite H | reflexivity]. Qed.

Lemma gui_copy_phase_eq
    (copy2 : path -> path -> bool) (region_code date_code : string)
    (single_folder_path : path) (angle_num : Z) (renamed_dir_path : path)
    (all_files : list string) (n : nat) :
  copy_phase copy2 region_code date_code single_folder_path angle_num renamed_dir_path
    all_files (find_guide_photos all_files)
    (build_batches all_files (find_guide_photos all_files)) n
  = gui_copy_phase copy2 region_code date_code single_folder_path angle_num
      renamed_dir_path (build_batches all_files (find_guide_photos all_files)) n.
Proof.
  unfold copy_phase, gui_copy_phase.
  apply bind_congr. intros _. apply bind_congr. intros _.
  apply bind_congr. intros group_labels. apply bind_congr. intros total.
  now rewrite check_remaining_returns, bind_ret.
Qed.

Lemma gui_single_folder_eq
    (copy2 : path -> path -> bool) (base_work_dir : path)
    (region_code date_code : string) (single_folder_path : path) (angle_num : Z)
    (isdir : bool) (listing : list string) :
  gui_rename_and_copy_single_folder_mode copy2 base_work_dir region_code date_code
    single_folder_path angle_num isdir listing
  = rename_and_copy_single_folder_mode copy2 base_work_dir region_code date_code
      single_folder_path angle_num isdir listing.
Proof.
  unfold gui_rename_and_copy_single_folder_mode, rename_and_copy_single_folder_mode.
  destruct isdir; [|reflexivity]. cbn [negb].
  apply bind_congr. intros renamed_dir_path.
  destruct (Py.sorted (filter is_supported listing)) as [| f0 l]; [reflexivity|].
  generalize (f0 :: l). intros all_files.
  unfold gui_group_and_copy, group_and_copy.
  destruct (find_guide_photos all_files) as [| g gs] eqn:Eg; [reflexivity|].
  rewrite <- Eg.
  apply bind_congr. intros bad. destruct bad; [reflexivity|].
  apply bind_congr. intros first_batch. apply bind_congr. intros go.
  destruct go; [|reflexivity]. symmetry. apply gui_copy_phase_eq.
Qed.

(** X14. The GUI's [rename_and_copy_single_folder_mode], which has no check
    for files left after the last batch, does on every input what the command
    line's does: the same lines, the same copies in the same order, the same
    end. *)
Theorem gui_single_folder_mode_same_as_cli
    (copy2 : path -> path -> bool) (base_work_dir : path)
    (region_code date_code : string) (single_folder_path : path) (angle_num : Z)
    (isdir : bool) (listing : list string) :
  gui_rename_and_copy_single_folder_mode copy2 base_work_dir region_code date_code
    single_folder_path angle_num isdir listing
  = rename_and_copy_single_folder_mode copy2 base_work_dir region_code date_code
      single_folder_path angle_num isdir listing.
Proof.
  destruct isdir; [|reflexivity].
  unfold gui_rename_and_copy_single_folder_mode, rename_and_copy_single_folder_mode.
  cbn [negb]. apply bind_congr. intros renamed_dir_path.
  destruct (Py.sorted (filter is_supported listing)) as [| f0 l]; [reflexivity|].
  generalize (f0 :: l). intros all_files.
  unfold gui_group_and_copy, group_and_copy.
  destruct (find_guide_photos all_files) as [| g gs] eqn:Eg; [reflexivity|].
  rewrite <- Eg.
  apply bind_congr. intros bad. destruct bad; [reflexivity|].
  apply bind_congr. intros first_batch. apply bind_congr. intros go.
  destruct go; [|reflexivity]. symmetry. apply gui_copy_phase_eq.
Qed.

(** ** The callers *)

Lemma zero_angle_run
    (copy2 : path -> path -> bool) (base_work_dir : path)
    (region_code date_code : string) (single_folder_path : path)
    (listing : list string) (b0 : batch) :
  let all_files := Py.sorted (filter is_supported listing) in
  let batches := build_batches all_files (find_guide_photos all_files) in
  nth_error batches 0 = Some b0 ->
  (forall b, In b batches -> length (files_to_rename b) = length (files_to_rename b0)) ->
  (0 < length (files_to_rename b0))%nat ->
  rename_and_copy_single_folder_mode copy2 base_work_dir region_code date_code
    single_folder_path 0 true listing
  = ([Makedirs (OsPath.join base_work_dir RENAMED_FOLDER_NAME);
      Print (MsgRenamedDir (OsPath.join base_work_dir RENAMED_FOLDER_NAME))],
     Raise ZeroDivisionError).
Proof.
  intros all_files batches H0 Hall Hpos.
  rewrite (run_after_consistency copy2 base_work_dir region_code date_code
             single_folder_path 0 listing b0 H0 Hall).
  unfold divisible.
  destruct (length (files_to_rename b0)) as [| n]; [lia | reflexivity].
Qed.

Lemma upper_ascii_not_lower (c : ascii) :
  is_letter (upper_ascii c) = true -> is_upper_letter (upper_ascii c) = true.
Proof. destruct c as [[] [] [] [] [] [] [] []]; simpl; intros H; first [reflexivity | discriminate H]. Qed.

Lemma two_letters_upper (s : string) :
  two_letters (upper s) = true ->
  exists a b tail,
    upper s = String a (String b tail)
    /\ is_upper_letter a = true /\ is_upper_letter b = true
    /\ (tail = "" \/ tail = String "010" "").
Proof.
  destruct s as [| a [| b rest]]; try discriminate.
  cbn [upper two_letters]. intros H.
  apply andb_true_iff in H. destruct H as [H Hend].
  apply andb_true_iff in H. destruct H as [Ha Hb].
  exists (upper_ascii a), (upper_ascii b), (upper rest).
  repeat split; [now apply upper_ascii_not_lower | now apply upper_ascii_not_lower |].
  now apply at_end_iff.
Qed.

Lemma six_digits_shape (s : string) :
  six_digits s = true ->
  exists d tail,
    s = (d ++ tail)%string /\ String.length d = 6%nat /\ Py.all_digits d = true
    /\ (tail = "" \/ tail = String "010" "").
Proof.
  destruct s as [| a [| b [| c [| d [| e [| f rest]]]]]]; try discriminate.
  cbn [six_digits]. intros H.
  apply andb_true_iff in H. destruct H as [H Hend].
  apply andb_true_iff in H. destruct H as [H Hf].
  apply andb_true_iff in H. destruct H as [H He].
  apply andb_true_iff in H. destruct H as [H Hd].
  apply andb_true_iff in H. destruct H as [H Hc].
  apply andb_true_iff in H. destruct H as [Ha Hb].
  exists (String a (String b (String c (String d (String e (String f "")))))), rest.
  repeat split.
  - cbn [Py.all_digits]. now rewrite Ha, Hb, Hc, Hd, He, Hf.
  - now apply at_end_iff.
Qed.

(** X15. The GUI calls a mode only on checked input: an event of a mode is in
    the run only if the source folder is given and is a directory, the region
    code in upper case is two letters A-Z and the date code six digits (a
    newline may follow each, as [$] allows), and for mode 2 the image folder
    is given and the angle number is an integer.  The entries are ASCII
    text. *)
Theorem gui_runs_modes_on_checked_input (fs : filesystem)
    (source_dir : path) (region_entry date_entry : string) (m : mode)
    (image_folder_entry : string) (angle_num_entry : option Z) (e : event) :
  is_ascii region_entry = true ->
  is_ascii date_entry = true ->
  In (Core e) (run_rename_logic fs source_dir region_entry date_entry m
                 image_folder_entry angle_num_entry) ->
  source_dir <> []
  /\ fs_isdir fs source_dir = true
  /\ (exists a b tail,
        upper region_entry = String a (String b tail)
        /\ is_upper_letter a = true /\ is_upper_letter b = true
        /\ (tail = "" \/ tail = String "010" ""))
  /\ (exists d tail,
        date_entry = (d ++ tail)%string /\ String.length d = 6%nat
        /\ Py.all_digits d = true /\ (tail = "" \/ tail = String "010" ""))
  /\ (m = single_folder -> image_folder_entry <> "" /\ angle_num_entry <> None).
Proof.
  intros _ _. unfold run_rename_logic, run_rename_logic_try.
  destruct source_dir as [| c p].
  { cbn. intros [H | [H | []]]; discriminate. }
  destruct (fs_isdir fs (c :: p)) eqn:Hdir.
  2:{ cbn. intros [H | [H | []]]; discriminate. }
  cbn [negb orb].
  destruct (two_letters (upper region_entry)) eqn:Hregion.
  2:{ cbn. intros [H | [H | []]]; discriminate. }
  destruct (six_digits date_entry) eqn:Hdate.
  2:{ cbn. intros [H | [H | []]]; discriminate. }
  cbn [negb]. intros H.
  split; [discriminate|]. split; [reflexivity|].
  split; [now apply two_letters_upper|]. split; [now apply six_digits_shape|].
  intros ->.
  destruct angle_num_entry as [angle_num |].
  2:{ cbn in H. destruct H as [H | [H | [H | []]]]; discriminate. }
  destruct (String.eqb_spec image_folder_entry "") as [-> | Hne].
  { cbn in H. destruct H as [H | [H | [H | []]]]; discriminate. }
  split; [exact Hne | discriminate].
Qed.

(** X16. In the GUI a division by zero does not end the program: with the
    input checked, mode 2, an angle number of zero and batches of one positive
    count, the run logs the start, creates the output directory, logs the
    exception as an unexpected error and sets the button back. *)
Theorem gui_logs_division_by_zero (fs : filesystem)
    (source_dir : path) (region_entry date_entry image_folder_entry : string)
    (b0 : batch) :
  let single_folder_path := OsPath.join source_dir image_folder_entry in
  let all_files := Py.sorted (filter is_supported (fs_listdir fs single_folder_path)) in
  let batches := build_batches all_files (find_guide_photos all_files) in
  let renamed_dir_path := OsPath.join source_dir RENAMED_FOLDER_NAME in
  source_dir <> [] ->
  fs_isdir fs source_dir = true ->
  two_letters (upper region_entry) = true ->
  six_digits date_entry = true ->
  image_folder_entry <> "" ->
  fs_isdir fs single_folder_path = true ->
  nth_error batches 0 = Some b0 ->
  (forall b, In b batches -> length (files_to_rename b) = length (files_to_rename b0)) ->
  (0 < length (files_to_rename b0))%nat ->
  run_rename_logic fs source_dir region_entry date_entry single_folder
    image_folder_entry (Some 0%Z)
  = [Logged (GuiStart source_dir single_folder);
     Core (Makedirs renamed_dir_path);
     Core (Print (MsgRenamedDir renamed_dir_path));
     Logged (GuiUnexpected ZeroDivisionError);
     ButtonRestored].
Proof.
  intros single_folder_path all_files batches renamed_dir_path
         Hne Hdir Hregion Hdate Hfolder Hsfp H0 Hall Hpos.
  unfold run_rename_logic, run_rename_logic_try.
  destruct source_dir as [| c p]; [contradiction|].
  rewrite Hdir, Hregion, Hdate. cbn [negb orb].
  destruct (String.eqb_spec image_folder_entry "") as [E | _]; [contradiction|].
  rewrite gui_single_folder_eq. fold single_folder_path. rewrite Hsfp.
  rewrite (zero_angle_run (fs_copy2 fs) (c :: p) (upper region_entry) date_entry
             single_folder_path (fs_listdir fs single_folder_path) b0 H0 Hall Hpos).
  reflexivity.
Qed.


Lemma is_letter_upper (c : ascii) : is_letter c = true -> is_letter (upper_ascii c) = true.
Proof. destruct c as [[] [] [] [] [] [] [] []]; simpl; intros H; first [reflexivity | discriminate H]. Qed.

Lemma folder_code_checked (folder_name region date : string) :
  folder_code folder_name = Some (region, date) ->
  two_letters (upper (upper region)) = true /\ six_digits date = true.
Proof.
  unfold folder_code.
  destruct folder_name as [| a [| b [| c [| d [| e [| f [| g [| h rest]]]]]]]];
    try discriminate.
  destruct (is_letter a) eqn:Ha; [|discriminate].
  destruct (is_letter b) eqn:Hb; [|discriminate].
  destruct (Py.is_digit c) eqn:Hc; [|discriminate].
  destruct (Py.is_digit d) eqn:Hd; [|discriminate].
  destruct (Py.is_digit e) eqn:He; [|discriminate].
  destruct (Py.is_digit f) eqn:Hf; [|discriminate].
  destruct (Py.is_digit g) eqn:Hg; [|discriminate].
  destruct (Py.is_digit h) eqn:Hh; [|discriminate].
  cbn [andb]. intros H. injection H as <- <-.
  split.
  - cbn [upper two_letters GuidePattern.at_end].
    now rewrite (is_letter_upper _ (is_letter_upper _ Ha)),
      (is_letter_upper _ (is_letter_upper _ Hb)).
  - cbn [six_digits GuidePattern.at_end]. now rewrite Hc, Hd, He, Hf, Hg, Hh.
Qed.

(** X21. After the dialog gave a folder whose name begins with two letters and
    six digits, the region and the date written to the entries pass the checks
    of [run_rename_logic]: the run logs neither of the two errors. *)
Theorem browsed_codes_pass_the_checks (fs : filesystem)
    (dir_path : path) (en : entries) (region date : string) (m : mode)
    (image_folder_entry : string) (angle_num_entry : option Z) :
  let en' := browse_source_directory dir_path en in
  folder_code (OsPath.basename dir_path) = Some (region, date) ->
  en_source_dir en' = dir_path
  /\ en_region en' = upper region
  /\ en_date en' = date
  /\ ~ In (Logged GuiErrRegion)
          (run_rename_logic fs (en_source_dir en') (en_region en') (en_date en') m
             image_folder_entry angle_num_entry)
  /\ ~ In (Logged GuiErrDate)
          (run_rename_logic fs (en_source_dir en') (en_region en') (en_date en') m
             image_folder_entry angle_num_entry).
Proof.
  intros en' Hcode. subst en'. unfold browse_source_directory.
  destruct dir_path as [| c p]; [discriminate Hcode|].
  rewrite Hcode. cbn [en_source_dir en_region en_date].
  split; [reflexivity|]. split; [reflexivity|]. split; [reflexivity|].
  destruct (folder_code_checked _ _ _ Hcode) as [Hregion Hdate].
  unfold run_rename_logic, run_rename_logic_try.
  rewrite Hregion, Hdate. cbn [negb].
  assert (Hcalled : forall (r : M unit) (l : gui_line),
             l = GuiErrRegion \/ l = GuiErrDate ->
             ~ In (Logged l)
                  ((Logged (GuiStart (c :: p) m) :: fst (called r [Logged GuiDone]))
                     ++ match snd (called r [Logged GuiDone]) with
                        | Raise e => [Logged (GuiUnexpected e)]
                        | Ok _ => []
                        end ++ [ButtonRestored])).
  { intros r l Hl H. unfold called in H. cbn [fst snd] in H.
    destruct H as [H | H]; [destruct Hl as [-> | ->]; discriminate|].
    apply in_app_or in H. destruct H as [H | H].
    - apply in_app_or in H. destruct H as [H | H].
      + apply in_map_iff in H. destruct H as (x & Hx & _). discriminate.
      + destruct (outcome r); cbn in H; [|contradiction].
        destruct H as [H | []]. destruct Hl as [-> | ->]; discriminate.
    - apply in_app_or in H. destruct H as [H | H].
      + destruct (outcome r); cbn in H; [contradiction|].
        destruct H as [H | []]. destruct Hl as [-> | ->]; discriminate.
      + destruct H as [H | []]. discriminate. }
  destruct (_ || _).
  { split; cbn; intros [H | [H | []]]; discriminate. }
  destruct m.
  - split; apply (Hcalled _ _); [now left | now right].
  - destruct angle_num_entry as [angle_num |].
    2:{ split; cbn; intros [H | [H | [H | []]]]; discriminate. }
    destruct (String.eqb image_folder_entry "").
    { split; cbn; intros [H | [H | [H | []]]]; discriminate. }
    split; apply (Hcalled _ _); [now left | now right].
Qed.

(** ** Destinations that coincide *)

Lemma renamed_file_copy_in_run
    (copy2 : path -> path -> bool) (base_work_dir : path)
    (region_code date_code : string) (single_folder_path : path) (angle_num : Z)
    (listing : list string) (b0 b : batch) (j : nat) (f : string) :
  let all_files := Py.sorted (filter is_supported listing) in
  let batches := build_batches all_files (find_guide_photos all_files) in
  let src := OsPath.join single_folder_path f in
  let dst := OsPath.join (OsPath.join base_work_dir RENAMED_FOLDER_NAME)
               (new_name region_code date_code angle_num (batch_id b) j f) in
  (0 < angle_num <= max_angle_num)%Z ->
  nth_error batches 0 = Some b0 ->
  (forall b, In b batches -> length (files_to_rename b) = length (files_to_rename b0)) ->
  (Z.of_nat (length (files_to_rename b0)) mod angle_num = 0)%Z ->
  In b batches ->
  nth_error (files_to_rename b) j = Some f ->
  In (src, dst, copy2 src dst)
     (copy_calls (trace (rename_and_copy_single_folder_mode copy2 base_work_dir
                           region_code date_code single_folder_path angle_num
                           true listing))).
Proof.
  intros all_files batches src dst Hrange H0 Hall Hdiv Hb Hf.
  rewrite (passing_run_counted copy2 base_work_dir region_code date_code
             single_folder_path angle_num listing b0 Hrange H0 Hall Hdiv).
  fold all_files. fold batches. rewrite trace_pair, !copy_calls_app.
  apply in_or_app. right. apply in_or_app. right. apply in_or_app. right.
  apply in_or_app. left.
  rewrite copy_calls_batch_events, map_snd_enumerate.
  apply in_flat_map. exists b. split; [exact Hb|].
  right. apply in_map_iff. exists (j, f). split; [reflexivity|].
  now apply In_enumerate.
Qed.

(** X22. The output name of a file holds the batch id, not the guide photo's
    name: in a run that passes the checks, for [angle_num] from 1 to 55231,
    when two batches have the same batch id, the files at the same position
    in them, if their extensions agree in lower case, are copied to the same
    destination, so the later copy overwrites the earlier. *)
Theorem same_batch_id_same_destination
    (copy2 : path -> path -> bool) (base_work_dir : path)
    (region_code date_code : string) (single_folder_path : path) (angle_num : Z)
    (listing : list string) (b0 b b' : batch) (j : nat) (f f' : string) :
  let all_files := Py.sorted (filter is_supported listing) in
  let batches := build_batches all_files (find_guide_photos all_files) in
  let calls :=
    copy_calls (trace (rename_and_copy_single_folder_mode copy2 base_work_dir
                         region_code date_code single_folder_path angle_num
                         true listing)) in
  (0 < angle_num <= max_encodable_angle_num)%Z ->
  nth_error batches 0 = Some b0 ->
  (forall b, In b batches -> length (files_to_rename b) = length (files_to_rename b0)) ->
  (Z.of_nat (length (files_to_rename b0)) mod angle_num = 0)%Z ->
  In b batches -> In b' batches ->
  batch_id b = batch_id b' ->
  nth_error (files_to_rename b) j = Some f ->
  nth_error (files_to_rename b') j = Some f' ->
  Py.lower (snd (OsPath.splitext f)) = Py.lower (snd (OsPath.splitext f')) ->
  exists dst,
    In (OsPath.join single_folder_path f, dst,
        copy2 (OsPath.join single_folder_path f) dst) calls
    /\ In (OsPath.join single_folder_path f', dst,
           copy2 (OsPath.join single_folder_path f') dst) calls.
Proof.
  intros all_files batches calls Hrange H0 Hall Hdiv Hb Hb' Hid Hf Hf' Hext.
  apply encodable_labels_exist in Hrange.
  exists (OsPath.join (OsPath.join base_work_dir RENAMED_FOLDER_NAME)
            (new_name region_code date_code angle_num (batch_id b) j f)).
  split.
  - exact (renamed_file_copy_in_run copy2 base_work_dir region_code date_code
             single_folder_path angle_num listing b0 b j f Hrange H0 Hall Hdiv Hb Hf).
  - replace (new_name region_code date_code angle_num (batch_id b) j f)
      with (new_name region_code date_code angle_num (batch_id b') j f')
      by (unfold new_name; now rewrite Hid, Hext).
    exact (renamed_file_copy_in_run copy2 base_work_dir region_code date_code
             single_folder_path angle_num listing b0 b' j f' Hrange H0 Hall Hdiv Hb' Hf').
Qed.

(** ** The added properties on concrete inputs *)

Lemma passing_run_trace_and_count_witness :
  rename_and_copy_single_folder_mode copied_but_x2 ["w"] "HR" "250701"
    ["w"; "phone_image"] 2 true one_batch
  = ([Makedirs ["w"; "renamed"]; Print (MsgRenamedDir ["w"; "renamed"]);
      Print (MsgProcessingSingle ["w"; "phone_image"]);
      Print (MsgDetected 1 2 2);
      Print (MsgBatch 1 "g-AB.JPG" "AB");
      Copy2 ["w"; "phone_image"; "g-AB.JPG"] ["w"; "renamed"; "g-AB.JPG"] true;
      Print (MsgGuideCopied "g-AB.JPG");
      Copy2 ["w"; "phone_image"; "x1.JPEG"] ["w"; "renamed"; "HR-250701-AB01-A.jpeg"] true;
      Print (MsgCopiedRenamed "x1.JPEG" "HR-250701-AB01-A.jpeg");
      Copy2 ["w"; "phone_image"; "x2.Tiff"] ["w"; "renamed"; "HR-250701-AB01-B.tiff"] false;
      Print (ErrCopyFailed ["w"; "phone_image"; "x2.Tiff"]
               ["w"; "renamed"; "HR-250701-AB01-B.tiff"]);
      Print (MsgSingleDone 1)],
     Ok tt).
Proof.
  apply (passing_run_trace_and_count copied_but_x2 ["w"] "HR" "250701"
           ["w"; "phone_image"] 2 one_batch
           {| guide_file := "g-AB.JPG"; batch_id := "AB";
              files_to_rename := ["x1.JPEG"; "x2.Tiff"] |}).
  - unfold max_encodable_angle_num; lia.
  - reflexivity.
  - intros b [<- | []]. reflexivity.
  - reflexivity.
Defined.

Lemma passing_run_copies_each_file_once_witness :
  Py.sorted (filter is_supported early_file) = ["a.jpg"; "b-01.jpg"; "c.jpg"]
  /\ copied_sources
       (trace (rename_and_copy_single_folder_mode always_copied ["w"] "HR" "250701"
                 ["w"; "phone_image"] 1 true early_file))
     = ["b-01.jpg"; "c.jpg"].
Proof.
  split; [reflexivity|].
  apply (passing_run_copies_each_file_once always_copied ["w"] "HR" "250701"
           ["w"; "phone_image"] 1 early_file
           {| guide_file := "b-01.jpg"; batch_id := "01"; files_to_rename := ["c.jpg"] |}
           {| filename := "b-01.jpg"; index := 1; gi_batch_id := "01" |}).
  - unfold max_encodable_angle_num; lia.
  - reflexivity.
  - reflexivity.
  - intros b [<- | []]. reflexivity.
  - reflexivity.
Defined.

Lemma count_not_multiple_aborts_witness :
  rename_and_copy_single_folder_mode always_copied ["w"] "HR" "250701"
    ["w"; "phone_image"] 3 true one_batch
  = ([Makedirs ["w"; "renamed"]; Print (MsgRenamedDir ["w"; "renamed"]);
      Print (ErrNotMultiple 2 3); Print MsgCheckAngleNum],
     Ok tt).
Proof.
  apply (count_not_multiple_aborts always_copied ["w"] "HR" "250701"
           ["w"; "phone_image"] 3 one_batch
           {| guide_file := "g-AB.JPG"; batch_id := "AB";
              files_to_rename := ["x1.JPEG"; "x2.Tiff"] |}).
  - lia.
  - reflexivity.
  - intros b [<- | []]. reflexivity.
  - vm_compute. discriminate.
Defined.

Lemma no_guide_photo_aborts_witness :
  rename_and_copy_single_folder_mode always_copied ["w"] "HR" "250701"
    ["w"; "phone_image"] 4 true five_images
  = ([Makedirs ["w"; "renamed"]; Print (MsgRenamedDir ["w"; "renamed"]);
      Print (ErrNoGuidePhoto ["w"; "phone_image"])],
     Ok tt).
Proof.
  apply (no_guide_photo_aborts always_copied ["w"] "HR" "250701"
           ["w"; "phone_image"] 4 five_images).
  intros f Hin _. unfold five_images in Hin. simpl in Hin.
  repeat (destruct Hin as [<- | Hin]; [reflexivity|]). contradiction.
Defined.

Lemma guide_photos_alone_are_copied_witness :
  rename_and_copy_single_folder_mode always_copied ["w"] "HR" "250701"
    ["w"; "phone_image"] 0 true guides_only
  = ([Makedirs ["w"; "renamed"]; Print (MsgRenamedDir ["w"; "renamed"]);
      Print WarnNothingToProcess;
      Print (MsgProcessingSingle ["w"; "phone_image"]);
      Print (MsgDetected 2 0 0);
      Print (MsgBatch 1 "p-01.jpg" "01");
      Copy2 ["w"; "phone_image"; "p-01.jpg"] ["w"; "renamed"; "p-01.jpg"] true;
      Print (MsgGuideCopied "p-01.jpg");
      Print (MsgBatch 2 "q-02.jpg" "02");
      Copy2 ["w"; "phone_image"; "q-02.jpg"] ["w"; "renamed"; "q-02.jpg"] true;
      Print (MsgGuideCopied "q-02.jpg");
      Print (MsgSingleDone 0)],
     Ok tt).
Proof.
  apply (guide_photos_alone_are_copied always_copied ["w"] "HR" "250701"
           ["w"; "phone_image"] 0 guides_only
           {| guide_file := "p-01.jpg"; batch_id := "01"; files_to_rename := [] |}).
  - unfold max_angle_num; lia.
  - reflexivity.
  - repeat constructor.
Defined.

Lemma extra_images_note_iff_more_than_four_witness :
  In (Print (NoteExtraImages ["w"; "0001"] 4))
     (trace (visit always_copied ["w"] "HR" "250701" ["w"; "renamed"]
               (["w"; "0001"], [], five_images)))
  <-> (4 < length (filter is_supported five_images))%nat.
Proof.
  apply (extra_images_note_iff_more_than_four always_copied ["w"] "HR" "250701"
           ["w"; "0001"] [] five_images).
  reflexivity.
Defined.

Lemma supported_file_extension_witness :
  is_supported "a.b.JpG" = true /\ OsPath.splitext "a.b.JpG" = ("a.b", ".JpG").
Proof.
  apply (proj2 (supported_file_extension "a.b.JpG") "a." "b"%char ".JpG").
  - reflexivity.
  - discriminate.
  - discriminate.
  - vm_compute. in_list.
Defined.

Lemma gui_runs_modes_on_checked_input_witness :
  ["w"] <> []
  /\ fs_isdir sample_fs ["w"] = true
  /\ (exists a b tail,
        upper "hr" = String a (String b tail)
        /\ is_upper_letter a = true /\ is_upper_letter b = true
        /\ (tail = "" \/ tail = String "010" ""))
  /\ (exists d tail,
        "250701" = (d ++ tail)%string /\ String.length d = 6%nat
        /\ Py.all_digits d = true /\ (tail = "" \/ tail = String "010" ""))
  /\ (single_folder = single_folder -> "phone_image" <> "" /\ Some 2%Z <> None).
Proof.
  apply (gui_runs_modes_on_checked_input sample_fs ["w"] "hr" "250701" single_folder
           "phone_image" (Some 2%Z) (Makedirs ["w"; "renamed"])).
  - reflexivity.
  - reflexivity.
  - vm_compute. right. left. reflexivity.
Defined.

Lemma gui_logs_division_by_zero_witness :
  run_rename_logic sample_fs ["w"] "hr" "250701" single_folder "phone_image" (Some 0%Z)
  = [Logged (GuiStart ["w"] single_folder);
     Core (Makedirs ["w"; "renamed"]);
     Core (Print (MsgRenamedDir ["w"; "renamed"]));
     Logged (GuiUnexpected ZeroDivisionError);
     ButtonRestored].
Proof.
  apply (gui_logs_division_by_zero sample_fs ["w"] "hr" "250701" "phone_image"
           {| guide_file := "g-AB.JPG"; batch_id := "AB";
              files_to_rename := ["x1.JPEG"; "x2.Tiff"] |}).
  - discriminate.
  - reflexivity.
  - reflexivity.
  - reflexivity.
  - discriminate.
  - reflexivity.
  - reflexivity.
  - intros b [<- | []]. reflexivity.
  - simpl. lia.
Defined.


Lemma browsed_codes_pass_the_checks_witness :
  let en' := browse_source_directory ["data"; "hr250701_site"]
               {| en_source_dir := []; en_region := ""; en_date := "" |} in
  en_source_dir en' = ["data"; "hr250701_site"]
  /\ en_region en' = upper "hr"
  /\ en_date en' = "250701"
  /\ ~ In (Logged GuiErrRegion)
          (run_rename_logic sample_fs (en_source_dir en') (en_region en') (en_date en')
             subfolder "" None)
  /\ ~ In (Logged GuiErrDate)
          (run_rename_logic sample_fs (en_source_dir en') (en_region en') (en_date en')
             subfolder "" None).
Proof.
  apply (browsed_codes_pass_the_checks sample_fs ["data"; "hr250701_site"]
           {| en_source_dir := []; en_region := ""; en_date := "" |}
           "hr" "250701" subfolder "" None).
  reflexivity.
Defined.

Lemma same_batch_id_same_destination_witness :
  "a1.jpg" <> "b1.jpg"
  /\ exists dst,
       In (["w"; "phone_image"; "a1.jpg"], dst,
           always_copied ["w"; "phone_image"; "a1.jpg"] dst)
          (copy_calls (trace (rename_and_copy_single_folder_mode always_copied ["w"]
                                "HR" "250701" ["w"; "phone_image"] 1 true
                                two_batches_one_id)))
       /\ In (["w"; "phone_image"; "b1.jpg"], dst,
              always_copied ["w"; "phone_image"; "b1.jpg"] dst)
             (copy_calls (trace (rename_and_copy_single_folder_mode always_copied ["w"]
                                   "HR" "250701" ["w"; "phone_image"] 1 true
                                   two_batches_one_id))).
Proof.
  split; [discriminate|].
  apply (same_batch_id_same_destination always_copied ["w"] "HR" "250701"
           ["w"; "phone_image"] 1 two_batches_one_id
           {| guide_file := "a-01.jpg"; batch_id := "01"; files_to_rename := ["a1.jpg"] |}
           {| guide_file := "a-01.jpg"; batch_id := "01"; files_to_rename := ["a1.jpg"] |}
           {| guide_file := "b-01.jpg"; batch_id := "01"; files_to_rename := ["b1.jpg"] |}
           0 "a1.jpg" "b1.jpg").
  - unfold max_encodable_angle_num; lia.
  - reflexivity.
  - intros b [<- | [<- | []]]; reflexivity.
  - reflexivity.
  - left. reflexivity.
  - right. left. reflexivity.
  - reflexivity.
  - reflexivity.
  - reflexivity.
  - reflexivity.
Defined.

Lemma guide_pattern_matches_suffix_witness :
  GuidePattern.search "IMG-0a.JPEG" = Some "0a" <-> guide_shape "IMG-0a.JPEG" "0a".
Proof. apply (guide_pattern_matches_suffix "IMG-0a.JPEG" "0a"). reflexivity. Defined.

(** ** Where the copies are written *)

Lemma contains_append (c : ascii) (a b : string) :
  contains c (a ++ b) = contains c a || contains c b.
Proof.
  induction a as [| x a IH]; [reflexivity|].
  cbn [append contains]. now rewrite IH, orb_assoc.
Qed.

Lemma contains_dash_plain (name : string) :
  contains "/" name = false -> contains "-" name = true -> plain_name name.
Proof.
  intros Hs Hd. split; [exact Hs|].
  repeat split; intros ->; discriminate Hd.
Qed.

Lemma string_of_uint_no_slash (d : Decimal.uint) :
  contains "/" (NilEmpty.string_of_uint d) = false.
Proof. induction d; cbn [NilEmpty.string_of_uint contains]; try exact IHd; reflexivity. Qed.

Lemma format_02d_no_slash (n : Z) : contains "/" (Py.format_02d n) = false.
Proof.
  assert (H : contains "/" (Py.str_of_int n) = false).
  { unfold Py.str_of_int, NilZero.string_of_int.
    destruct (Z.to_int n) as [d | d]; unfold NilZero.string_of_uint;
      destruct d; cbn [contains]; try apply string_of_uint_no_slash; reflexivity. }
  unfold Py.format_02d. destruct (_ <? _)%nat; [|exact H].
  cbn [append contains]. exact H.
Qed.

Lemma byte_no_slash (m : Z) :
  (0 <= m < 256)%Z -> m <> 47%Z -> Ascii.eqb (Py.byte m) "/" = false.
Proof.
  intros Hm Hne. apply Ascii.eqb_neq. intros E.
  apply (f_equal N_of_ascii) in E. unfold Py.byte in E.
  rewrite N_ascii_embedding in E by lia.
  apply Hne. change (N_of_ascii "/") with 47%N in E. lia.
Qed.

Lemma label_no_slash (i : Z) :
  (0 <= i < max_angle_num)%Z -> contains "/" (label i) = false.
Proof.
  intros Hi. unfold label, Py.utf8, Py.ord_A. unfold max_angle_num in Hi.
  repeat match goal with
         | |- context [(?a <? ?b)%Z] => destruct (Z.ltb_spec a b)
         end;
    cbn [contains]; rewrite ?byte_no_slash; try reflexivity;
    Z.to_euclidean_division_equations; lia.
Qed.

Lemma alnum_no_slash (c : ascii) :
  GuidePattern.is_alnum c = true -> Ascii.eqb c "/" = false.
Proof. destruct c as [[] [] [] [] [] [] [] []]; simpl; intros H; first [reflexivity | discriminate H]. Qed.

Lemma batch_guide_matches (all_files : list string) (b : batch) :
  In b (build_batches all_files (find_guide_photos all_files)) ->
  GuidePattern.search (guide_file b) = Some (batch_id b).
Proof.
  intros Hb. apply In_build_batches in Hb. destruct Hb as (k & g & Hk & ->).
  apply nth_error_In, find_guide_photos_In in Hk. destruct Hk as [_ Hsearch].
  exact Hsearch.
Qed.

Lemma batch_id_no_slash (all_files : list string) (b : batch) :
  In b (build_batches all_files (find_guide_photos all_files)) ->
  contains "/" (batch_id b) = false.
Proof.
  intros Hb. apply batch_guide_matches in Hb.
  apply search_found in Hb. destruct Hb as (pre & rest & _ & Hm).
  apply match_here_iff in Hm. destruct Hm as (x & y & e & tail & _ & -> & Hx & Hy & _).
  cbn [contains]. now rewrite (alnum_no_slash x Hx), (alnum_no_slash y Hy).
Qed.

Lemma extension_no_slash (f : string) :
  contains "/" (Py.lower (snd (OsPath.splitext f))) = false.
Proof.
  rewrite contains_lower_slash.
  destruct (splitext_ext_shape f) as [-> | (r & -> & _ & Hr)]; [reflexivity|].
  cbn [contains]. exact Hr.
Qed.

Lemma new_name_plain (region_code date_code : string) (angle_num : Z)
    (all_files : list string) (b : batch) (j : nat) (f : string) :
  contains "/" region_code = false ->
  contains "/" date_code = false ->
  (0 < angle_num <= max_angle_num)%Z ->
  In b (build_batches all_files (find_guide_photos all_files)) ->
  plain_name (new_name region_code date_code angle_num (batch_id b) j f).
Proof.
  intros Hregion Hdate Hrange Hb. apply contains_dash_plain; unfold new_name.
  - rewrite !contains_append, Hregion, Hdate, (batch_id_no_slash all_files b Hb),
      format_02d_no_slash, extension_no_slash.
    rewrite label_no_slash; [reflexivity|].
    pose proof (Z.mod_pos_bound (Z.of_nat j) angle_num). lia.
  - rewrite contains_append. cbn [append contains Ascii.eqb]. apply orb_true_r.
Qed.

Lemma length_build_batches (all_files : list string) (gs : list guide_info) :
  length (build_batches all_files gs) = length gs.
Proof. unfold build_batches. now rewrite length_map, length_enumerate. Qed.

(** Beyond the labels [chr] can make, the run ends before its first copy. *)
Lemma no_copy_beyond_labels
    (copy2 : path -> path -> bool) (base_work_dir : path)
    (region_code date_code : string) (single_folder_path : path) (angle_num : Z)
    (isdir : bool) (listing : list string) :
  (max_angle_num < angle_num)%Z ->
  copy_calls (trace (rename_and_copy_single_folder_mode copy2 base_work_dir region_code
                       date_code single_folder_path angle_num isdir listing))
  = [].
Proof.
  intros Hgt. destruct isdir; [|reflexivity].
  destruct (Py.sorted (filter is_supported listing)) as [| f0 l0] eqn:E.
  { unfold rename_and_copy_single_folder_mode. cbn [negb]. rewrite E. reflexivity. }
  rewrite run_group_and_copy by (rewrite E; discriminate).
  rewrite trace_pair, copy_calls_app. cbn [copy_calls flat_map app].
  set (all_files := Py.sorted (filter is_supported listing)).
  destruct (find_guide_photos all_files) as [| g gs] eqn:Eg.
  { unfold group_and_copy. rewrite Eg. reflexivity. }
  destruct (build_batches all_files (find_guide_photos all_files)) as [| b0 bs] eqn:Eb.
  { apply (f_equal (@length batch)) in Eb.
    rewrite length_build_batches, Eg in Eb. discriminate Eb. }
  rewrite (group_and_copy_steps _ _ _ _ _ _ all_files b0 bs Eb).
  destruct (_ && _).
  { rewrite trace_pair.
    apply (copy_calls_prints
             (fun b => MsgGuideFollowedBy (guide_file b) (length (files_to_rename b)))
             [Print ErrInconsistentBatches] (b0 :: bs) eq_refl). }
  assert (Hphase : forall n,
             copy_calls (trace (copy_phase copy2 region_code date_code single_folder_path
                                  angle_num (OsPath.join base_work_dir RENAMED_FOLDER_NAME)
                                  all_files (find_guide_photos all_files) (b0 :: bs) n))
             = []).
  { intros n. unfold copy_phase. rewrite (make_group_labels_raises angle_num Hgt).
    reflexivity. }
  unfold divisible. destruct (length (files_to_rename b0) =? 0)%nat.
  - rewrite (bind_ok _ _ [Print WarnNothingToProcess] true eq_refl), trace_pair.
    rewrite copy_calls_app, Hphase. reflexivity.
  - unfold modulo. destruct (Z.eqb_spec angle_num 0) as [E0 | _];
      [unfold max_angle_num in Hgt; lia|].
    rewrite bind_ret. destruct (negb _).
    + reflexivity.
    + rewrite bind_ret. apply Hphase.
Qed.

Lemma copies_stay_inside
    (copy2 : path -> path -> bool) (base_work_dir : path)
    (region_code date_code : string) (single_folder_path : path) (angle_num : Z)
    (isdir : bool) (listing : list string) :
  contains "/" region_code = false ->
  contains "/" date_code = false ->
  Forall plain_name listing ->
  Forall (fun c =>
            (exists f, In f listing /\ is_supported f = true /\ plain_name f
                       /\ fst (fst c) = OsPath.join single_folder_path f)
            /\ exists name,
                 plain_name name
                 /\ snd (fst c)
                    = OsPath.join (OsPath.join base_work_dir RENAMED_FOLDER_NAME) name)
         (copy_calls (trace (rename_and_copy_single_folder_mode copy2 base_work_dir
                               region_code date_code single_folder_path angle_num
                               isdir listing))).
Proof.
  intros Hregion Hdate Hlisting.
  destruct (Z.leb_spec angle_num max_angle_num) as [Hle | Hgt].
  2:{ rewrite no_copy_beyond_labels by exact Hgt. constructor. }
  rewrite Forall_forall in Hlisting.
  apply Forall_copy_calls.
  eapply Forall_impl; [|apply events_of_run; reflexivity].
  intros e He.
  destruct He as [| | | | b ok Hb | | | b j f ok Hb Hf Hpos | |]; try exact I.
  - destruct (batch_file_listed listing b (guide_file b) Hb) as [Hin Hsup]; [now left|].
    split.
    + exists (guide_file b). repeat split; trivial; now apply Hlisting.
    + exists (guide_file b). split; [now apply Hlisting | reflexivity].
  - destruct (batch_file_listed listing b f Hb) as [Hin Hsup].
    { right. eapply nth_error_In; exact Hf. }
    split.
    + exists f. repeat split; trivial; now apply Hlisting.
    + eexists. split; [|reflexivity].
      eapply new_name_plain; [exact Hregion | exact Hdate | lia | exact Hb].
Qed.

(** X8. When the region and date codes hold no separator and the names of the
    image folder are single components, as [os.listdir] gives them, every
    call of [shutil.copy2] of mode 2 reads a supported image that lies
    directly in the image folder and writes a file that lies directly in the
    output directory, whatever the run. *)
Theorem single_folder_reads_images_writes_output
    (copy2 : path -> path -> bool) (base_work_dir : path)
    (region_code date_code : string) (single_folder_path : path) (angle_num : Z)
    (isdir : bool) (listing : list string) :
  contains "/" region_code = false ->
  contains "/" date_code = false ->
  Forall plain_name listing ->
  Forall (fun c =>
            (exists f, In f listing /\ is_supported f = true /\ plain_name f
                       /\ fst (fst c) = OsPath.join single_folder_path f)
            /\ exists name,
                 plain_name name
                 /\ snd (fst c)
                    = OsPath.join (OsPath.join base_work_dir RENAMED_FOLDER_NAME) name)
         (copy_calls (trace (rename_and_copy_single_folder_mode copy2 base_work_dir
                               region_code date_code single_folder_path angle_num
                               isdir listing))).
Proof.
  intros Hregion Hdate Hlisting.
  exact (copies_stay_inside copy2 base_work_dir region_code date_code single_folder_path
           angle_num isdir listing Hregion Hdate Hlisting).
Qed.





(** The hypothesis on the region code is needed: the command line does not
    check it, and a separator in it goes into the new name. *)
Example separator_in_region_leaves_output :
  new_name "../" "250701" 2 "AB" 0 "x1.JPEG" = "../-250701-AB01-A.jpeg"
  /\ contains "/" (new_name "../" "250701" 2 "AB" 0 "x1.JPEG") = true.
Proof. split; reflexivity. Qed.

Lemma single_folder_reads_images_writes_output_witness :
  Forall (fun c =>
            (exists f, In f one_batch /\ is_supported f = true /\ plain_name f
                       /\ fst (fst c) = ["w"; "phone_image"; f])
            /\ exists name, plain_name name /\ snd (fst c) = ["w"; "renamed"; name])
         (copy_calls (trace (rename_and_copy_single_folder_mode always_copied ["w"] "HR"
                               "250701" ["w"; "phone_image"] 2 true one_batch))).
Proof.
  apply (single_folder_reads_images_writes_output always_copied ["w"] "HR" "250701"
           ["w"; "phone_image"] 2 true one_batch).
  - reflexivity.
  - reflexivity.
  - repeat constructor; discriminate.
Defined.

